(** * azureml-assets: asset publishing script and detection inference wrapper

    A shallow embedding of
    - [scripts/release/asset_publish.py]: asset URI parsing, dependency
      version reconciliation, spec rewriting and the per-asset publishing step;
    - [processors/pyfunc/vision/detection_predict.py]: post-processing of
      detector results (coordinate normalisation, polygon filtering).

    Python values are modelled as the code uses them: strings as [string],
    [None] as [option], dicts whose iteration order matters as association
    lists, external processes (the [az] CLI, YAML dumps) as events appended to
    a trace, with the answers of the CLI given by an oracle that may depend on
    everything issued so far. *)

From Stdlib Require Import String Ascii List Bool Arith Lia ZArith QArith Lqa
  Permutation.
Import ListNotations.
Close Scope Q_scope.
Set Warnings "-register-all".
Open Scope string_scope.

(** ** Backtracking regular expressions, as Python's [re] module runs them *)

Module Re.

Definition text := list ascii.

Definition newline : ascii := "010"%char.

Definition is_newline (c : ascii) : bool := Ascii.eqb c newline.

(** The fragment of the pattern language used by [asset_publish.py]:
    literals, the greedy [.+], capturing groups, concatenation, ordered
    alternation, the greedy optional [?] and the end anchor [$]. *)
Inductive re : Type :=
| Lit (p : string)
| DotPlus
| Grp (n : nat) (r : re)
| Cat (r1 r2 : re)
| Alt (r1 r2 : re)
| Opt (r : re)
| Eos.

(** Group table of a match object: [None] for a group that did not take part. *)
Definition groups := nat -> option string.

Definition no_groups : groups := fun _ => None.

Definition set_group (n : nat) (v : string) (g : groups) : groups :=
  fun m => if Nat.eqb m n then Some v else g m.

Fixpoint strip_prefix (p s : text) : option text :=
  match p, s with
  | [], _ => Some s
  | a :: p', b :: s' => if Ascii.eqb a b then strip_prefix p' s' else None
  | _ :: _, [] => None
  end.

Section Matcher.

Context {A : Type}.

(** Greedy [.+]: every character but a newline, at least one, longest first;
    [k] is tried on each remainder while backtracking. *)
Fixpoint dot_plus (s : text) (k : text -> option A) : option A :=
  match s with
  | [] => None
  | c :: s' =>
      if is_newline c then None
      else match dot_plus s' k with
           | Some a => Some a
           | None => k s'
           end
  end.

(** [$] without MULTILINE: at the end, or just before a final newline. *)
Definition at_end (s : text) : bool :=
  match s with
  | [] => true
  | [c] => is_newline c
  | _ => false
  end.

Fixpoint run (r : re) (s : text) (g : groups)
    (k : text -> groups -> option A) : option A :=
  match r with
  | Lit p =>
      match strip_prefix (list_ascii_of_string p) s with
      | Some s' => k s' g
      | None => None
      end
  | DotPlus => dot_plus s (fun s' => k s' g)
  | Grp n r1 =>
      run r1 s g (fun s' g' =>
        k s' (set_group n
                (string_of_list_ascii (firstn (length s - length s') s)) g'))
  | Cat r1 r2 => run r1 s g (fun s' g' => run r2 s' g' k)
  | Alt r1 r2 =>
      match run r1 s g k with
      | Some a => Some a
      | None => run r2 s g k
      end
  | Opt r1 =>
      match run r1 s g k with
      | Some a => Some a
      | None => k s g
      end
  | Eos => if at_end s then k s g else None
  end.

End Matcher.

(** [pattern.match(string)]: anchored at the start, free at the end. *)
Definition re_match (r : re) (s : string) : option groups :=
  run r (list_ascii_of_string s) no_groups (fun _ g => Some g).

Definition count_slash (s : text) : nat :=
  length (filter (fun c => Ascii.eqb c "/"%char) s).

Definition no_newline (s : text) : bool :=
  forallb (fun c => negb (is_newline c)) s.

(** Least number of slashes in a text the expression can consume. *)
Fixpoint min_slashes (r : re) : nat :=
  match r with
  | Lit p => count_slash (list_ascii_of_string p)
  | DotPlus => 0
  | Grp _ r1 => min_slashes r1
  | Cat r1 r2 => min_slashes r1 + min_slashes r2
  | Alt r1 r2 => Nat.min (min_slashes r1) (min_slashes r2)
  | Opt _ => 0
  | Eos => 0
  end.

End Re.

(** ** scripts/release/asset_publish.py *)

Module AssetPublish.

Import Re.

(** [assets.AssetType] *)
Inductive AssetType : Type := DATA | ENVIRONMENT | COMPONENT | MODEL.

Definition asset_type_value (t : AssetType) : string :=
  match t with
  | DATA => "data"
  | ENVIRONMENT => "environment"
  | COMPONENT => "component"
  | MODEL => "model"
  end.

Definition PROD_SYSTEM_REGISTRY : string := "azureml".

Definition CREATE_ORDER : list AssetType := [DATA; ENVIRONMENT; COMPONENT; MODEL].

Definition LATEST_LABEL : string := "latest".

(** [f"{asset_type}s" if asset_type != "data" else asset_type] *)
Definition pluralize_asset_type (asset_type : string) : string :=
  if String.eqb asset_type "data" then asset_type else asset_type ++ "s".

(** [ASSET_ID_TEMPLATE.substitute(...)] *)
Definition ASSET_ID_TEMPLATE (registry_name asset_type asset_name version : string)
    : string :=
  "azureml://registries/" ++ registry_name ++ "/" ++ asset_type ++ "/"
    ++ asset_name ++ "/versions/" ++ version.

(** [^(?:azureml:)?(.+)(?::(.+)|@(.+))$] *)
Definition WORKSPACE_ASSET_PATTERN : re :=
  Cat (Opt (Lit "azureml:"))
   (Cat (Grp 1 DotPlus)
    (Cat (Alt (Cat (Lit ":") (Grp 2 DotPlus)) (Cat (Lit "@") (Grp 3 DotPlus)))
         Eos)).

(** [^azureml://registries/(.+)/$asset_type/(.+)/(?:versions/(.+)|labels/(.+))]
    with [$asset_type] substituted (none of the plural type names holds a
    character that is special in a pattern). *)
Definition REGISTRY_ASSET_TEMPLATE (asset_type : string) : re :=
  Cat (Lit "azureml://registries/")
   (Cat (Grp 1 DotPlus)
    (Cat (Lit ("/" ++ asset_type ++ "/"))
     (Cat (Grp 2 DotPlus)
      (Cat (Lit "/")
           (Alt (Cat (Lit "versions/") (Grp 3 DotPlus))
                (Cat (Lit "labels/") (Grp 4 DotPlus))))))).

(** The tuple [(name, version, label, registry_name)]; the name group always
    takes part in a match, the others may be [None]. *)
Record ParsedUri : Type := mkParsed {
  asset_name : string;
  asset_version : option string;
  asset_label : option string;
  asset_registry_name : option string
}.

Definition group_or_empty (g : groups) (n : nat) : string :=
  match g n with Some v => v | None => "" end.

(** [None] stands for the raised
    [Exception("... doesn't match workspace or registry pattern.")]. *)
Definition get_parsed_details_from_asset_uri (asset_type : AssetType)
    (asset_uri : string) : option ParsedUri :=
  let REGISTRY_ASSET_PATTERN :=
    REGISTRY_ASSET_TEMPLATE (pluralize_asset_type (asset_type_value asset_type)) in
  match re_match REGISTRY_ASSET_PATTERN asset_uri with
  | Some g => Some (mkParsed (group_or_empty g 2) (g 3) (g 4) (g 1))
  | None =>
      match re_match WORKSPACE_ASSET_PATTERN asset_uri with
      | Some g => Some (mkParsed (group_or_empty g 1) (g 2) (g 3) None)
      | None => None
      end
  end.


(** *** YAML documents and Python truthiness *)

(** A document as [ruamel.yaml] loads it. Numbers are left out: the script
    never inspects one. Mappings keep the order of their keys. *)
Inductive yaml : Type :=
| YNull
| YBool (b : bool)
| YStr (s : string)
| YSeq (items : list yaml)
| YMap (kvs : list (string * yaml)).

Definition truthy (y : yaml) : bool :=
  match y with
  | YNull => false
  | YBool b => b
  | YStr s => negb (String.eqb s "")
  | YSeq items => match items with [] => false | _ => true end
  | YMap kvs => match kvs with [] => false | _ => true end
  end.

(** Truthiness of an optional string ([None] and [""] are false). *)
Definition str_truthy (o : option string) : bool :=
  match o with
  | Some s => negb (String.eqb s "")
  | None => false
  end.

Fixpoint dict_get {V : Type} (k : string) (d : list (string * V)) : option V :=
  match d with
  | [] => None
  | (k', v) :: d' => if String.eqb k' k then Some v else dict_get k d'
  end.

Definition dict_has {V : Type} (k : string) (d : list (string * V)) : bool :=
  match dict_get k d with Some _ => true | None => false end.

(** [d[k] = v]: overwrite in place, or append a new key. *)
Fixpoint dict_set {V : Type} (k : string) (v : V) (d : list (string * V))
    : list (string * V) :=
  match d with
  | [] => [(k, v)]
  | (k', v') :: d' =>
      if String.eqb k' k then (k, v) :: d' else (k', v') :: dict_set k v d'
  end.

Definition str_in (x : string) (l : list string) : bool :=
  existsb (String.eqb x) l.

(** [sub in s] on strings. *)
Definition substring_of (sub s : string) : bool :=
  match String.index 0 sub s with Some _ => true | None => false end.

(** *** Assets, configuration and the outside world *)

(** [assets.AssetConfig], with the two values the script reads through
    [spec_as_object()] and [extra_config_as_object()]. *)
Record AssetConfig : Type := mkAsset {
  type : AssetType;
  name : string;
  version : string;
  spec_with_path : string;
  component_type : option string;
  description : option string
}.

(** Parsed command line. *)
Record Args : Type := mkArgs {
  registry_name : string;
  resource_group : option string;
  workspace : option string;
  version_suffix : option string;
  create_list : list (string * list string);
  debug : bool;
  az_path : string
}.

(** A file under a spec path: something the YAML loader rejects, or a document. *)
Inductive file : Type :=
| Garbled
| Yaml (doc : yaml).

(** What leaves the process: CLI invocations, SDK calls and file dumps. *)
Inductive Effect : Type :=
| AzShow (asset_type asset_name asset_version registry : string)
| AzList (asset_type asset_name registry : string)
| AzCreate (cmd : list string)
| DumpYaml (path : string) (doc : yaml)
| PrepareModel (spec_path registry : string)
| UpdateModelMetadata (model_name model_version : string)
    (tags : option (list (string * string))) (descr : option string).

(** [logger.log_error] and [logger.log_warning] calls, by call site, with the
    values interpolated in the message. *)
Inductive LogMsg : Type :=
| ErrUriPattern (uri : yaml)
| WarnForeignRegistry (target asset registry : string)
| ErrNoVersions (env_name : string)
| ErrLabelUnsupported (env_label : string)
| ErrEnvNotFound (env_name registry : string) (versions_to_try : list string)
| ErrLoadingSpec (spec_path : string)
| ErrNoEnvironment (component_name : yaml)
| WarnDependentNotFound (comp_name comp_version : string) (registry : option string)
| ErrListFailed
| ErrCreating (asset_type asset_name : string)
| ErrUpdateMetadata (asset_name asset_version : string)
| ErrModelPrepare (spec_path : string).

(** JSON object printed by [az ml <type> show]; the script reads its [id]. *)
Record Details : Type := mkDetails { id : string }.

(** Answer of [prepare_model]. *)
Inductive Prepared : Type :=
| PrepareRaised
| PrepareFailed
| PrepareDone (model : yaml).

(** The registry and SDK behind the script. Each answer may depend on every
    effect issued before it. [None] from [az_show] or [az_list] is a non-zero
    return code. *)
Record Cloud : Type := mkCloud {
  az_show : list Effect -> string -> string -> string -> string -> option Details;
  az_list : list Effect -> string -> string -> string -> option (list string);
  az_create : list Effect -> list string -> Z;
  sdk_prepare_model : list Effect -> string -> string -> Prepared;
  sdk_update_raises : list Effect -> string -> string -> bool;
  py_str : yaml -> string
}.

Record State : Type := mkState {
  fs : list (string * file);
  effects : list Effect;
  log : list LogMsg;
  failure_list : list AssetConfig;
  asset_ids : list (string * string)
}.

(** *** A state monad with uncaught exceptions *)

Inductive Result (A : Type) : Type :=
| Return (a : A)
| Raised.

Arguments Return {A} a.
Arguments Raised {A}.

Definition M (A : Type) : Type := State -> Result A * State.

Definition ret {A : Type} (a : A) : M A := fun st => (Return a, st).

Definition raise {A : Type} : M A := fun st => (Raised, st).

Definition bind {A B : Type} (m : M A) (f : A -> M B) : M B :=
  fun st =>
    match m st with
    | (Return a, st') => f a st'
    | (Raised, st') => (Raised, st')
    end.

Notation "x <- m ;; f" := (bind m (fun x => f))
  (at level 61, m at next level, right associativity).
Notation "m ;;; f" := (bind m (fun _ => f))
  (at level 61, right associativity).

Definition emit (e : Effect) : M unit :=
  fun st => (Return tt,
             mkState (fs st) (effects st ++ [e])%list (log st)
                     (failure_list st) (asset_ids st)).

Definition logger (m : LogMsg) : M unit :=
  fun st => (Return tt,
             mkState (fs st) (effects st) (log st ++ [m])%list
                     (failure_list st) (asset_ids st)).

Definition history : M (list Effect) := fun st => (Return (effects st), st).

Definition read_file (path : string) : M (option file) :=
  fun st => (Return (dict_get path (fs st)), st).

(** [util.dump_yaml(doc, path)], taken to succeed: the file is replaced. *)
Definition dump_yaml (doc : yaml) (path : string) : M unit :=
  fun st => (Return tt,
             mkState (dict_set path (Yaml doc) (fs st))
                     (effects st ++ [DumpYaml path doc])%list (log st)
                     (failure_list st) (asset_ids st)).

Definition fail_asset (a : AssetConfig) : M unit :=
  fun st => (Return tt,
             mkState (fs st) (effects st) (log st)
                     (failure_list st ++ [a])%list (asset_ids st)).

Definition record_asset_id (k v : string) : M unit :=
  fun st => (Return tt,
             mkState (fs st) (effects st) (log st)
                     (failure_list st) (dict_set k v (asset_ids st))).

Definition when (b : bool) (m : M unit) : M unit := if b then m else ret tt.

Section Publish.

Variable cloud : Cloud.

(** [az ml <type> list --name ... --registry-name ...] *)
Definition get_asset_versions (asset_type asset_name registry : string)
    : M (list string) :=
  h <- history ;;
  emit (AzList asset_type asset_name registry) ;;;
  match az_list cloud h asset_type asset_name registry with
  | None => logger ErrListFailed ;;; ret []
  | Some versions => ret versions
  end.

(** [az ml <type> show --name ... --version ... --registry-name ...] *)
Definition get_asset_details (asset_type asset_name asset_version registry : string)
    : M (option Details) :=
  h <- history ;;
  emit (AzShow asset_type asset_name asset_version registry) ;;;
  ret (az_show cloud h asset_type asset_name asset_version registry).

(** [registry and registry not in [PROD_SYSTEM_REGISTRY, registry_name]] *)
Definition foreign_registry (registry : option string) (target : string) : bool :=
  match registry with
  | Some r => str_truthy registry && negb (str_in r [PROD_SYSTEM_REGISTRY; target])
  | None => false
  end.

(** [registry or registry_name] *)
Definition registry_or (registry : option string) (target : string) : string :=
  match registry with
  | Some r => if str_truthy registry then r else target
  | None => target
  end.

(** Value returned by [get_environment_asset_id]: an asset ID, [False] or
    [None]. *)
Inductive EnvId : Type :=
| EnvStr (asset_id : string)
| EnvFalse
| EnvNone.

(** The loop over [versions_to_try]. *)
Fixpoint try_versions (asset_type asset_name : string) (versions : list string)
    (registry : string) : M (option Details) :=
  match versions with
  | [] => ret None
  | v :: rest =>
      d <- get_asset_details asset_type asset_name v registry ;;
      match d with
      | Some env => ret (Some env)
      | None => try_versions asset_type asset_name rest registry
      end
  end.

Definition get_environment_asset_id (environment_id : yaml)
    (suffix : option string) (target : string) : M EnvId :=
  match
    match environment_id with
    | YStr uri => get_parsed_details_from_asset_uri ENVIRONMENT uri
    | _ => None
    end
  with
  | None => logger (ErrUriPattern environment_id) ;;; ret EnvFalse
  | Some p =>
      let env_name := asset_name p in
      when (foreign_registry (asset_registry_name p) target)
           (logger (WarnForeignRegistry target env_name
                      (registry_or (asset_registry_name p) target))) ;;;
      let registry := registry_or (asset_registry_name p) target in
      let resolve (env_version : option string) : M EnvId :=
        match env_version with
        | None => raise
        | Some v =>
            let versions_to_try :=
              v :: (if str_truthy suffix
                    then match suffix with
                         | Some sfx => [v ++ "-" ++ sfx]
                         | None => []
                         end
                    else []) in
            d <- try_versions (asset_type_value ENVIRONMENT) env_name
                   versions_to_try registry ;;
            match d with
            | Some env => ret (EnvStr (id env))
            | None =>
                logger (ErrEnvNotFound env_name registry versions_to_try) ;;;
                ret EnvNone
            end
        end in
      if str_truthy (asset_label p) then
        match asset_label p with
        | Some env_label =>
            if String.eqb env_label LATEST_LABEL then
              versions <- get_asset_versions (asset_type_value ENVIRONMENT)
                            env_name registry ;;
              match versions with
              | latest :: _ => resolve (Some latest)
              | [] => logger (ErrNoVersions env_name) ;;; ret EnvFalse
              end
            else logger (ErrLabelUnsupported env_label) ;;; ret EnvFalse
        | None => ret EnvFalse
        end
      else resolve (asset_version p)
  end.

(** [current_env_id != new_env_id] for a returned string or [False]. *)
Definition env_differs (current : yaml) (new_env_id : EnvId) : bool :=
  match current, new_env_id with
  | YStr s, EnvStr i => negb (String.eqb s i)
  | YBool false, EnvFalse => false
  | YNull, EnvNone => false
  | _, _ => true
  end.

Definition env_value (new_env_id : EnvId) : yaml :=
  match new_env_id with
  | EnvStr i => YStr i
  | EnvFalse => YBool false
  | EnvNone => YNull
  end.

(** Where the environment reference lives. *)
Inductive EnvPlace : Type :=
| TopLevel
| UnderTask (task : list (string * yaml)).

(** The [if 'environment' in ... elif 'task' in ... else] cascade:
    [Return None] is the logged [return False]; a [task] that is not a
    mapping makes [in] or the later subscript raise. *)
Definition locate_environment (component_dict : list (string * yaml))
    : Result (option EnvPlace) :=
  if dict_has "environment" component_dict then Return (Some TopLevel)
  else match dict_get "task" component_dict with
       | None => Return None
       | Some (YMap task) =>
           if dict_has "environment" task then Return (Some (UnderTask task))
           else Return None
       | Some (YStr s) =>
           if substring_of "environment" s then Raised else Return None
       | Some (YSeq items) =>
           if existsb (fun y => match y with
                                | YStr s => String.eqb s "environment"
                                | _ => false
                                end) items
           then Raised else Return None
       | Some _ => Raised
       end.

Definition validate_update_component (spec_path : string)
    (suffix : option string) (target : string) : M bool :=
  f <- read_file spec_path ;;
  match f with
  | None => raise
  | Some Garbled => logger (ErrLoadingSpec spec_path) ;;; ret false
  | Some (Yaml (YMap component_dict)) =>
      match dict_get "name" component_dict with
      | None => raise
      | Some component_name =>
          match locate_environment component_dict with
          | Raised => raise
          | Return None => logger (ErrNoEnvironment component_name) ;;; ret false
          | Return (Some place) =>
              let obj_with_env :=
                match place with
                | TopLevel => component_dict
                | UnderTask task => task
                end in
              match dict_get "environment" obj_with_env with
              | None => raise
              | Some current_env_id =>
                  new_env_id <- get_environment_asset_id current_env_id suffix target ;;
                  match new_env_id with
                  | EnvNone => ret false
                  | _ =>
                      let obj' :=
                        if env_differs current_env_id new_env_id
                        then dict_set "environment" (env_value new_env_id) obj_with_env
                        else obj_with_env in
                      let component_dict' :=
                        match place with
                        | TopLevel => obj'
                        | UnderTask _ => dict_set "task" (YMap obj') component_dict
                        end in
                      dump_yaml (YMap component_dict') spec_path ;;;
                      ret true
                  end
              end
          end
      end
  | Some (Yaml _) => raise
  end.

(** One turn of the loop over [jobs.items()]: [target] is the loop's current
    [registry_name], which the body reassigns. The result is [None] for
    [return False], else the registry name and the jobs rewritten so far. *)
Definition prepare_job (suffix : option string) (target : string)
    (updated_jobs : list (string * yaml)) (job_name : string) (job_details : yaml)
    : M (option (string * list (string * yaml))) :=
  match job_details with
  | YMap details =>
      let component :=
        match dict_get "component" details with Some c => c | None => YNull end in
      if negb (truthy component) then
        ret (Some (target, dict_set job_name job_details updated_jobs))
      else
        match
          match component with
          | YStr uri => get_parsed_details_from_asset_uri COMPONENT uri
          | _ => None
          end
        with
        | None => logger (ErrUriPattern component) ;;; ret None
        | Some p =>
            let registry := asset_registry_name p in
            when (foreign_registry registry target)
                 (logger (WarnForeignRegistry target (asset_name p)
                            (registry_or registry target))) ;;;
            match asset_version p with
            | None => raise
            | Some v =>
                let final_version :=
                  if str_truthy suffix
                  then match suffix with
                       | Some sfx => v ++ "-" ++ sfx
                       | None => v
                       end
                  else v in
                let target' := registry_or registry target in
                d <- try_versions (asset_type_value COMPONENT) (asset_name p)
                       [v; final_version] target' ;;
                match d with
                | None =>
                    logger (WarnDependentNotFound (asset_name p) v registry) ;;;
                    ret None
                | Some asset_details =>
                    ret (Some (target',
                               dict_set job_name
                                 (YMap (dict_set "component"
                                          (YStr (id asset_details)) details))
                                 updated_jobs))
                end
            end
        end
  | _ => raise
  end.

Fixpoint prepare_jobs (suffix : option string) (target : string)
    (updated_jobs : list (string * yaml)) (jobs : list (string * yaml))
    : M (option (list (string * yaml))) :=
  match jobs with
  | [] => ret (Some updated_jobs)
  | (job_name, job_details) :: rest =>
      r <- prepare_job suffix target updated_jobs job_name job_details ;;
      match r with
      | None => ret None
      | Some (target', updated_jobs') => prepare_jobs suffix target' updated_jobs' rest
      end
  end.

Definition validate_and_prepare_pipeline_component (spec_path : string)
    (suffix : option string) (target : string) : M bool :=
  f <- read_file spec_path ;;
  match f with
  | None => raise
  | Some Garbled => logger (ErrLoadingSpec spec_path) ;;; ret false
  | Some (Yaml (YMap pipeline_dict)) =>
      match dict_get "jobs" pipeline_dict, dict_get "name" pipeline_dict with
      | Some (YMap jobs), Some _ =>
          r <- prepare_jobs suffix target [] jobs ;;
          match r with
          | None => ret false
          | Some updated_jobs =>
              dump_yaml (YMap (dict_set "jobs" (YMap updated_jobs) pipeline_dict))
                        spec_path ;;;
              ret true
          end
      | _, _ => raise
      end
  | Some (Yaml _) => raise
  end.

(** [asset_create_command] *)
Definition asset_create_command (az asset_type asset_path registry version : string)
    (resource_group workspace : option string) (debug_mode : bool) : list string :=
  ([az; "ml"; asset_type; "create";
    "--file"; asset_path;
    "--registry-name"; registry;
    "--version"; version]
   ++ (match resource_group with
       | Some rg => if str_truthy resource_group then ["--resource-group"; rg] else []
       | None => []
       end)
   ++ (match workspace with
       | Some ws => if str_truthy workspace then ["--workspace"; ws] else []
       | None => []
       end)
   ++ (if debug_mode then ["--debug"] else []))%list.

Definition create_asset (args : Args) (asset : AssetConfig) (version : string)
    : M unit :=
  let cmd := asset_create_command (az_path args) (asset_type_value (type asset))
               (spec_with_path asset) (registry_name args) version
               (resource_group args) (workspace args) (debug args) in
  h <- history ;;
  emit (AzCreate cmd) ;;;
  if Z.eqb (az_create cloud h cmd) 0 then ret tt
  else logger (ErrCreating (asset_type_value (type asset)) (name asset)) ;;;
       fail_asset asset.

(** Tags of a model spec, each value turned into a string; [None] when
    reading them raised. *)
Definition tags_to_update (f : option file) : option (list (string * string)) :=
  match f with
  | Some (Yaml (YMap model_spec)) =>
      match dict_get "tags" model_spec with
      | None => Some []
      | Some (YMap tags) => Some (map (fun kv => (fst kv, py_str cloud (snd kv))) tags)
      | Some _ => None
      end
  | _ => None
  end.

(** [update_asset_metadata]; the boolean tells whether the SDK call raised. *)
Definition update_asset_metadata (asset : AssetConfig) : M bool :=
  match type asset with
  | MODEL =>
      f <- read_file (spec_with_path asset) ;;
      h <- history ;;
      emit (UpdateModelMetadata (name asset) (version asset)
              (tags_to_update f) (description asset)) ;;;
      ret (sdk_update_raises cloud h (name asset) (version asset))
  | _ => ret false
  end.

(** [prepare_model_for_registration]: [None] when [prepare_model] raised. *)
Definition prepare_model_for_registration (asset : AssetConfig) (registry : string)
    : M (option bool) :=
  h <- history ;;
  emit (PrepareModel (spec_with_path asset) registry) ;;;
  match sdk_prepare_model cloud h (spec_with_path asset) registry with
  | PrepareRaised => ret None
  | PrepareFailed => ret (Some false)
  | PrepareDone model => dump_yaml model (spec_with_path asset) ;;; ret (Some true)
  end.

(** [asset.version + "-" + passed_version if passed_version else asset.version] *)
Definition suffixed_version (v : string) (suffix : option string) : string :=
  match suffix with
  | Some sfx => if str_truthy suffix then v ++ "-" ++ sfx else v
  | None => v
  end.

(** ["*" in asset_names or asset.name in asset_names] *)
Definition selected (args : Args) (asset : AssetConfig) : bool :=
  let asset_names :=
    match dict_get (asset_type_value (type asset)) (create_list args) with
    | Some names => names
    | None => []
    end in
  str_in "*" asset_names || str_in (name asset) asset_names.

(** Body of the loop [for asset in assets_to_publish]. *)
Definition publish_asset (args : Args) (asset : AssetConfig) : M unit :=
  if negb (selected args asset) then ret tt
  else
    let final_version := suffixed_version (version asset) (version_suffix args) in
    record_asset_id (name asset)
      (ASSET_ID_TEMPLATE (registry_name args)
         (pluralize_asset_type (asset_type_value (type asset)))
         (name asset) final_version) ;;;
    existing <- get_asset_details (asset_type_value (type asset)) (name asset)
                  (version asset) (registry_name args) ;;
    match existing with
    | Some _ =>
        raised <- update_asset_metadata asset ;;
        when raised (logger (ErrUpdateMetadata (name asset) (version asset)))
    | None =>
        match type asset with
        | COMPONENT =>
            let pipeline :=
              match component_type asset with
              | Some t => String.eqb t "pipeline"
              | None => false
              end in
            let plain :=
              match component_type asset with
              | Some t => str_in t ["command"; "parallel"]
              | None => true
              end in
            if pipeline then
              ok <- validate_and_prepare_pipeline_component (spec_with_path asset)
                      (version_suffix args) (registry_name args) ;;
              if ok then create_asset args asset final_version
              else fail_asset asset
            else if plain then
              ok <- validate_update_component (spec_with_path asset)
                      (version_suffix args) (registry_name args) ;;
              if ok then create_asset args asset final_version
              else fail_asset asset
            else create_asset args asset final_version
        | MODEL =>
            prepared <- prepare_model_for_registration asset (registry_name args) ;;
            match prepared with
            | Some true => create_asset args asset (version asset)
            | _ =>
                logger (ErrModelPrepare (spec_with_path asset)) ;;;
                fail_asset asset
            end
        | _ => create_asset args asset final_version
        end
    end.

Fixpoint publish_assets (args : Args) (assets_to_publish : list AssetConfig)
    : M unit :=
  match assets_to_publish with
  | [] => ret tt
  | asset :: rest => publish_asset args asset ;;; publish_assets args rest
  end.

Definition is_pipeline (a : AssetConfig) : bool :=
  match component_type a with
  | Some t => String.eqb t "pipeline"
  | None => false
  end.

(** [assets_by_type.get(t, [])], with the stable sort that moves pipeline
    components behind the others. *)
Definition assets_of_type (t : AssetType) (all_assets : list AssetConfig)
    : list AssetConfig :=
  let found :=
    filter (fun a => String.eqb (asset_type_value (type a)) (asset_type_value t))
           all_assets in
  match t with
  | COMPONENT =>
      (filter (fun a => negb (is_pipeline a)) found ++ filter is_pipeline found)%list
  | _ => found
  end.

(** The loop [for create_asset_type in CREATE_ORDER]. *)
Fixpoint publish_types (args : Args) (order : list AssetType)
    (all_assets : list AssetConfig) : M unit :=
  match order with
  | [] => ret tt
  | t :: rest =>
      (if dict_has (asset_type_value t) (create_list args)
       then publish_assets args (assets_of_type t all_assets)
       else ret tt) ;;;
      publish_types args rest all_assets
  end.

Definition main (args : Args) (all_assets : list AssetConfig) : M unit :=
  publish_types args CREATE_ORDER all_assets.

End Publish.

(** The state after an optional warning: only the log may have grown. *)
Definition logged (b : bool) (m : LogMsg) (st : State) : State :=
  if b
  then mkState (fs st) (effects st) (log st ++ [m])%list
               (failure_list st) (asset_ids st)
  else st.

(** *** The rest of the script *)

(** [BEARER = r"Bearer.*"]; the greedy [.*] is an optional greedy [.+]. *)
Definition BEARER : re := Cat (Lit "Bearer") (Opt DotPlus).

(** Where the match of [r] at the head of [s] ends: the text left over. *)
Definition match_end (r : re) (s : text) : option text :=
  run r s no_groups (fun rest _ => Some rest).

(** [re.sub(BEARER, "", input)], scanning from the left: where the pattern
    matches, the match is dropped and the scan resumes at its end (the
    pattern matches no empty text); elsewhere the character is kept. Each
    step uses one unit of [fuel]. *)
Fixpoint sub_bearer (fuel : nat) (s : text) : text :=
  match fuel with
  | 0 => []
  | S n =>
      match s with
      | [] => []
      | c :: s' =>
          match match_end BEARER s with
          | Some rest => sub_bearer n rest
          | None => c :: sub_bearer n s'
          end
      end
  end.

Definition sanitize_output (input : string) : string :=
  string_of_list_ascii
    (sub_bearer (String.length input) (list_ascii_of_string input)).

(** [failed_assets[asset.type.value].append(asset.name)] over the failure
    list, on a [defaultdict(list)]. *)
Definition failed_assets (failures : list AssetConfig)
    : list (string * list string) :=
  fold_left
    (fun acc asset =>
       let k := asset_type_value (type asset) in
       dict_set k
         ((match dict_get k acc with Some names => names | None => [] end)
            ++ [name asset])%list
         acc)
    failures [].

Definition manifest_yaml (manifest : list (string * list string)) : yaml :=
  YMap (map (fun kv => (fst kv, YSeq (map YStr (snd kv)))) manifest).

(** The block [if len(failure_list) > 0: ... yaml.dump(dict(failed_assets), file)]. *)
Definition write_failed_list (failed_list_file : string) : M unit :=
  fun st =>
    match failure_list st with
    | [] => ret tt st
    | _ => dump_yaml (manifest_yaml (failed_assets (failure_list st)))
                     failed_list_file st
    end.

(** One turn of [for job_name, job in data['jobs'].items()] in
    [preprocess_test_files]: [job['component']] is replaced by its asset ID
    when it is a key of [asset_ids]. A job that is no mapping, a missing
    [component] and an unhashable [component] raise. *)
Definition preprocess_job (ids : list (string * string)) (job : yaml)
    : Result yaml :=
  match job with
  | YMap j =>
      match dict_get "component" j with
      | None => Raised
      | Some (YStr asset_name) =>
          match dict_get asset_name ids with
          | Some asset_id => Return (YMap (dict_set "component" (YStr asset_id) j))
          | None => Return job
          end
      | Some (YSeq _) => Raised
      | Some (YMap _) => Raised
      | Some _ => Return job
      end
  | _ => Raised
  end.

Fixpoint preprocess_jobs (ids : list (string * string))
    (jobs : list (string * yaml)) : Result (list (string * yaml)) :=
  match jobs with
  | [] => Return []
  | (job_name, job) :: rest =>
      match preprocess_job ids job with
      | Raised => Raised
      | Return job' =>
          match preprocess_jobs ids rest with
          | Raised => Raised
          | Return rest' => Return ((job_name, job') :: rest')
          end
      end
  end.

(** The body of [for test_job in test_jobs]: load, rewrite, dump. Nothing
    here is caught. *)
Definition preprocess_test_file (test_job : string) : M unit :=
  f <- read_file test_job ;;
  match f with
  | Some (Yaml (YMap data)) =>
      match dict_get "jobs" data with
      | Some (YMap jobs) =>
          fun st =>
            match preprocess_jobs (asset_ids st) jobs with
            | Raised => raise st
            | Return jobs' =>
                dump_yaml (YMap (dict_set "jobs" (YMap jobs') data)) test_job st
            end
      | _ => raise
      end
  | _ => raise
  end.

Fixpoint preprocess_test_files (test_jobs : list string) : M unit :=
  match test_jobs with
  | [] => ret tt
  | test_job :: rest =>
      preprocess_test_file test_job ;;; preprocess_test_files rest
  end.

(** *** Counting the characters a pattern needs *)

Definition count_char (f : ascii -> bool) (s : text) : nat :=
  length (filter f s).

(** Least number of characters satisfying [f] in a text the expression can
    consume. *)
Fixpoint min_count (f : ascii -> bool) (r : re) : nat :=
  match r with
  | Lit p => count_char f (list_ascii_of_string p)
  | DotPlus => 0
  | Grp _ r1 => min_count f r1
  | Cat r1 r2 => min_count f r1 + min_count f r2
  | Alt r1 r2 => Nat.min (min_count f r1) (min_count f r2)
  | Opt _ => 0
  | Eos => 0
  end.

(** The characters that end a name in a workspace URI. *)
Definition is_separator (c : ascii) : bool :=
  Ascii.eqb c ":"%char || Ascii.eqb c "@"%char.

Definition separator_free (s : string) : bool :=
  forallb (fun c => negb (is_separator c)) (list_ascii_of_string s).

(** *** Scenarios *)

(** A registry that holds nothing; creation succeeds. *)
Definition empty_registry : Cloud :=
  mkCloud (fun _ _ _ _ _ => None) (fun _ _ _ _ => None) (fun _ _ => 0%Z)
          (fun _ _ _ => PrepareFailed) (fun _ _ _ => false) (fun _ => "").

(** A registry given by the list of the assets it holds, as
    [(type, name, version, registry)] with the asset's ID. *)
Definition registry_holding
    (held : list ((string * string * string * string) * string)) : Cloud :=
  mkCloud
    (fun _ t n v r =>
       match find (fun e =>
                     let '(t', n', v', r') := fst e in
                     String.eqb t' t && String.eqb n' n
                     && String.eqb v' v && String.eqb r' r) held with
       | Some e => Some (mkDetails (snd e))
       | None => None
       end)
    (fun _ _ _ _ => None) (fun _ _ => 0%Z)
    (fun _ _ _ => PrepareFailed) (fun _ _ _ => false) (fun _ => "").

Definition on_disk (path : string) (doc : yaml) : State :=
  mkState [(path, Yaml doc)] [] [] [] [].

(** [--registry-name target --version-suffix ...], everything in the create
    list. *)
Definition release (suffix : option string) : Args :=
  mkArgs "target" None None suffix
         [("data", ["*"]); ("environment", ["*"]);
          ("component", ["*"]); ("model", ["*"])]
         false "az".

(** A command component whose environment is referred to by a label other
    than [latest]. *)
Definition labelled_component : AssetConfig :=
  mkAsset COMPONENT "train" "1.0" "train/spec.yaml" None None.

Definition labelled_component_spec : yaml :=
  YMap [("name", YStr "train");
        ("environment", YStr "azureml:sklearn-env@stable")].

Definition pipeline_component : AssetConfig :=
  mkAsset COMPONENT "pipe" "1.0" "pipe/spec.yaml" (Some "pipeline") None.

(** A pipeline whose first job names a component of the production system
    registry and whose second job names a workspace-form component. *)
Definition two_registry_pipeline_spec : yaml :=
  YMap [("name", YStr "pipe");
        ("jobs",
         YMap [("prep",
                YMap [("component",
                       YStr "azureml://registries/azureml/components/prep/versions/1")]);
               ("train", YMap [("component", YStr "azureml:train:1")])])].

(** [prep] lives in registry [azureml], [train] in the target registry. *)
Definition two_registries : Cloud :=
  registry_holding
    [(("component", "prep", "1", "azureml"),
      "azureml://registries/azureml/components/prep/versions/1");
     (("component", "train", "1", "target"),
      "azureml://registries/target/components/train/versions/1")].

(** A pipeline whose first job refers to its component by label and whose
    second job names a component that no registry holds. *)
Definition label_then_missing_pipeline_spec : yaml :=
  YMap [("name", YStr "pipe");
        ("jobs",
         YMap [("prep", YMap [("component", YStr "azureml:prep@latest")]);
               ("train", YMap [("component", YStr "azureml:train:1")])])].

(** Both the bare and the suffixed version of an environment are held. *)
Definition both_versions : Cloud :=
  registry_holding
    [(("environment", "sklearn", "1", "target"),
      "azureml://registries/target/environments/sklearn/versions/1");
     (("environment", "sklearn", "1-rc1", "target"),
      "azureml://registries/target/environments/sklearn/versions/1-rc1")].

Definition existing_environment : AssetConfig :=
  mkAsset ENVIRONMENT "sklearn" "1" "sklearn/spec.yaml" None None.

Definition new_model : AssetConfig :=
  mkAsset MODEL "bert" "3" "bert/spec.yaml" None (Some "a model").

(** A registry that holds nothing and an SDK that prepares every model. *)
Definition preparing_cloud (model : yaml) : Cloud :=
  mkCloud (fun _ _ _ _ _ => None) (fun _ _ _ _ => None) (fun _ _ => 0%Z)
          (fun _ _ _ => PrepareDone model) (fun _ _ _ => false) (fun _ => "").

(** The effects a computation adds to those of its start state. *)
Definition new_effects {A : Type} (m : M A) (st : State) : list Effect :=
  skipn (length (effects st)) (effects (snd (m st))).


(** "The asset's mutable metadata is refreshed": the SDK call that updates
    it is among the effects of publishing the asset. *)
Definition metadata_refreshed (cloud : Cloud) (args : Args) (asset : AssetConfig)
    (st : State) : Prop :=
  exists tags descr,
    In (UpdateModelMetadata (name asset) (version asset) tags descr)
       (new_effects (publish_asset cloud args asset) st).

(** *** Vocabulary of the statements below *)

Definition matches (r : re) (s : string) : bool :=
  match re_match r s with Some _ => true | None => false end.

Definition single_line (s : string) : bool :=
  no_newline (list_ascii_of_string s).

Definition slash_free (s : string) : bool :=
  forallb (fun c => negb (Ascii.eqb c "/"%char)) (list_ascii_of_string s).

(** A part of an asset ID that the ID template can carry: not empty, on one
    line. *)
Definition id_part (s : string) : bool :=
  negb (String.eqb s "") && single_line s.

(** The two URI shapes, as the compiled patterns decide them. *)
Definition registry_shape (t : AssetType) (uri : string) : bool :=
  matches (REGISTRY_ASSET_TEMPLATE (pluralize_asset_type (asset_type_value t))) uri.

Definition workspace_shape (uri : string) : bool :=
  matches WORKSPACE_ASSET_PATTERN uri.

(** "Exactly one of the two shapes matches": never both. *)
Definition shapes_exclusive (t : AssetType) (uri : string) : Prop :=
  registry_shape t uri && workspace_shape uri = false.

(** The resolver gives back what the ID template was built from. *)
Definition round_trips (t : AssetType) (registry name version : string) : Prop :=
  get_parsed_details_from_asset_uri t
    (ASSET_ID_TEMPLATE registry (pluralize_asset_type (asset_type_value t))
       name version)
  = Some (mkParsed name (Some version) None (Some registry)).

(** A name or version as the registry accepts them: not empty, on one line,
    without [/], [:] or [@]. *)
Definition plain_part (s : string) : bool :=
  id_part s && slash_free s && separator_free s.

(** What every parsed URI looks like: a name, then either a version or a
    label, and maybe a registry; each part that is present is non-empty and
    on one line. *)
Definition well_formed (p : ParsedUri) : Prop :=
  id_part (asset_name p) = true /\
  ((exists v, asset_version p = Some v /\ id_part v = true /\ asset_label p = None) \/
   (exists l, asset_label p = Some l /\ id_part l = true /\ asset_version p = None)) /\
  (forall r, asset_registry_name p = Some r -> id_part r = true).

(** [st'] differs from [st] at most in the file under [path], in the trace
    and in the log. *)
Definition frame (path : string) (st st' : State) : Prop :=
  (forall p, p <> path -> dict_get p (fs st') = dict_get p (fs st)) /\
  asset_ids st' = asset_ids st /\
  failure_list st' = failure_list st.

(** A computation that writes no file but the one under [path] and leaves
    the recorded asset IDs and the failure list alone. *)
Definition Framed {A : Type} (path : string) (m : M A) : Prop :=
  forall st, frame path st (snd (m st)).

(** What publishing one asset may change: its own spec file, the asset ID
    recorded under its own name, and the failure list, by appending the asset. *)
Definition footprint (asset : AssetConfig) (st st' : State) : Prop :=
  (forall p, p <> spec_with_path asset ->
     dict_get p (fs st') = dict_get p (fs st)) /\
  (forall n, n <> name asset ->
     dict_get n (asset_ids st') = dict_get n (asset_ids st)) /\
  (failure_list st' = failure_list st \/
   failure_list st' = (failure_list st ++ [asset])%list).

Definition Footprinted {A : Type} (asset : AssetConfig) (m : M A) : Prop :=
  forall st, footprint asset st (snd (m st)).

(** A computation that leaves the recorded asset IDs alone. *)
Definition KeepsIds {A : Type} (m : M A) : Prop :=
  forall st, asset_ids (snd (m st)) = asset_ids st.

(** The versions the reconciler tries for a bare version [v]. *)
Definition candidates (v : string) (suffix : option string) : list string :=
  v :: (if str_truthy suffix
        then match suffix with
             | Some sfx => [v ++ "-" ++ sfx]
             | None => []
             end
        else []).

(** No registry answer ever shows this asset, at any version. *)
Definition absent (cloud : Cloud) (asset_type asset_name registry : string) : Prop :=
  forall h v, az_show cloud h asset_type asset_name v registry = None.

(** The lookups of the given versions of one asset, in order. *)
Definition shows (t n r : string) (versions : list string) : list Effect :=
  map (fun v => AzShow t n v r) versions.

(** A registry that lists versions 7, 6 and 5 of every asset and holds
    version 7. *)
Definition listing_registry : Cloud :=
  mkCloud (fun _ _ _ v _ =>
             if String.eqb v "7" then Some (mkDetails "id-7") else None)
          (fun _ _ _ _ => Some ["7"; "6"; "5"]) (fun _ _ => 0%Z)
          (fun _ _ _ => PrepareFailed) (fun _ _ _ => false) (fun _ => "").

(** A job that the pipeline loop passes through: a mapping whose [component]
    is missing or false ([if not job_details.get('component')]). *)
Definition passes_through (job : yaml) : bool :=
  match job with
  | YMap details =>
      negb (truthy (match dict_get "component" details with
                    | Some c => c
                    | None => YNull
                    end))
  | _ => false
  end.

(** Names of the failed assets whose type value is [k], in the order of the
    failure list. *)
Definition failed_names (k : string) (failures : list AssetConfig) : list string :=
  map name (filter (fun a => String.eqb (asset_type_value (type a)) k) failures).

(** [p] occurs in [s]. *)
Definition starts_with (p s : text) : bool :=
  match strip_prefix p s with Some _ => true | None => false end.

Fixpoint contains (p s : text) : bool :=
  starts_with p s ||
  match s with
  | [] => false
  | _ :: s' => contains p s'
  end.

Definition mentions_bearer (s : string) : bool :=
  contains (list_ascii_of_string "Bearer") (list_ascii_of_string s).

(** What is left of a line once its first characters up to the newline are
    dropped. *)
Fixpoint drop_line (s : text) : text :=
  match s with
  | [] => []
  | c :: s' => if is_newline c then s else drop_line s'
  end.

Definition newlines (s : string) : nat :=
  count_char is_newline (list_ascii_of_string s).

(** The component a test job names, when it is a string. *)
Definition component_of (job : yaml) : option string :=
  match job with
  | YMap j =>
      match dict_get "component" j with
      | Some (YStr c) => Some c
      | _ => None
      end
  | _ => None
  end.

(** The asset ID recorded for a name, or the name itself. *)
Definition rewritten_component (ids : list (string * string)) (c : string)
    : string :=
  match dict_get c ids with
  | Some asset_id => asset_id
  | None => c
  end.

(** Assets that [main] creates without looking at their dependencies: data,
    environments, and components whose type is neither pipeline, command nor
    parallel. *)
Definition created_unchecked (asset : AssetConfig) : bool :=
  match type asset with
  | DATA | ENVIRONMENT => true
  | COMPONENT =>
      match component_type asset with
      | Some t => negb (String.eqb t "pipeline")
                  && negb (str_in t ["command"; "parallel"])
      | None => false
      end
  | MODEL => false
  end.

(** Three test files, the second with a job that names no component; the
    asset [train] has been recorded. *)
Definition three_test_files : State :=
  mkState
    [("tests/a.yaml",
      Yaml (YMap [("jobs", YMap [("run", YMap [("component", YStr "train")])])]));
     ("tests/b.yaml", Yaml (YMap [("jobs", YMap [("run", YMap [])])]));
     ("tests/c.yaml",
      Yaml (YMap [("jobs", YMap [("run", YMap [("component", YStr "train")])])]))]
    [] [] [] [("train", "id-of-train")].

End AssetPublish.


(** ** processors/pyfunc/vision/detection_predict.py *)

Module DetectionPredict.

(** Python floats are read as the rationals they denote, and a division as
    the exact quotient: rounding is left out. Image sizes are the integer
    pairs [(width, height)] of [PIL.Image.size]. *)

(** [float(v) / d]; [None] is the [ZeroDivisionError]. *)
Definition fdiv (v : Q) (d : Z) : option Q :=
  if Z.eqb d 0 then None else Some (v / inject_Z d)%Q.

(** A contour as [bitmap_to_polygon] returns it: an array of shape [(N, 2)],
    one row per point. *)
Definition contour : Type := list (Z * Z).

(** The loop [for x, y in points]. *)
Fixpoint normalize_points (points : contour) (image_size : Z * Z)
    : option (list Q) :=
  match points with
  | [] => Some []
  | (x, y) :: rest =>
      match fdiv (inject_Z x) (fst image_size) with
      | None => None
      | Some nx =>
          match fdiv (inject_Z y) (snd image_size) with
          | None => None
          | Some ny =>
              match normalize_points rest image_size with
              | None => None
              | Some normalized_points => Some (nx :: ny :: normalized_points)
              end
          end
      end
  end.

Fixpoint _normalize_polygon (polygon : list contour) (image_size : Z * Z)
    : option (list (list Q)) :=
  match polygon with
  | [] => Some []
  | points :: rest =>
      match normalize_points points image_size with
      | None => None
      | Some normalized_points =>
          match _normalize_polygon rest image_size with
          | None => None
          | Some normalized_polygon => Some (normalized_points :: normalized_polygon)
          end
      end
  end.

(** [[segment for segment in polygon if len(segment) >= 6]]; [len] of a
    segment is the number of its elements, whatever they are. *)
Definition _remove_invalid_segments {A : Type} (polygon : list (list A))
    : list (list A) :=
  filter (fun segment => Nat.leb 6 (length segment)) polygon.

(** Number of coordinates of a contour: two per point. *)
Definition coordinates (segment : contour) : nat := (2 * length segment)%nat.

(** A row of the detector's result: [x1, y1, x2, y2, score]. *)
Record BBox : Type := mkBBox {
  bx1 : Q;
  by1 : Q;
  bx2 : Q;
  by2 : Q;
  bscore : Q
}.

Record Box : Type := mkBox {
  topX : Q;
  topY : Q;
  bottomX : Q;
  bottomY : Q
}.

Record Prediction : Type := mkPrediction {
  box : Box;
  label : string;
  score : Q;
  polygon : option (list (list Q))
}.

(** [np.vstack] and [np.concatenate] refuse an empty list of arrays. *)
Definition vstack {A : Type} (arrays : list (list A)) : option (list A) :=
  match arrays with
  | [] => None
  | _ => Some (concat arrays)
  end.

(** [[np.full(bbox.shape[0], i) for i, bbox in enumerate(result)]] *)
Fixpoint class_labels {A : Type} (i : nat) (result : list (list A))
    : list (list nat) :=
  match result with
  | [] => []
  | bbox :: rest => repeat i (length bbox) :: class_labels (S i) rest
  end.

Definition normalize_box (bbox : BBox) (image_size : Z * Z) : option Box :=
  match fdiv (bx1 bbox) (fst image_size) with
  | None => None
  | Some tx =>
      match fdiv (by1 bbox) (snd image_size) with
      | None => None
      | Some ty =>
          match fdiv (bx2 bbox) (fst image_size) with
          | None => None
          | Some bx =>
              match fdiv (by2 bbox) (snd image_size) with
              | None => None
              | Some by' => Some (mkBox tx ty bx by')
              end
          end
      end
  end.

Section Wrapper.

(** [self._model.CLASSES] *)
Variable CLASSES : list string.

(** Masks and the contour extraction of mmdet. *)
Variable mask : Type.
Variable bitmap_to_polygon : mask -> list contour.

(** The loop [for bbox, label in zip(bboxes, labels)]. *)
Fixpoint detection_boxes (rows : list (BBox * nat)) (image_size : Z * Z)
    : option (list Prediction) :=
  match rows with
  | [] => Some []
  | (bbox, l) :: rest =>
      match normalize_box bbox image_size with
      | None => None
      | Some b =>
          match nth_error CLASSES l with
          | None => None
          | Some name =>
              match detection_boxes rest image_size with
              | None => None
              | Some preds => Some (mkPrediction b name (bscore bbox) None :: preds)
              end
          end
      end
  end.

Fixpoint _process_object_detection_results
    (results : list (list (list BBox))) (image_sizes : list (Z * Z))
    : option (list (list Prediction)) :=
  match results, image_sizes with
  | result :: results', image_size :: image_sizes' =>
      match vstack result, vstack (class_labels 0 result) with
      | Some bboxes, Some labels =>
          match detection_boxes (combine bboxes labels) image_size with
          | None => None
          | Some cur_image_preds =>
              match _process_object_detection_results results' image_sizes' with
              | None => None
              | Some predictions => Some (cur_image_preds :: predictions)
              end
          end
      | _, _ => None
      end
  | _, _ => Some []
  end.

(** The loop [for bbox, label, mask in zip(bboxes, labels, masks)]. *)
Fixpoint segmentation_boxes (rows : list ((BBox * nat) * mask))
    (image_size : Z * Z) : option (list Prediction) :=
  match rows with
  | [] => Some []
  | ((bbox, l), m) :: rest =>
      let polygon := _remove_invalid_segments (bitmap_to_polygon m) in
      match
        match polygon with
        | [] => Some None
        | _ =>
            match normalize_box bbox image_size with
            | None => None
            | Some b =>
                match nth_error CLASSES l with
                | None => None
                | Some name =>
                    match _normalize_polygon polygon image_size with
                    | None => None
                    | Some normalized =>
                        Some (Some (mkPrediction b name (bscore bbox)
                                      (Some normalized)))
                    end
                end
            end
        end
      with
      | None => None
      | Some cur =>
          match segmentation_boxes rest image_size with
          | None => None
          | Some preds =>
              Some (match cur with Some p => p :: preds | None => preds end)
          end
      end
  end.

Fixpoint _process_instance_segmentation_results
    (batch_predictions : list (list (list BBox) * list (list mask)))
    (image_sizes : list (Z * Z)) : option (list (list Prediction)) :=
  match batch_predictions, image_sizes with
  | (predicted_bbox, predicted_mask) :: batch', image_size :: image_sizes' =>
      match vstack predicted_bbox, vstack (class_labels 0 predicted_bbox) with
      | Some bboxes, Some labels =>
          match concat predicted_mask with
          | [] => None
          | masks =>
              match segmentation_boxes (combine (combine bboxes labels) masks)
                      image_size with
              | None => None
              | Some cur_image_preds =>
                  match _process_instance_segmentation_results batch' image_sizes' with
                  | None => None
                  | Some predictions => Some (cur_image_preds :: predictions)
                  end
              end
          end
      | _, _ => None
      end
  | _, _ => Some []
  end.

End Wrapper.


(** *** Vocabulary of the statements below *)

(** Raw value over image dimension. *)
Definition fraction (v : Q) (d : Z) : Q := (v / inject_Z d)%Q.



Definition fractions_of_points (points : contour) (image_size : Z * Z) : list Q :=
  flat_map (fun xy => [fraction (inject_Z (fst xy)) (fst image_size);
                       fraction (inject_Z (snd xy)) (snd image_size)])
           points.



(** A closed contour of four points: a square of side 4. *)
Definition square : contour := [(0, 0); (4, 0); (4, 4); (0, 4)]%Z.

(** An image with a width and a height other than zero. *)
Definition proper_size (image_size : Z * Z) : Prop :=
  fst image_size <> 0%Z /\ snd image_size <> 0%Z.

(** The rows of a result read class by class: every row of the [i]-th array
    with the index [i]. *)
Fixpoint per_class {A : Type} (i : nat) (result : list (list A)) : list (A * nat) :=
  match result with
  | [] => []
  | bbox :: rest => (map (fun b => (b, i)) bbox ++ per_class (S i) rest)%list
  end.




End DetectionPredict.

(** * Properties *)

Import Re AssetPublish.

(** ** The matcher *)

Section MatcherFacts.

Context {A : Type}.

Lemma list_ascii_of_string_app (a b : string) :
  list_ascii_of_string (a ++ b) =
  (list_ascii_of_string a ++ list_ascii_of_string b)%list.
Proof.
  induction a as [|c a IH]; simpl; [reflexivity | now rewrite IH].
Qed.

Lemma count_slash_app (a b : text) :
  count_slash (a ++ b)%list = count_slash a + count_slash b.
Proof.
  unfold count_slash. now rewrite filter_app, length_app.
Qed.

Lemma no_newline_app (a b : text) :
  no_newline (a ++ b)%list = no_newline a && no_newline b.
Proof.
  unfold no_newline. apply forallb_app.
Qed.

Lemma count_slash_none (s : text) :
  forallb (fun c => negb (Ascii.eqb c "/"%char)) s = true -> count_slash s = 0.
Proof.
  unfold count_slash. induction s as [|c s IH]; simpl; [reflexivity|].
  intros H. apply andb_prop in H as [Hc Hs].
  destruct (Ascii.eqb c "/"%char); [discriminate | now apply IH].
Qed.

Lemma strip_prefix_app (p s : text) : strip_prefix p (p ++ s)%list = Some s.
Proof.
  induction p as [|c p IH]; simpl; [reflexivity|].
  now rewrite Ascii.eqb_refl.
Qed.

Lemma strip_prefix_inv (p s s' : text) :
  strip_prefix p s = Some s' -> s = (p ++ s')%list.
Proof.
  revert s. induction p as [|c p IH]; intros s H; simpl in *.
  - now injection H as ->.
  - destruct s as [|b s]; [discriminate|].
    destruct (Ascii.eqb_spec c b) as [->|]; [|discriminate].
    now rewrite (IH _ H).
Qed.

(** A successful [.+] consumed a non-empty, newline-free prefix before its
    continuation succeeded. *)
Lemma dot_plus_inv (s : text) (k : text -> option A) (a : A) :
  dot_plus s k = Some a ->
  exists q s', s = (q ++ s')%list /\ q <> [] /\ no_newline q = true /\ k s' = Some a.
Proof.
  induction s as [|c s IH]; simpl; [discriminate|].
  destruct (is_newline c) eqn:Hc; [discriminate|].
  destruct (dot_plus s k) as [a'|] eqn:Hd.
  - intros [= ->]. destruct (IH eq_refl) as (q & s' & -> & _ & Hq & Hk).
    exists (c :: q), s'. repeat split; try easy.
    simpl. now rewrite Hc.
  - intros Hk. exists [c], s. repeat split; try easy.
    simpl. now rewrite Hc.
Qed.

(** When no remainder lets the continuation succeed, [.+] fails. *)
Lemma dot_plus_none (s : text) (k : text -> option A) :
  (forall q s', q <> [] -> s = (q ++ s')%list -> k s' = None) ->
  dot_plus s k = None.
Proof.
  induction s as [|c s IH]; intros H; simpl; [reflexivity|].
  destruct (is_newline c); [reflexivity|].
  rewrite IH.
  - apply (H [c] s); easy.
  - intros q s' Hq ->. apply (H (c :: q) s'); easy.
Qed.

(** Greediness: [.+] stops at the longest prefix whose remainder the
    continuation accepts. *)
Lemma dot_plus_greedy (p rest : text) (k : text -> option A) (a : A) :
  p <> [] -> no_newline p = true -> k rest = Some a ->
  (forall q s', q <> [] -> rest = (q ++ s')%list -> k s' = None) ->
  dot_plus (p ++ rest)%list k = Some a.
Proof.
  intros Hp Hnl Hk Hlonger.
  induction p as [|c p IH]; [easy|].
  simpl in *. apply andb_prop in Hnl as [Hc Hnl].
  apply negb_true_iff in Hc. rewrite Hc.
  destruct p as [|d p].
  - simpl. now rewrite (dot_plus_none rest k Hlonger).
  - now rewrite IH.
Qed.

(** Completeness: if some split works, [.+] succeeds (maybe at a longer one). *)
Lemma dot_plus_complete (p rest : text) (k : text -> option A) :
  p <> [] -> no_newline p = true -> k rest <> None ->
  dot_plus (p ++ rest)%list k <> None.
Proof.
  intros Hp Hnl Hk.
  induction p as [|c p IH]; [easy|].
  simpl in *. apply andb_prop in Hnl as [Hc Hnl].
  apply negb_true_iff in Hc. rewrite Hc.
  destruct p as [|d p].
  - simpl. destruct (dot_plus rest k); easy.
  - specialize (IH ltac:(easy) Hnl).
    destruct (dot_plus ((d :: p) ++ rest)%list k); easy.
Qed.

(** What a successful run implies: a prefix with at least [min_slashes]
    slashes was consumed, and no group recorded before was lost. *)
Lemma run_inv (r : re) :
  forall (s : text) (g : groups) (k : text -> groups -> option A) (a : A),
    run r s g k = Some a ->
    exists q s' g',
      s = (q ++ s')%list /\ k s' g' = Some a /\
      min_slashes r <= count_slash q /\
      (forall n, g n <> None -> g' n <> None).
Proof.
  induction r as [p| |n r IH|r1 IH1 r2 IH2|r1 IH1 r2 IH2|r IH|];
    intros s g k a H; simpl in H.
  - destruct (strip_prefix (list_ascii_of_string p) s) as [s'|] eqn:Hp;
      [|discriminate].
    apply strip_prefix_inv in Hp.
    exists (list_ascii_of_string p), s', g. simpl. repeat split; auto.
  - apply dot_plus_inv in H as (q & s' & -> & _ & _ & Hk).
    exists q, s', g. simpl. repeat split; auto. lia.
  - apply IH in H as (q & s' & g' & -> & Hk & Hc & Hg).
    eexists q, s', _. simpl. repeat split; eauto.
    intros m Hm. unfold set_group. destruct (Nat.eqb m n); [easy | auto].
  - apply IH1 in H as (q1 & s1 & g1 & -> & Hk & Hc1 & Hg1).
    apply IH2 in Hk as (q2 & s2 & g2 & -> & Hk & Hc2 & Hg2).
    exists (q1 ++ q2)%list, s2, g2. simpl.
    rewrite count_slash_app, app_assoc. repeat split; auto. lia.
  - destruct (run r1 s g k) as [a'|] eqn:H1.
    + injection H as ->.
      apply IH1 in H1 as (q & s' & g' & -> & Hk & Hc & Hg).
      exists q, s', g'. simpl. repeat split; auto. lia.
    + apply IH2 in H as (q & s' & g' & -> & Hk & Hc & Hg).
      exists q, s', g'. simpl. repeat split; auto. lia.
  - destruct (run r s g k) as [a'|] eqn:H1.
    + injection H as ->.
      apply IH in H1 as (q & s' & g' & -> & Hk & Hc & Hg).
      exists q, s', g'. simpl. repeat split; auto. lia.
    + exists [], s, g. simpl. repeat split; auto.
  - destruct (at_end s); [|discriminate].
    exists [], s, g. simpl. repeat split; auto.
Qed.

(** A text with too few slashes cannot be matched. *)
Lemma run_too_few_slashes (r : re) (s : text) (g : groups)
    (k : text -> groups -> option A) :
  count_slash s < min_slashes r -> run r s g k = None.
Proof.
  intros Hlt. destruct (run r s g k) as [a|] eqn:H; [|reflexivity].
  apply run_inv in H as (q & s' & g' & -> & _ & Hc & _).
  rewrite count_slash_app in Hlt. lia.
Qed.

Lemma run_Lit_app (p : string) (s : text) (g : groups)
    (k : text -> groups -> option A) :
  run (Lit p) (list_ascii_of_string p ++ s)%list g k = k s g.
Proof.
  simpl. now rewrite strip_prefix_app.
Qed.

Lemma firstn_consumed (p rest : text) :
  firstn (length (p ++ rest)%list - length rest) (p ++ rest)%list = p.
Proof.
  rewrite length_app, Nat.add_sub, firstn_app, Nat.sub_diag, firstn_all.
  simpl. apply app_nil_r.
Qed.

(** A group around [.+] captures the longest prefix that lets the rest of
    the pattern succeed. *)
Lemma run_Grp_DotPlus_greedy (n : nat) (p rest : text) (g : groups)
    (k : text -> groups -> option A) (a : A) :
  p <> [] -> no_newline p = true ->
  k rest (set_group n (string_of_list_ascii p) g) = Some a ->
  (forall q s' g', q <> [] -> rest = (q ++ s')%list -> k s' g' = None) ->
  run (Grp n DotPlus) (p ++ rest)%list g k = Some a.
Proof.
  intros Hp Hnl Hk Hlonger. simpl.
  apply dot_plus_greedy; auto.
  - now rewrite firstn_consumed.
  - intros q s' Hq Hr. now apply (Hlonger q).
Qed.

End MatcherFacts.

(** ** Asset URIs *)

Section UriFacts.

Lemma run_Cat {A : Type} (r1 r2 : re) (s : text) (g : groups)
    (k : text -> groups -> option A) :
  run (Cat r1 r2) s g k = run r1 s g (fun s' g' => run r2 s' g' k).
Proof. reflexivity. Qed.

Lemma run_Alt_left {A : Type} (r1 r2 : re) (s : text) (g : groups)
    (k : text -> groups -> option A) (a : A) :
  run r1 s g k = Some a -> run (Alt r1 r2) s g k = Some a.
Proof. intros H. simpl. now rewrite H. Qed.

Lemma suffix_fewer_slashes (rest0 q s' : text) :
  q <> [] -> ("/"%char :: rest0) = (q ++ s')%list ->
  count_slash s' < count_slash ("/"%char :: rest0).
Proof.
  intros Hq E. destruct q as [|c q]; [easy|].
  simpl in E. injection E as Hc Ht. subst c rest0.
  unfold count_slash. simpl. rewrite filter_app, length_app. lia.
Qed.

Lemma id_part_text (s : string) :
  id_part s = true ->
  list_ascii_of_string s <> [] /\ no_newline (list_ascii_of_string s) = true.
Proof.
  unfold id_part, single_line. intros H. apply andb_prop in H as [Hne Hnl].
  split; [|exact Hnl].
  destruct s; [discriminate | simpl; discriminate].
Qed.

Lemma pluralized_slash_free (t : AssetType) :
  count_slash (list_ascii_of_string (pluralize_asset_type (asset_type_value t))) = 0.
Proof. destruct t; reflexivity. Qed.

(** The registry pattern on a text laid out by the ID template. *)
Lemma registry_pattern_on_template (T : string) (R N V : text) (g0 : groups) :
  count_slash (list_ascii_of_string T) = 0 ->
  R <> [] -> no_newline R = true ->
  N <> [] -> no_newline N = true -> count_slash N = 0 ->
  V <> [] -> no_newline V = true -> count_slash V = 0 ->
  run (REGISTRY_ASSET_TEMPLATE T)
      (list_ascii_of_string "azureml://registries/" ++ R
         ++ list_ascii_of_string ("/" ++ T ++ "/") ++ N
         ++ list_ascii_of_string "/" ++ list_ascii_of_string "versions/" ++ V)%list
      g0 (fun _ g => Some g)
  = Some (set_group 3 (string_of_list_ascii V)
            (set_group 2 (string_of_list_ascii N)
               (set_group 1 (string_of_list_ascii R) g0))).
Proof.
  intros HT HR HRnl HN HNnl HNs HV HVnl HVs.
  assert (Hmid : count_slash (list_ascii_of_string ("/" ++ T ++ "/")) = 2).
  { rewrite !list_ascii_of_string_app, !count_slash_app, HT. reflexivity. }
  unfold REGISTRY_ASSET_TEMPLATE.
  rewrite run_Cat, run_Lit_app, run_Cat.
  apply run_Grp_DotPlus_greedy; auto.
  - rewrite run_Cat, run_Lit_app, run_Cat.
    apply run_Grp_DotPlus_greedy; auto.
    + rewrite run_Cat, run_Lit_app.
      apply run_Alt_left.
      rewrite run_Cat, run_Lit_app.
      rewrite <- (app_nil_r V) at 1.
      apply run_Grp_DotPlus_greedy; auto.
      intros q s' g' Hq E. destruct q; [easy | discriminate].
    + intros q s' g' Hq E.
      apply run_too_few_slashes.
      assert (Hrest : count_slash
                (list_ascii_of_string "/" ++ list_ascii_of_string "versions/" ++ V)%list
              = 2).
      { rewrite !count_slash_app, HVs. reflexivity. }
      assert (Hlt : count_slash s' < 2).
      { rewrite <- Hrest.
        exact (suffix_fewer_slashes
                 (list_ascii_of_string "versions/" ++ V)%list q s' Hq E). }
      cbn [min_slashes]. unfold count_slash. simpl.
      unfold count_slash in Hlt. lia.
  - intros q s' g' Hq E.
    apply run_too_few_slashes.
    assert (Hrest : count_slash
              (list_ascii_of_string ("/" ++ T ++ "/") ++ N
                 ++ list_ascii_of_string "/" ++ list_ascii_of_string "versions/" ++ V)%list
            = 4).
    { rewrite !count_slash_app, Hmid, HNs, HVs. reflexivity. }
    assert (Hlt : count_slash s' < 4).
    { rewrite <- Hrest.
      exact (suffix_fewer_slashes
               (list_ascii_of_string (T ++ "/") ++ N
                  ++ list_ascii_of_string "/" ++ list_ascii_of_string "versions/" ++ V)%list
               q s' Hq E). }
    cbn [min_slashes]. rewrite Hmid.
    unfold count_slash. simpl. unfold count_slash in Hlt. lia.
Qed.

Lemma run_Lit_inv {A : Type} (p : string) (s : text) (g : groups)
    (k : text -> groups -> option A) (a : A) :
  run (Lit p) s g k = Some a ->
  exists s', s = (list_ascii_of_string p ++ s')%list /\ k s' g = Some a.
Proof.
  simpl. destruct (strip_prefix (list_ascii_of_string p) s) as [s'|] eqn:E;
    [|discriminate].
  intros H. exists s'. split; [now apply strip_prefix_inv | exact H].
Qed.

Lemma run_Alt_left_some {A : Type} (r1 r2 : re) (s : text) (g : groups)
    (k : text -> groups -> option A) :
  run r1 s g k <> None -> run (Alt r1 r2) s g k <> None.
Proof. simpl. destruct (run r1 s g k); easy. Qed.

Lemma run_Opt_some {A : Type} (r : re) (s : text) (g : groups)
    (k : text -> groups -> option A) :
  k s g <> None -> run (Opt r) s g k <> None.
Proof. simpl. destruct (run r s g k); easy. Qed.

(** A match of the registry pattern starts with the registry prefix, goes on
    after it, and records the registry group. *)
Lemma registry_match_inv (T uri : string) (g : groups) :
  re_match (REGISTRY_ASSET_TEMPLATE T) uri = Some g ->
  g 1 <> None /\
  exists rest, rest <> [] /\
    list_ascii_of_string uri
    = (list_ascii_of_string "azureml://registries/" ++ rest)%list.
Proof.
  unfold re_match, REGISTRY_ASSET_TEMPLATE. rewrite run_Cat. intros H.
  apply run_Lit_inv in H as (rest & E & H).
  rewrite run_Cat in H.
  assert (Hrest : rest <> []).
  { intros ->. simpl in H. discriminate. }
  change (run (Grp 1 DotPlus) rest no_groups ?k) with
    (run DotPlus rest no_groups
       (fun s' g' => k s' (set_group 1
          (string_of_list_ascii (firstn (length rest - length s') rest)) g'))) in H.
  apply run_inv in H as (q & s' & g' & _ & H & _ & _).
  apply run_inv in H as (q2 & s2 & g2 & _ & H & _ & Hg).
  injection H as <-. split.
  - apply Hg. unfold set_group. simpl. discriminate.
  - exists rest. split; assumption.
Qed.

(** Every single-line URI of the long form also fits the workspace pattern:
    [azureml] is read as a name and the rest as its version. *)
Lemma workspace_matches_long_form (uri : string) (rest : text) :
  single_line uri = true -> rest <> [] ->
  list_ascii_of_string uri
  = (list_ascii_of_string "azureml://registries/" ++ rest)%list ->
  workspace_shape uri = true.
Proof.
  intros Hnl Hrest E.
  unfold workspace_shape, matches, re_match.
  assert (Hm : run WORKSPACE_ASSET_PATTERN (list_ascii_of_string uri) no_groups
                 (fun _ g => Some g) <> None);
    [| destruct (run WORKSPACE_ASSET_PATTERN _ _ _); easy].
  unfold single_line in Hnl. rewrite E in Hnl |- *.
  rewrite no_newline_app in Hnl. apply andb_prop in Hnl as [_ Hnl].
  unfold WORKSPACE_ASSET_PATTERN. rewrite run_Cat.
  apply run_Opt_some. rewrite run_Cat.
  change (run (Grp 1 DotPlus) ?s no_groups ?k) with
    (dot_plus s (fun s' => k s' (set_group 1
       (string_of_list_ascii (firstn (length s - length s') s)) no_groups))).
  change (list_ascii_of_string "azureml://registries/" ++ rest)%list with
    (list_ascii_of_string "azureml"
       ++ (list_ascii_of_string ":"
             ++ (list_ascii_of_string "//registries/" ++ rest)))%list.
  apply dot_plus_complete; [discriminate | reflexivity |].
  rewrite run_Cat. apply run_Alt_left_some.
  rewrite run_Cat, run_Lit_app.
  change (run (Grp 2 DotPlus) ?s ?g ?k) with
    (dot_plus s (fun s' => k s' (set_group 2
       (string_of_list_ascii (firstn (length s - length s') s)) g))).
  rewrite <- (app_nil_r (list_ascii_of_string "//registries/" ++ rest)%list).
  apply dot_plus_complete.
  - discriminate.
  - rewrite no_newline_app, Hnl. reflexivity.
  - simpl. discriminate.
Qed.

End UriFacts.

Section UriClaims.

(** C2, as stated, fails: the long-form URI of a published component fits the
    registry shape and the workspace shape at once. *)
Lemma C2_shapes_overlap :
  ~ shapes_exclusive COMPONENT
      "azureml://registries/azureml/components/train/versions/1".
Proof. unfold shapes_exclusive. vm_compute. discriminate. Qed.

(** C2, amended: the resolver tests the registry shape first and the
    workspace shape only when the registry shape does not fit. A URI of the
    registry shape is resolved with its registry present, even though every
    single-line URI of that shape fits the workspace shape too; a URI of the
    workspace shape alone is resolved with the registry absent; a URI of
    neither shape is a parse error. *)
Theorem C2_registry_shape_takes_precedence (t : AssetType) (uri : string) :
  (registry_shape t uri = true ->
     (exists p, get_parsed_details_from_asset_uri t uri = Some p /\
                asset_registry_name p <> None) /\
     (single_line uri = true -> workspace_shape uri = true)) /\
  (registry_shape t uri = false -> workspace_shape uri = true ->
     exists p, get_parsed_details_from_asset_uri t uri = Some p /\
               asset_registry_name p = None) /\
  (registry_shape t uri = false -> workspace_shape uri = false ->
     get_parsed_details_from_asset_uri t uri = None).
Proof.
  unfold registry_shape, workspace_shape, matches, get_parsed_details_from_asset_uri.
  destruct (re_match (REGISTRY_ASSET_TEMPLATE _) uri) as [g|] eqn:Hr.
  - apply registry_match_inv in Hr as (Hg & rest & Hrest & E).
    repeat split; try discriminate.
    + eexists. split; [reflexivity | exact Hg].
    + intros Hnl.
      exact (workspace_matches_long_form uri rest Hnl Hrest E).
  - destruct (re_match WORKSPACE_ASSET_PATTERN uri) as [g|] eqn:Hw.
    + repeat split; try discriminate.
      intros _ _. eexists. split; reflexivity.
    + repeat split; discriminate.
Qed.

Lemma C2_registry_shape_takes_precedence_witness :
  (exists p,
     get_parsed_details_from_asset_uri COMPONENT
       "azureml://registries/azureml/components/train/versions/1" = Some p /\
     asset_registry_name p <> None) /\
  workspace_shape "azureml://registries/azureml/components/train/versions/1" = true.
Proof.
  destruct (C2_registry_shape_takes_precedence COMPONENT
              "azureml://registries/azureml/components/train/versions/1")
    as [H _].
  destruct (H eq_refl) as [Hp Hw].
  split; [exact Hp | exact (Hw eq_refl)].
Defined.

(** C5, as stated, fails: a version that itself holds [/versions/] is cut at
    its last occurrence. *)
Lemma C5_round_trip_breaks :
  ~ round_trips COMPONENT "azureml" "train" "1/versions/2".
Proof. unfold round_trips. vm_compute. discriminate. Qed.

(** C5, amended: for a non-empty single-line registry name and non-empty
    single-line name and version without a slash, the ID built by the
    template parses back to the same name, version and registry, with no
    label. *)
Theorem C5_asset_id_round_trip (t : AssetType) (registry name version : string) :
  id_part registry = true ->
  id_part name = true -> slash_free name = true ->
  id_part version = true -> slash_free version = true ->
  round_trips t registry name version.
Proof.
  intros HR HN HNs HV HVs.
  apply id_part_text in HR as [HR HRnl].
  apply id_part_text in HN as [HN HNnl].
  apply id_part_text in HV as [HV HVnl].
  apply count_slash_none in HNs, HVs.
  unfold round_trips, get_parsed_details_from_asset_uri, re_match.
  set (T := pluralize_asset_type (asset_type_value t)).
  assert (E : list_ascii_of_string (ASSET_ID_TEMPLATE registry T name version)
              = (list_ascii_of_string "azureml://registries/"
                   ++ list_ascii_of_string registry
                   ++ list_ascii_of_string ("/" ++ T ++ "/")
                   ++ list_ascii_of_string name
                   ++ list_ascii_of_string "/" ++ list_ascii_of_string "versions/"
                   ++ list_ascii_of_string version)%list).
  { unfold ASSET_ID_TEMPLATE. rewrite !list_ascii_of_string_app.
    rewrite <- !app_assoc. reflexivity. }
  rewrite E.
  rewrite (registry_pattern_on_template T _ _ _ no_groups
             (pluralized_slash_free t) HR HRnl HN HNnl HNs HV HVnl HVs).
  unfold group_or_empty, set_group. simpl.
  now rewrite !string_of_list_ascii_of_string.
Qed.

Lemma C5_asset_id_round_trip_witness :
  round_trips MODEL "azureml" "bert-base" "3".
Proof.
  apply C5_asset_id_round_trip; reflexivity.
Defined.

End UriClaims.

(** ** Detection results *)

Import DetectionPredict.

Section DetectionFacts.

Variable CLASSES : list string.
Variable mask : Type.
Variable bitmap_to_polygon : mask -> list contour.






Lemma _remove_invalid_segments_dropped {A : Type} (polygon : list (list A))
    (segment : list A) :
  In segment polygon -> ~ In segment (_remove_invalid_segments polygon) ->
  length segment < 6.
Proof.
  unfold _remove_invalid_segments. intros Hin Hout.
  destruct (Nat.leb 6 (length segment)) eqn:E.
  - exfalso. apply Hout. apply filter_In. now split.
  - apply Nat.leb_gt in E. exact E.
Qed.






End DetectionFacts.

Section DetectionClaims.




(** C9, the code at a contour of four points: it has eight coordinates, yet
    the filter, which counts points and not coordinates, drops it, and the
    instance it outlines is left out of the output. *)
Theorem C9_square_contour_is_dropped :
  coordinates square = 8 /\
  _remove_invalid_segments [square] = [] /\
  _process_instance_segmentation_results ["object"] unit (fun _ => [square])
    [([[mkBBox 0 0 4 4 (9 # 10)]], [[tt]])] [(10, 10)%Z] = Some [[]].
Proof. repeat split. Qed.

End DetectionClaims.

(** ** Publishing *)

Section PublishFacts.

Variable cloud : Cloud.

Lemma dict_get_set_same {V : Type} (k : string) (v : V) (d : list (string * V)) :
  dict_get k (dict_set k v d) = Some v.
Proof.
  induction d as [|[k' v'] d IH]; simpl.
  - now rewrite String.eqb_refl.
  - destruct (String.eqb k' k) eqn:E; simpl.
    + now rewrite String.eqb_refl.
    + now rewrite E.
Qed.

(** A lookup adds one [az ml show] to the trace and touches nothing else. *)
Lemma get_asset_details_run (t n v r : string) (st : State) :
  get_asset_details cloud t n v r st
  = (Return (az_show cloud (effects st) t n v r),
     mkState (fs st) (effects st ++ [AzShow t n v r]) (log st)
             (failure_list st) (asset_ids st)).
Proof. reflexivity. Qed.


Lemma bind_run {A B : Type} (m : M A) (f : A -> M B) (st : State) :
  bind m f st
  = match m st with
    | (Return a, st') => f a st'
    | (Raised, st') => (Raised, st')
    end.
Proof. reflexivity. Qed.

Lemma when_logger_run {B : Type} (b : bool) (m : LogMsg) (k : M B) (st : State) :
  bind (when b (logger m)) (fun _ => k) st = k (logged b m st).
Proof. destruct b; reflexivity. Qed.

Lemma logged_effects (b : bool) (m : LogMsg) (st : State) :
  effects (logged b m st) = effects st.
Proof. destruct b; reflexivity. Qed.

Lemma logged_fs (b : bool) (m : LogMsg) (st : State) :
  fs (logged b m st) = fs st.
Proof. destruct b; reflexivity. Qed.

Lemma try_versions_fs (t n : string) (versions : list string) (r : string)
    (st : State) :
  fs (snd (try_versions cloud t n versions r st)) = fs st.
Proof.
  revert st. induction versions as [|v rest IH]; intros st; [reflexivity|].
  cbn [try_versions]. rewrite bind_run, get_asset_details_run.
  destruct (az_show cloud (effects st) t n v r); [reflexivity|].
  now rewrite IH.
Qed.

(** Processing a job never touches a file. *)
Lemma prepare_job_fs (suffix : option string) (target : string)
    (updated : list (string * yaml)) (job_name : string) (job_details : yaml)
    (st : State) :
  fs (snd (prepare_job cloud suffix target updated job_name job_details st)) = fs st.
Proof.
  unfold prepare_job.
  destruct job_details as [| | | |details]; try reflexivity.
  destruct (negb (truthy _)); [reflexivity|].
  destruct (match _ with YStr uri => _ | _ => None end) as [p|]; [|reflexivity].
  rewrite when_logger_run.
  destruct (asset_version p) as [v|]; [|apply logged_fs].
  rewrite bind_run.
  pose proof (try_versions_fs (asset_type_value COMPONENT) (asset_name p)
                [v; if str_truthy suffix
                    then match suffix with
                         | Some sfx => v ++ "-" ++ sfx
                         | None => v
                         end
                    else v]
                (registry_or (asset_registry_name p) target)
                (logged (foreign_registry (asset_registry_name p) target)
                   (WarnForeignRegistry target (asset_name p)
                      (registry_or (asset_registry_name p) target)) st)) as Hfs.
  destruct (try_versions _ _ _ _ _ _) as [[[d|]|] st1]; simpl in Hfs |- *;
    now rewrite Hfs, logged_fs.
Qed.

Lemma prepare_jobs_fs (suffix : option string) (jobs : list (string * yaml)) :
  forall (target : string) (updated : list (string * yaml)) (st : State),
    fs (snd (prepare_jobs cloud suffix target updated jobs st)) = fs st.
Proof.
  induction jobs as [|[job_name job_details] rest IH]; intros target updated st;
    [reflexivity|].
  cbn [prepare_jobs]. rewrite bind_run.
  pose proof (prepare_job_fs suffix target updated job_name job_details st) as Hfs.
  destruct (prepare_job _ _ _ _ _ _ _) as [[[[target' updated']|]|] st1];
    simpl in Hfs |- *; [|exact Hfs|exact Hfs].
  now rewrite IH.
Qed.

(** No partial writes: unless the pipeline preparation returns [True], every
    file is as it was, whether it returned [False] or raised. *)
Lemma pipeline_spec_written_only_on_success (spec_path : string)
    (suffix : option string) (target : string) (st st' : State) (r : Result bool) :
  validate_and_prepare_pipeline_component cloud spec_path suffix target st = (r, st') ->
  r <> Return true ->
  fs st' = fs st.
Proof.
  unfold validate_and_prepare_pipeline_component.
  rewrite bind_run. unfold read_file.
  destruct (dict_get spec_path (fs st)) as [[|[| | | |pipeline_dict]]|];
    try (intros [= <- <-]; reflexivity).
  destruct (dict_get "jobs" pipeline_dict) as [[| | | |jobs]|];
    try (intros [= <- <-]; reflexivity).
  destruct (dict_get "name" pipeline_dict); [|intros [= <- <-]; reflexivity].
  rewrite bind_run.
  pose proof (prepare_jobs_fs suffix jobs target [] st) as Hfs.
  destruct (prepare_jobs _ _ _ _ _ _) as [[[updated_jobs|]|] st1];
    simpl in Hfs; intros [= <- <-]; intros H; [|exact Hfs|exact Hfs].
  exfalso. apply H. reflexivity.
Qed.

(** When the pipeline preparation returns [False], the asset is appended to
    the failure list and nothing else happens: no creation command. *)
Lemma pipeline_failure_is_recorded (args : Args) (asset : AssetConfig)
    (st st1 : State) :
  type asset = COMPONENT -> component_type asset = Some "pipeline" ->
  selected args asset = true ->
  az_show cloud (effects st) "component" (name asset) (version asset)
          (registry_name args) = None ->
  validate_and_prepare_pipeline_component cloud (spec_with_path asset)
    (version_suffix args) (registry_name args)
    (mkState (fs st)
       (effects st ++ [AzShow "component" (name asset) (version asset)
                         (registry_name args)])
       (log st) (failure_list st)
       (dict_set (name asset)
          (ASSET_ID_TEMPLATE (registry_name args) "components" (name asset)
             (suffixed_version (version asset) (version_suffix args)))
          (asset_ids st)))
  = (Return false, st1) ->
  publish_asset cloud args asset st
  = (Return tt,
     mkState (fs st1) (effects st1) (log st1) (failure_list st1 ++ [asset])
             (asset_ids st1)).
Proof.
  intros Htype Hpipe Hsel Hshow Hval.
  unfold publish_asset. rewrite Hsel, Htype, Hpipe. cbn [negb asset_type_value].
  unfold bind at 1. unfold record_asset_id.
  unfold bind at 1. rewrite get_asset_details_run.
  cbn [effects fs log failure_list asset_ids]. rewrite Hshow.
  cbn [String.eqb Ascii.eqb Bool.eqb].
  rewrite bind_run.
  change (pluralize_asset_type "component") with "components".
  rewrite Hval. reflexivity.
Qed.

(** An environment reference with a label other than [latest] makes
    [get_environment_asset_id] return [False], without any lookup. *)
Lemma unsupported_label_returns_False (uri : string) (p : ParsedUri)
    (env_label : string) (suffix : option string) (target : string) (st : State) :
  get_parsed_details_from_asset_uri ENVIRONMENT uri = Some p ->
  asset_label p = Some env_label -> env_label <> "" -> env_label <> LATEST_LABEL ->
  fst (get_environment_asset_id cloud (YStr uri) suffix target st) = Return EnvFalse /\
  effects (snd (get_environment_asset_id cloud (YStr uri) suffix target st))
    = effects st.
Proof.
  intros Hparse Hlabel Hne Hlatest.
  unfold get_environment_asset_id.
  rewrite Hparse, Hlabel, when_logger_run.
  assert (Ht : str_truthy (Some env_label) = true).
  { simpl. destruct env_label; [easy | reflexivity]. }
  rewrite Ht.
  apply String.eqb_neq in Hlatest. rewrite Hlatest.
  split; [reflexivity | apply logged_effects].
Qed.

End PublishFacts.

Section PublishClaims.

(** C7, as stated, fails: an environment that already exists in the target
    registry is skipped without any metadata refresh. *)
Lemma C7_existing_environment_not_refreshed :
  ~ metadata_refreshed both_versions (release (Some "rc1")) existing_environment
      (on_disk "sklearn/spec.yaml" YNull).
Proof.
  unfold metadata_refreshed. vm_compute.
  intros (tags & descr & [H|[]]). discriminate.
Qed.

(** C7, amended: for every asset selected by the create list that already
    exists in the target registry at its bare version, the only effects of
    its publishing step are the existence lookup and, when the asset is a
    model, one metadata update (tags, description) for that name and version;
    for the other asset types nothing is refreshed. No creation command is
    issued, no dependency is looked up, no spec file is rewritten and the
    asset is not recorded as failed. *)
Theorem C7_existing_asset_is_not_recreated
    (cloud : Cloud) (args : Args) (asset : AssetConfig) (st : State) (d : Details) :
  selected args asset = true ->
  az_show cloud (effects st) (asset_type_value (type asset)) (name asset)
          (version asset) (registry_name args) = Some d ->
  exists st',
    publish_asset cloud args asset st = (Return tt, st') /\
    fs st' = fs st /\
    failure_list st' = failure_list st /\
    effects st'
    = (effects st
         ++ AzShow (asset_type_value (type asset)) (name asset) (version asset)
                   (registry_name args)
         :: match type asset with
            | MODEL =>
                [UpdateModelMetadata (name asset) (version asset)
                   (tags_to_update cloud (dict_get (spec_with_path asset) (fs st)))
                   (description asset)]
            | _ => []
            end)%list.
Proof.
  intros Hsel Hshow.
  unfold publish_asset. rewrite Hsel. cbn [negb].
  unfold bind at 1. unfold record_asset_id.
  unfold bind at 1. rewrite get_asset_details_run.
  cbn [effects fs log failure_list asset_ids]. rewrite Hshow.
  unfold update_asset_metadata.
  destruct (type asset); cbn.
  1-3: eexists; repeat split.
  destruct (sdk_update_raises cloud _ (name asset) (version asset));
    cbn; eexists; (split; [reflexivity|]); cbn; repeat split;
    now rewrite <- app_assoc.
Qed.

Lemma C7_existing_asset_is_not_recreated_witness :
  exists st',
    publish_asset both_versions (release (Some "rc1")) existing_environment
      (on_disk "sklearn/spec.yaml" YNull) = (Return tt, st') /\
    fs st' = [("sklearn/spec.yaml", Yaml YNull)] /\
    failure_list st' = [] /\
    effects st' = [AzShow "environment" "sklearn" "1" "target"].
Proof.
  exact (C7_existing_asset_is_not_recreated both_versions (release (Some "rc1"))
           existing_environment (on_disk "sklearn/spec.yaml" YNull)
           (mkDetails "azureml://registries/target/environments/sklearn/versions/1")
           eq_refl eq_refl).
Defined.

(** C10: a model that is selected, not yet in the registry and prepared is
    created with [--version] set to the version of its spec, whatever the
    version suffix, while the asset ID recorded for the test files carries
    the suffixed version. *)
Theorem C10_model_created_at_bare_version
    (cloud : Cloud) (args : Args) (asset : AssetConfig) (st : State) (model : yaml) :
  type asset = MODEL ->
  selected args asset = true ->
  az_show cloud (effects st) "model" (name asset) (version asset)
          (registry_name args) = None ->
  sdk_prepare_model cloud
    (effects st ++ [AzShow "model" (name asset) (version asset) (registry_name args)])
    (spec_with_path asset) (registry_name args) = PrepareDone model ->
  exists st' cmd,
    publish_asset cloud args asset st = (Return tt, st') /\
    effects st'
    = (effects st
         ++ [AzShow "model" (name asset) (version asset) (registry_name args);
             PrepareModel (spec_with_path asset) (registry_name args);
             DumpYaml (spec_with_path asset) model;
             AzCreate cmd])%list /\
    cmd = asset_create_command (az_path args) "model" (spec_with_path asset)
            (registry_name args) (version asset)
            (resource_group args) (workspace args) (debug args) /\
    nth_error cmd 8 = Some "--version" /\
    nth_error cmd 9 = Some (version asset) /\
    dict_get (name asset) (asset_ids st')
    = Some (ASSET_ID_TEMPLATE (registry_name args) "models" (name asset)
              (suffixed_version (version asset) (version_suffix args))).
Proof.
  intros Htype Hsel Hshow Hprep.
  unfold publish_asset. rewrite Hsel, Htype. cbn [negb asset_type_value].
  unfold bind at 1. unfold record_asset_id.
  unfold bind at 1. rewrite get_asset_details_run.
  cbn [effects fs log failure_list asset_ids]. rewrite Hshow.
  unfold prepare_model_for_registration, bind, history, emit, dump_yaml, ret.
  cbn [effects fs log failure_list asset_ids]. rewrite Hprep.
  unfold create_asset, bind, history, emit, ret, logger, fail_asset.
  cbn [effects fs log failure_list asset_ids]. rewrite Htype.
  cbn [asset_type_value].
  destruct (Z.eqb _ 0);
    do 2 eexists; (split; [reflexivity|]);
    cbn [effects fs log failure_list asset_ids];
    (split; [now rewrite <- !app_assoc|]);
    (split; [reflexivity|]);
    (split; [reflexivity|]);
    (split; [reflexivity|]);
    apply dict_get_set_same.
Qed.

Lemma C10_model_created_at_bare_version_witness :
  exists st' cmd,
    publish_asset (preparing_cloud (YMap [("name", YStr "bert")]))
      (release (Some "rc1")) new_model (on_disk "bert/spec.yaml" YNull)
    = (Return tt, st') /\
    effects st'
    = [AzShow "model" "bert" "3" "target";
       PrepareModel "bert/spec.yaml" "target";
       DumpYaml "bert/spec.yaml" (YMap [("name", YStr "bert")]);
       AzCreate cmd] /\
    cmd = ["az"; "ml"; "model"; "create"; "--file"; "bert/spec.yaml";
           "--registry-name"; "target"; "--version"; "3"] /\
    nth_error cmd 8 = Some "--version" /\
    nth_error cmd 9 = Some "3" /\
    dict_get "bert" (asset_ids st')
    = Some "azureml://registries/target/models/bert/versions/3-rc1".
Proof.
  exact (C10_model_created_at_bare_version
           (preparing_cloud (YMap [("name", YStr "bert")]))
           (release (Some "rc1")) new_model (on_disk "bert/spec.yaml" YNull)
           (YMap [("name", YStr "bert")]) eq_refl eq_refl eq_refl eq_refl).
Defined.




(** C1, the code at a command component whose environment reference carries
    the label [stable]: the unsupported label is logged, but the [False] that
    [get_environment_asset_id] returns passes the [is not None] test of
    [validate_update_component]; the spec file is rewritten with
    [environment: false], the creation command is issued and the asset is not
    recorded as failed. *)
Theorem C1_unsupported_label_is_published_anyway :
  publish_asset empty_registry (release (Some "rc1")) labelled_component
    (on_disk "train/spec.yaml" labelled_component_spec)
  = (Return tt,
     mkState
       [("train/spec.yaml",
         Yaml (YMap [("name", YStr "train"); ("environment", YBool false)]))]
       [AzShow "component" "train" "1.0" "target";
        DumpYaml "train/spec.yaml"
          (YMap [("name", YStr "train"); ("environment", YBool false)]);
        AzCreate ["az"; "ml"; "component"; "create"; "--file"; "train/spec.yaml";
                  "--registry-name"; "target"; "--version"; "1.0-rc1"]]
       [ErrLabelUnsupported "stable"]
       []
       [("train", "azureml://registries/target/components/train/versions/1.0-rc1")]).
Proof. reflexivity. Qed.

(** C3, the code at a pipeline whose first job names a component of registry
    [azureml] and whose second job names [train] without a registry: the loop
    has overwritten its [registry_name] with [azureml], so [train] is looked
    up in [azureml] and not in the target registry that holds it, and the
    pipeline is recorded as failed. *)
Theorem C3_registry_of_earlier_job_is_reused :
  publish_asset two_registries (release (Some "rc1")) pipeline_component
    (on_disk "pipe/spec.yaml" two_registry_pipeline_spec)
  = (Return tt,
     mkState
       [("pipe/spec.yaml", Yaml two_registry_pipeline_spec)]
       [AzShow "component" "pipe" "1.0" "target";
        AzShow "component" "prep" "1" "azureml";
        AzShow "component" "train" "1" "azureml";
        AzShow "component" "train" "1-rc1" "azureml"]
       [WarnDependentNotFound "train" "1" None]
       [pipeline_component]
       [("pipe", "azureml://registries/target/components/pipe/versions/1.0-rc1")]) /\
  az_show two_registries [] "component" "train" "1" "target"
  = Some (mkDetails "azureml://registries/target/components/train/versions/1").
Proof. split; reflexivity. Qed.

(** C6, the code at a pipeline whose first job refers to its component by
    label and whose second job names a component that no registry holds: the
    pipeline path has no version for the first job and raises where it builds
    the suffixed version; the exception is not caught, so the run stops and
    the pipeline is never appended to the failure list. The spec file is
    untouched. *)
Theorem C6_label_reference_aborts_the_run :
  publish_asset empty_registry (release (Some "rc1")) pipeline_component
    (on_disk "pipe/spec.yaml" label_then_missing_pipeline_spec)
  = (Raised,
     mkState
       [("pipe/spec.yaml", Yaml label_then_missing_pipeline_spec)]
       [AzShow "component" "pipe" "1.0" "target"]
       []
       []
       [("pipe", "azureml://registries/target/components/pipe/versions/1.0-rc1")]).
Proof. reflexivity. Qed.

End PublishClaims.

(** * Further properties of the code *)

(** ** More on asset URIs *)

Section UriMoreFacts.

Lemma count_char_app (f : ascii -> bool) (a b : text) :
  count_char f (a ++ b)%list = count_char f a + count_char f b.
Proof. unfold count_char. now rewrite filter_app, length_app. Qed.

Lemma count_char_none (f : ascii -> bool) (s : text) :
  forallb (fun c => negb (f c)) s = true -> count_char f s = 0.
Proof.
  unfold count_char. induction s as [|c s IH]; simpl; [reflexivity|].
  intros H. apply andb_prop in H as [Hc Hs].
  destruct (f c); [discriminate | now apply IH].
Qed.

(** A successful run consumed at least [min_count f] characters in [f]. *)
Lemma run_inv_count {A : Type} (f : ascii -> bool) (r : re) :
  forall (s : text) (g : groups) (k : text -> groups -> option A) (a : A),
    run r s g k = Some a ->
    exists q s' g',
      s = (q ++ s')%list /\ k s' g' = Some a /\ min_count f r <= count_char f q.
Proof.
  induction r as [p| |n r IH|r1 IH1 r2 IH2|r1 IH1 r2 IH2|r IH|];
    intros s g k a H; simpl in H.
  - destruct (strip_prefix (list_ascii_of_string p) s) as [s'|] eqn:Hp;
      [|discriminate].
    apply strip_prefix_inv in Hp.
    exists (list_ascii_of_string p), s', g. simpl. repeat split; auto.
  - apply dot_plus_inv in H as (q & s' & -> & _ & _ & Hk).
    exists q, s', g. simpl. repeat split; auto. lia.
  - apply IH in H as (q & s' & g' & -> & Hk & Hc).
    eexists q, s', _. simpl. repeat split; eauto.
  - apply IH1 in H as (q1 & s1 & g1 & -> & Hk & Hc1).
    apply IH2 in Hk as (q2 & s2 & g2 & -> & Hk & Hc2).
    exists (q1 ++ q2)%list, s2, g2. simpl.
    rewrite count_char_app, app_assoc. repeat split; auto. lia.
  - destruct (run r1 s g k) as [a'|] eqn:H1.
    + injection H as ->.
      apply IH1 in H1 as (q & s' & g' & -> & Hk & Hc).
      exists q, s', g'. simpl. repeat split; auto. lia.
    + apply IH2 in H as (q & s' & g' & -> & Hk & Hc).
      exists q, s', g'. simpl. repeat split; auto. lia.
  - destruct (run r s g k) as [a'|] eqn:H1.
    + injection H as ->.
      apply IH in H1 as (q & s' & g' & -> & Hk & Hc).
      exists q, s', g'. simpl. repeat split; auto. lia.
    + exists [], s, g. simpl. repeat split; auto.
  - destruct (at_end s); [|discriminate].
    exists [], s, g. simpl. repeat split; auto.
Qed.

Lemma run_too_few {A : Type} (f : ascii -> bool) (r : re) (s : text)
    (g : groups) (k : text -> groups -> option A) :
  count_char f s < min_count f r -> run r s g k = None.
Proof.
  intros Hlt. destruct (run r s g k) as [a|] eqn:H; [|reflexivity].
  apply (run_inv_count f) in H as (q & s' & g' & -> & _ & Hc).
  rewrite count_char_app in Hlt. lia.
Qed.

Lemma run_Alt_right {A : Type} (r1 r2 : re) (s : text) (g : groups)
    (k : text -> groups -> option A) :
  run r1 s g k = None -> run (Alt r1 r2) s g k = run r2 s g k.
Proof. intros H. simpl. now rewrite H. Qed.

Lemma run_Opt_left {A : Type} (r : re) (s : text) (g : groups)
    (k : text -> groups -> option A) (a : A) :
  run r s g k = Some a -> run (Opt r) s g k = Some a.
Proof. intros H. simpl. now rewrite H. Qed.

Lemma run_Opt_skip {A : Type} (r : re) (s : text) (g : groups)
    (k : text -> groups -> option A) :
  run r s g k = None -> run (Opt r) s g k = k s g.
Proof. intros H. simpl. now rewrite H. Qed.

(** What a group around [.+] captured. *)
Lemma run_Grp_DotPlus_inv {A : Type} (n : nat) (s : text) (g : groups)
    (k : text -> groups -> option A) (a : A) :
  run (Grp n DotPlus) s g k = Some a ->
  exists q s',
    s = (q ++ s')%list /\ q <> [] /\ no_newline q = true /\
    k s' (set_group n (string_of_list_ascii q) g) = Some a.
Proof.
  simpl. intros H.
  apply dot_plus_inv in H as (q & s' & -> & Hq & Hnl & Hk).
  rewrite firstn_consumed in Hk. now exists q, s'.
Qed.

Lemma plain_part_text (s : string) :
  plain_part s = true ->
  list_ascii_of_string s <> [] /\
  no_newline (list_ascii_of_string s) = true /\
  count_slash (list_ascii_of_string s) = 0 /\
  count_char is_separator (list_ascii_of_string s) = 0.
Proof.
  unfold plain_part. intros H.
  apply andb_prop in H as [H Hsep]. apply andb_prop in H as [Hid Hsl].
  apply id_part_text in Hid as [Hne Hnl].
  repeat split; auto.
  - now apply count_slash_none.
  - now apply count_char_none.
Qed.

Lemma captured_part (q : text) :
  q <> [] -> no_newline q = true -> id_part (string_of_list_ascii q) = true.
Proof.
  intros Hq Hnl. unfold id_part, single_line.
  rewrite list_ascii_of_string_of_list_ascii, Hnl.
  destruct q; [easy | reflexivity].
Qed.

(** The workspace pattern after its optional prefix. *)
Local Abbreviation workspace_body :=
  (Cat (Grp 1 DotPlus)
     (Cat (Alt (Cat (Lit ":") (Grp 2 DotPlus)) (Cat (Lit "@") (Grp 3 DotPlus)))
          Eos)).

Local Abbreviation separator_tail :=
  (Cat (Alt (Cat (Lit ":") (Grp 2 DotPlus)) (Cat (Lit "@") (Grp 3 DotPlus))) Eos).

Lemma separator_tail_needs_separator (s : text) (g : groups) :
  count_char is_separator s = 0 ->
  run separator_tail s g (fun _ g' => Some g') = None.
Proof.
  intros H. apply (run_too_few is_separator). rewrite H.
  cbn. lia.
Qed.

Lemma after_separator (c : ascii) (V q s' : text) :
  count_char is_separator V = 0 -> q <> [] -> (c :: V) = (q ++ s')%list ->
  count_char is_separator s' = 0.
Proof.
  intros HV Hq E. destruct q as [|d q]; [easy|].
  simpl in E. injection E as _ ->.
  rewrite count_char_app in HV. lia.
Qed.

(** [name:version] under the body of the workspace pattern. *)
Lemma workspace_body_version (N V : text) (g : groups) :
  N <> [] -> no_newline N = true ->
  V <> [] -> no_newline V = true -> count_char is_separator V = 0 ->
  run workspace_body (N ++ list_ascii_of_string ":" ++ V)%list g
      (fun _ g' => Some g')
  = Some (set_group 2 (string_of_list_ascii V)
            (set_group 1 (string_of_list_ascii N) g)).
Proof.
  intros HN HNnl HV HVnl HVs.
  rewrite run_Cat. apply run_Grp_DotPlus_greedy; auto.
  - rewrite run_Cat. apply run_Alt_left. rewrite run_Cat, run_Lit_app.
    rewrite <- (app_nil_r V) at 1.
    apply run_Grp_DotPlus_greedy; auto.
    intros q s' g' Hq E. destruct q; [easy | discriminate].
  - intros q s' g' Hq E. apply separator_tail_needs_separator.
    exact (after_separator _ V q s' HVs Hq E).
Qed.

(** [name@label] under the body of the workspace pattern. *)
Lemma workspace_body_label (N V : text) (g : groups) :
  N <> [] -> no_newline N = true ->
  V <> [] -> no_newline V = true -> count_char is_separator V = 0 ->
  run workspace_body (N ++ list_ascii_of_string "@" ++ V)%list g
      (fun _ g' => Some g')
  = Some (set_group 3 (string_of_list_ascii V)
            (set_group 1 (string_of_list_ascii N) g)).
Proof.
  intros HN HNnl HV HVnl HVs.
  rewrite run_Cat. apply run_Grp_DotPlus_greedy; auto.
  - rewrite run_Cat, run_Alt_right by reflexivity.
    rewrite run_Cat, run_Lit_app.
    rewrite <- (app_nil_r V) at 1.
    apply run_Grp_DotPlus_greedy; auto.
    intros q s' g' Hq E. destruct q; [easy | discriminate].
  - intros q s' g' Hq E. apply separator_tail_needs_separator.
    exact (after_separator _ V q s' HVs Hq E).
Qed.

(** The optional prefix is given up when what follows it has no separator. *)
Lemma workspace_prefix_skipped (s : text) (g : groups) :
  count_char is_separator s = 1 ->
  run WORKSPACE_ASSET_PATTERN s g (fun _ g' => Some g')
  = run workspace_body s g (fun _ g' => Some g').
Proof.
  intros Hs. unfold WORKSPACE_ASSET_PATTERN. rewrite run_Cat.
  rewrite run_Opt_skip; [reflexivity|].
  destruct (run (Lit "azureml:") s g _) as [a|] eqn:E; [exfalso | reflexivity].
  apply run_Lit_inv in E as (s' & -> & Hk).
  apply (run_inv_count is_separator) in Hk as (q & s'' & g'' & -> & _ & Hc).
  rewrite !count_char_app in Hs. cbn in Hs, Hc. lia.
Qed.

Lemma workspace_prefix_taken (s : text) (g : groups) (a : groups) :
  run workspace_body s g (fun _ g' => Some g') = Some a ->
  run WORKSPACE_ASSET_PATTERN (list_ascii_of_string "azureml:" ++ s)%list g
      (fun _ g' => Some g') = Some a.
Proof.
  intros H. unfold WORKSPACE_ASSET_PATTERN. rewrite run_Cat.
  apply run_Opt_left. now rewrite run_Lit_app.
Qed.

(** A text without a slash is no registry URI. *)
Lemma registry_pattern_needs_slashes (T : string) (s : text) :
  count_slash s = 0 ->
  run (REGISTRY_ASSET_TEMPLATE T) s no_groups (fun _ g => Some g) = None.
Proof.
  intros H. apply run_too_few_slashes. rewrite H.
  unfold REGISTRY_ASSET_TEMPLATE. cbn [min_slashes].
  change (count_slash (list_ascii_of_string "azureml://registries/")) with 3.
  lia.
Qed.

End UriMoreFacts.

Section UriShapes.

Lemma run_Alt_inv {A : Type} (r1 r2 : re) (s : text) (g : groups)
    (k : text -> groups -> option A) (a : A) :
  run (Alt r1 r2) s g k = Some a ->
  run r1 s g k = Some a \/ run r2 s g k = Some a.
Proof. simpl. destruct (run r1 s g k); [intros [= ->]; now left | now right]. Qed.

Lemma run_Opt_inv {A : Type} (r : re) (s : text) (g : groups)
    (k : text -> groups -> option A) (a : A) :
  run (Opt r) s g k = Some a -> run r s g k = Some a \/ k s g = Some a.
Proof. simpl. destruct (run r s g k); [intros [= ->]; now left | now right]. Qed.

Lemma run_Eos_inv {A : Type} (s : text) (g : groups)
    (k : text -> groups -> option A) (a : A) :
  run Eos s g k = Some a -> k s g = Some a.
Proof. simpl. destruct (at_end s); [easy | discriminate]. Qed.

(** Groups of a match of the workspace pattern's body. *)
Lemma workspace_body_inv (s : text) (g a : groups) :
  run (Cat (Grp 1 DotPlus)
         (Cat (Alt (Cat (Lit ":") (Grp 2 DotPlus)) (Cat (Lit "@") (Grp 3 DotPlus)))
              Eos)) s g (fun _ g' => Some g') = Some a ->
  exists N V, N <> [] /\ no_newline N = true /\ V <> [] /\ no_newline V = true /\
    (a = set_group 2 (string_of_list_ascii V)
           (set_group 1 (string_of_list_ascii N) g) \/
     a = set_group 3 (string_of_list_ascii V)
           (set_group 1 (string_of_list_ascii N) g)).
Proof.
  rewrite run_Cat. intros H.
  apply run_Grp_DotPlus_inv in H as (N & s1 & -> & HN & HNnl & H).
  rewrite run_Cat in H.
  apply run_Alt_inv in H as [H|H]; rewrite run_Cat in H;
    apply run_Lit_inv in H as (s2 & -> & H);
    apply run_Grp_DotPlus_inv in H as (V & s3 & -> & HV & HVnl & H);
    apply run_Eos_inv in H; injection H as <-;
    exists N, V; repeat split; auto.
Qed.

(** Groups of a match of the registry pattern. *)
Lemma registry_pattern_inv (T : string) (s : text) (a : groups) :
  run (REGISTRY_ASSET_TEMPLATE T) s no_groups (fun _ g => Some g) = Some a ->
  exists R N V, R <> [] /\ no_newline R = true /\ N <> [] /\ no_newline N = true /\
    V <> [] /\ no_newline V = true /\
    (a = set_group 3 (string_of_list_ascii V)
           (set_group 2 (string_of_list_ascii N)
              (set_group 1 (string_of_list_ascii R) no_groups)) \/
     a = set_group 4 (string_of_list_ascii V)
           (set_group 2 (string_of_list_ascii N)
              (set_group 1 (string_of_list_ascii R) no_groups))).
Proof.
  unfold REGISTRY_ASSET_TEMPLATE. rewrite run_Cat. intros H.
  apply run_Lit_inv in H as (s1 & -> & H). rewrite run_Cat in H.
  apply run_Grp_DotPlus_inv in H as (R & s2 & -> & HR & HRnl & H).
  rewrite run_Cat in H. apply run_Lit_inv in H as (s3 & -> & H).
  rewrite run_Cat in H.
  apply run_Grp_DotPlus_inv in H as (N & s4 & -> & HN & HNnl & H).
  rewrite run_Cat in H. apply run_Lit_inv in H as (s5 & -> & H).
  apply run_Alt_inv in H as [H|H]; rewrite run_Cat in H;
    apply run_Lit_inv in H as (s6 & -> & H);
    apply run_Grp_DotPlus_inv in H as (V & s7 & -> & HV & HVnl & H);
    injection H as <-;
    exists R, N, V; repeat split; auto.
Qed.

End UriShapes.

Section UriExtras.

(** X1: a workspace reference [name:version], with or without the
    [azureml:] prefix, is resolved to that name and version, with no label
    and no registry. *)
Theorem short_version_form_is_parsed (t : AssetType) (name version : string) :
  plain_part name = true -> plain_part version = true ->
  get_parsed_details_from_asset_uri t ("azureml:" ++ name ++ ":" ++ version)
  = Some (mkParsed name (Some version) None None) /\
  get_parsed_details_from_asset_uri t (name ++ ":" ++ version)
  = Some (mkParsed name (Some version) None None).
Proof.
  intros HN HV.
  apply plain_part_text in HN as (HN & HNnl & HNsl & HNsep).
  apply plain_part_text in HV as (HV & HVnl & HVsl & HVsep).
  pose proof (workspace_body_version _ _ no_groups HN HNnl HV HVnl HVsep) as Hbody.
  unfold get_parsed_details_from_asset_uri, re_match.
  rewrite !list_ascii_of_string_app.
  split.
  - rewrite registry_pattern_needs_slashes
      by (rewrite !count_slash_app, HNsl, HVsl; reflexivity).
    rewrite (workspace_prefix_taken _ _ _ Hbody).
    unfold group_or_empty, set_group. simpl.
    now rewrite !string_of_list_ascii_of_string.
  - rewrite registry_pattern_needs_slashes
      by (rewrite !count_slash_app, HNsl, HVsl; reflexivity).
    rewrite workspace_prefix_skipped
      by (rewrite !count_char_app, HNsep, HVsep; reflexivity).
    rewrite Hbody.
    unfold group_or_empty, set_group. simpl.
    now rewrite !string_of_list_ascii_of_string.
Qed.

Lemma short_version_form_is_parsed_witness :
  get_parsed_details_from_asset_uri COMPONENT "azureml:train:1.0.2"
  = Some (mkParsed "train" (Some "1.0.2") None None) /\
  get_parsed_details_from_asset_uri COMPONENT "train:1.0.2"
  = Some (mkParsed "train" (Some "1.0.2") None None).
Proof.
  exact (short_version_form_is_parsed COMPONENT "train" "1.0.2" eq_refl eq_refl).
Defined.

(** X2: a workspace reference [name@label], with or without the [azureml:]
    prefix, is resolved to that name and label, with no version and no
    registry. *)
Theorem short_label_form_is_parsed (t : AssetType) (name label : string) :
  plain_part name = true -> plain_part label = true ->
  get_parsed_details_from_asset_uri t ("azureml:" ++ name ++ "@" ++ label)
  = Some (mkParsed name None (Some label) None) /\
  get_parsed_details_from_asset_uri t (name ++ "@" ++ label)
  = Some (mkParsed name None (Some label) None).
Proof.
  intros HN HV.
  apply plain_part_text in HN as (HN & HNnl & HNsl & HNsep).
  apply plain_part_text in HV as (HV & HVnl & HVsl & HVsep).
  pose proof (workspace_body_label _ _ no_groups HN HNnl HV HVnl HVsep) as Hbody.
  unfold get_parsed_details_from_asset_uri, re_match.
  rewrite !list_ascii_of_string_app.
  split.
  - rewrite registry_pattern_needs_slashes
      by (rewrite !count_slash_app, HNsl, HVsl; reflexivity).
    rewrite (workspace_prefix_taken _ _ _ Hbody).
    unfold group_or_empty, set_group. simpl.
    now rewrite !string_of_list_ascii_of_string.
  - rewrite registry_pattern_needs_slashes
      by (rewrite !count_slash_app, HNsl, HVsl; reflexivity).
    rewrite workspace_prefix_skipped
      by (rewrite !count_char_app, HNsep, HVsep; reflexivity).
    rewrite Hbody.
    unfold group_or_empty, set_group. simpl.
    now rewrite !string_of_list_ascii_of_string.
Qed.

Lemma short_label_form_is_parsed_witness :
  get_parsed_details_from_asset_uri ENVIRONMENT "azureml:sklearn@latest"
  = Some (mkParsed "sklearn" None (Some "latest") None) /\
  get_parsed_details_from_asset_uri ENVIRONMENT "sklearn@latest"
  = Some (mkParsed "sklearn" None (Some "latest") None).
Proof.
  exact (short_label_form_is_parsed ENVIRONMENT "sklearn" "latest" eq_refl eq_refl).
Defined.

(** X4: a string that holds neither [:] nor [@] is no asset URI: the
    resolver raises for it, whatever the asset type. *)
Theorem uri_without_separator_is_rejected (t : AssetType) (uri : string) :
  separator_free uri = true ->
  get_parsed_details_from_asset_uri t uri = None.
Proof.
  intros H. apply count_char_none in H.
  unfold get_parsed_details_from_asset_uri, re_match.
  rewrite (run_too_few is_separator (REGISTRY_ASSET_TEMPLATE _))
    by (rewrite H; cbn; lia).
  rewrite (run_too_few is_separator WORKSPACE_ASSET_PATTERN)
    by (rewrite H; cbn; lia).
  reflexivity.
Qed.

Lemma uri_without_separator_is_rejected_witness :
  get_parsed_details_from_asset_uri COMPONENT "registries/azureml/components/train"
  = None.
Proof.
  exact (uri_without_separator_is_rejected COMPONENT
           "registries/azureml/components/train" eq_refl).
Defined.

Lemma parse_well_formed (t : AssetType) (uri : string) (p : ParsedUri) :
  get_parsed_details_from_asset_uri t uri = Some p -> well_formed p.
Proof.
  unfold get_parsed_details_from_asset_uri, re_match.
  destruct (run (REGISTRY_ASSET_TEMPLATE _) _ _ _) as [g|] eqn:Hr.
  - intros [= <-].
    apply registry_pattern_inv in Hr
      as (R & N & V & HR & HRnl & HN & HNnl & HV & HVnl & [-> | ->]);
      unfold well_formed, group_or_empty, set_group; simpl;
      (split; [now apply captured_part|]).
    + split.
      * left. eexists. repeat split. now apply captured_part.
      * intros r [= <-]. now apply captured_part.
    + split.
      * right. eexists. repeat split. now apply captured_part.
      * intros r [= <-]. now apply captured_part.
  - destruct (run WORKSPACE_ASSET_PATTERN _ _ _) as [g|] eqn:Hw; [|discriminate].
    intros [= <-].
    unfold WORKSPACE_ASSET_PATTERN in Hw. rewrite run_Cat in Hw.
    assert (Hbody : exists s, run (Cat (Grp 1 DotPlus)
         (Cat (Alt (Cat (Lit ":") (Grp 2 DotPlus)) (Cat (Lit "@") (Grp 3 DotPlus)))
              Eos)) s no_groups (fun _ g' => Some g') = Some g).
    { apply run_Opt_inv in Hw as [Hw|Hw].
      - apply run_Lit_inv in Hw as (s' & _ & Hw). now exists s'.
      - eexists. exact Hw. }
    destruct Hbody as [s Hbody].
    apply workspace_body_inv in Hbody
      as (N & V & HN & HNnl & HV & HVnl & [-> | ->]);
      unfold well_formed, group_or_empty, set_group; simpl;
      (split; [now apply captured_part|]).
    + split; [|discriminate].
      left. eexists. repeat split. now apply captured_part.
    + split; [|discriminate].
      right. eexists. repeat split. now apply captured_part.
Qed.

(** X5: whatever the resolver returns has a non-empty name and exactly one
    of version and label; every part that is present, the registry too, is
    non-empty and free of newlines. *)
Theorem parsed_uri_is_well_formed (t : AssetType) (uri : string) (p : ParsedUri) :
  get_parsed_details_from_asset_uri t uri = Some p -> well_formed p.
Proof. apply parse_well_formed. Qed.

Lemma parsed_uri_is_well_formed_witness :
  well_formed (mkParsed "train" None (Some "latest") (Some "azureml")).
Proof.
  exact (parsed_uri_is_well_formed COMPONENT
           "azureml://registries/azureml/components/train/labels/latest"
           _ eq_refl).
Defined.

End UriExtras.

Section UriLabelForm.

(** The registry pattern on a long-form URI that ends in a label. *)
Lemma registry_pattern_on_label (T : string) (R N L : text) (g0 : groups) :
  count_slash (list_ascii_of_string T) = 0 ->
  R <> [] -> no_newline R = true ->
  N <> [] -> no_newline N = true -> count_slash N = 0 ->
  L <> [] -> no_newline L = true -> count_slash L = 0 ->
  run (REGISTRY_ASSET_TEMPLATE T)
      (list_ascii_of_string "azureml://registries/" ++ R
         ++ list_ascii_of_string ("/" ++ T ++ "/") ++ N
         ++ list_ascii_of_string "/" ++ list_ascii_of_string "labels/" ++ L)%list
      g0 (fun _ g => Some g)
  = Some (set_group 4 (string_of_list_ascii L)
            (set_group 2 (string_of_list_ascii N)
               (set_group 1 (string_of_list_ascii R) g0))).
Proof.
  intros HT HR HRnl HN HNnl HNs HL HLnl HLs.
  assert (Hmid : count_slash (list_ascii_of_string ("/" ++ T ++ "/")) = 2).
  { rewrite !list_ascii_of_string_app, !count_slash_app, HT. reflexivity. }
  unfold REGISTRY_ASSET_TEMPLATE.
  rewrite run_Cat, run_Lit_app, run_Cat.
  apply run_Grp_DotPlus_greedy; auto.
  - rewrite run_Cat, run_Lit_app, run_Cat.
    apply run_Grp_DotPlus_greedy; auto.
    + rewrite run_Cat, run_Lit_app.
      rewrite run_Alt_right by reflexivity.
      rewrite run_Cat, run_Lit_app.
      rewrite <- (app_nil_r L) at 1.
      apply run_Grp_DotPlus_greedy; auto.
      intros q s' g' Hq E. destruct q; [easy | discriminate].
    + intros q s' g' Hq E.
      apply run_too_few_slashes.
      assert (Hrest : count_slash
                (list_ascii_of_string "/" ++ list_ascii_of_string "labels/" ++ L)%list
              = 2).
      { rewrite !count_slash_app, HLs. reflexivity. }
      assert (Hlt : count_slash s' < 2).
      { rewrite <- Hrest.
        exact (suffix_fewer_slashes
                 (list_ascii_of_string "labels/" ++ L)%list q s' Hq E). }
      cbn [min_slashes]. unfold count_slash. simpl.
      unfold count_slash in Hlt. lia.
  - intros q s' g' Hq E.
    apply run_too_few_slashes.
    assert (Hrest : count_slash
              (list_ascii_of_string ("/" ++ T ++ "/") ++ N
                 ++ list_ascii_of_string "/" ++ list_ascii_of_string "labels/" ++ L)%list
            = 4).
    { rewrite !count_slash_app, Hmid, HNs, HLs. reflexivity. }
    assert (Hlt : count_slash s' < 4).
    { rewrite <- Hrest.
      exact (suffix_fewer_slashes
               (list_ascii_of_string (T ++ "/") ++ N
                  ++ list_ascii_of_string "/" ++ list_ascii_of_string "labels/" ++ L)%list
               q s' Hq E). }
    cbn [min_slashes]. rewrite Hmid.
    unfold count_slash. simpl. unfold count_slash in Hlt. lia.
Qed.

(** X3: a long-form registry URI that ends in [/labels/<label>] is resolved
    to its name, label and registry, with no version. *)
Theorem long_label_form_is_parsed (t : AssetType) (registry name label : string) :
  id_part registry = true ->
  id_part name = true -> slash_free name = true ->
  id_part label = true -> slash_free label = true ->
  get_parsed_details_from_asset_uri t
    ("azureml://registries/" ++ registry ++ "/"
       ++ pluralize_asset_type (asset_type_value t) ++ "/" ++ name
       ++ "/labels/" ++ label)
  = Some (mkParsed name None (Some label) (Some registry)).
Proof.
  intros HR HN HNs HL HLs.
  apply id_part_text in HR as [HR HRnl].
  apply id_part_text in HN as [HN HNnl].
  apply id_part_text in HL as [HL HLnl].
  apply count_slash_none in HNs, HLs.
  unfold get_parsed_details_from_asset_uri, re_match.
  set (T := pluralize_asset_type (asset_type_value t)).
  assert (E : list_ascii_of_string
                ("azureml://registries/" ++ registry ++ "/" ++ T ++ "/" ++ name
                   ++ "/labels/" ++ label)
              = (list_ascii_of_string "azureml://registries/"
                   ++ list_ascii_of_string registry
                   ++ list_ascii_of_string ("/" ++ T ++ "/")
                   ++ list_ascii_of_string name
                   ++ list_ascii_of_string "/" ++ list_ascii_of_string "labels/"
                   ++ list_ascii_of_string label)%list).
  { rewrite !list_ascii_of_string_app. rewrite <- !app_assoc. reflexivity. }
  rewrite E.
  rewrite (registry_pattern_on_label T _ _ _ no_groups
             (pluralized_slash_free t) HR HRnl HN HNnl HNs HL HLnl HLs).
  unfold group_or_empty, set_group. simpl.
  now rewrite !string_of_list_ascii_of_string.
Qed.

Lemma long_label_form_is_parsed_witness :
  get_parsed_details_from_asset_uri ENVIRONMENT
    "azureml://registries/azureml/environments/sklearn/labels/latest"
  = Some (mkParsed "sklearn" None (Some "latest") (Some "azureml")).
Proof.
  exact (long_label_form_is_parsed ENVIRONMENT "azureml" "sklearn" "latest"
           eq_refl eq_refl eq_refl eq_refl eq_refl).
Defined.

End UriLabelForm.

(** ** What a publishing step may touch *)

Section FrameFacts.

Variable cloud : Cloud.

Lemma dict_get_set_other {V : Type} (k k' : string) (v : V)
    (d : list (string * V)) :
  k' <> k -> dict_get k' (dict_set k v d) = dict_get k' d.
Proof.
  intros Hne. induction d as [|[k0 v0] d IH]; simpl.
  - apply String.eqb_neq in Hne. rewrite String.eqb_sym. now rewrite Hne.
  - destruct (String.eqb k0 k) eqn:E; simpl.
    + apply String.eqb_eq in E. subst k0.
      assert (E' : String.eqb k k' = false).
      { rewrite String.eqb_sym. now apply String.eqb_neq. }
      now rewrite E'.
    + destruct (String.eqb k0 k'); [reflexivity | exact IH].
Qed.

Lemma frame_refl (path : string) (st : State) : frame path st st.
Proof. repeat split. Qed.

Lemma frame_trans (path : string) (st1 st2 st3 : State) :
  frame path st1 st2 -> frame path st2 st3 -> frame path st1 st3.
Proof.
  intros (Hf1 & Hi1 & Hl1) (Hf2 & Hi2 & Hl2). repeat split.
  - intros p Hp. now rewrite Hf2, Hf1.
  - now rewrite Hi2.
  - now rewrite Hl2.
Qed.

Lemma Framed_ret {A : Type} (path : string) (a : A) : Framed path (ret a).
Proof. intros st. apply frame_refl. Qed.

Lemma Framed_raise {A : Type} (path : string) : Framed path (@raise A).
Proof. intros st. apply frame_refl. Qed.

Lemma Framed_logger (path : string) (m : LogMsg) : Framed path (logger m).
Proof. intros st. repeat split. Qed.

Lemma Framed_emit (path : string) (e : Effect) : Framed path (emit e).
Proof. intros st. repeat split. Qed.

Lemma Framed_history (path : string) : Framed path history.
Proof. intros st. apply frame_refl. Qed.

Lemma Framed_read_file (path p : string) : Framed path (read_file p).
Proof. intros st. apply frame_refl. Qed.

Lemma Framed_dump_yaml (path : string) (doc : yaml) :
  Framed path (dump_yaml doc path).
Proof.
  intros st. repeat split. intros p Hp. simpl.
  now apply dict_get_set_other.
Qed.

Lemma Framed_bind {A B : Type} (path : string) (m : M A) (f : A -> M B) :
  Framed path m -> (forall a, Framed path (f a)) -> Framed path (bind m f).
Proof.
  intros Hm Hf st. unfold bind. specialize (Hm st).
  destruct (m st) as [[a|] st1]; simpl in *; [|exact Hm].
  exact (frame_trans _ _ _ _ Hm (Hf a st1)).
Qed.

Lemma Framed_when (path : string) (b : bool) (m : M unit) :
  Framed path m -> Framed path (when b m).
Proof. destruct b; [easy | intros _; apply Framed_ret]. Qed.

Ltac framed :=
  repeat first
    [ apply Framed_ret | apply Framed_raise | apply Framed_logger
    | apply Framed_emit | apply Framed_history | apply Framed_read_file
    | apply Framed_dump_yaml | apply Framed_when
    | apply Framed_bind; [|intros]
    | match goal with
      | |- Framed _ (match ?x with _ => _ end) => destruct x
      end ].

Lemma Framed_get_asset_details (path t n v r : string) :
  Framed path (get_asset_details cloud t n v r).
Proof. unfold get_asset_details. framed. Qed.

Lemma Framed_get_asset_versions (path t n r : string) :
  Framed path (get_asset_versions cloud t n r).
Proof. unfold get_asset_versions. framed. Qed.

Lemma Framed_try_versions (path t n : string) (versions : list string) (r : string) :
  Framed path (try_versions cloud t n versions r).
Proof.
  induction versions as [|v rest IH]; cbn [try_versions].
  - apply Framed_ret.
  - apply Framed_bind; [apply Framed_get_asset_details|].
    intros [d|]; [apply Framed_ret | exact IH].
Qed.

Lemma Framed_get_environment_asset_id (path : string) (environment_id : yaml)
    (suffix : option string) (target : string) :
  Framed path (get_environment_asset_id cloud environment_id suffix target).
Proof.
  unfold get_environment_asset_id. cbv zeta.
  destruct (match environment_id with YStr uri => _ | _ => None end) as [p|];
    [|framed].
  apply Framed_bind; [framed|]. intros _.
  assert (Hresolve : forall env_version : option string,
    Framed path
      match env_version with
      | Some v =>
          d <- try_versions cloud (asset_type_value ENVIRONMENT) (asset_name p)
                 (v :: (if str_truthy suffix
                        then match suffix with
                             | Some sfx => [v ++ "-" ++ sfx]
                             | None => []
                             end
                        else []))
                 (registry_or (asset_registry_name p) target) ;;
          match d with
          | Some env => ret (EnvStr (id env))
          | None =>
              logger (ErrEnvNotFound (asset_name p)
                        (registry_or (asset_registry_name p) target)
                        (v :: (if str_truthy suffix
                               then match suffix with
                                    | Some sfx => [v ++ "-" ++ sfx]
                                    | None => []
                                    end
                               else []))) ;;;
              ret EnvNone
          end
      | None => raise
      end).
  { intros [v|]; [|apply Framed_raise].
    apply Framed_bind; [apply Framed_try_versions|]. intros [d|]; framed. }
  destruct (str_truthy (asset_label p)); [|apply (Hresolve (asset_version p))].
  destruct (asset_label p) as [env_label|]; [|framed].
  destruct (String.eqb env_label LATEST_LABEL); [|framed].
  apply Framed_bind; [apply Framed_get_asset_versions|].
  intros [|latest rest]; [framed | apply (Hresolve (Some latest))].
Qed.

Lemma Framed_validate_update_component (spec_path : string)
    (suffix : option string) (target : string) :
  Framed spec_path (validate_update_component cloud spec_path suffix target).
Proof.
  unfold validate_update_component. cbv zeta.
  apply Framed_bind; [apply Framed_read_file|].
  intros [[|[| | | |component_dict]]|]; framed;
    try apply Framed_get_environment_asset_id.
Qed.

Lemma Framed_prepare_job (path : string) (suffix : option string)
    (target : string) (updated : list (string * yaml)) (job_name : string)
    (job_details : yaml) :
  Framed path (prepare_job cloud suffix target updated job_name job_details).
Proof.
  unfold prepare_job. cbv zeta.
  destruct job_details as [| | | |details]; framed;
    try apply Framed_try_versions.
Qed.

Lemma Framed_prepare_jobs (path : string) (suffix : option string)
    (jobs : list (string * yaml)) :
  forall (target : string) (updated : list (string * yaml)),
    Framed path (prepare_jobs cloud suffix target updated jobs).
Proof.
  induction jobs as [|[job_name job_details] rest IH]; intros target updated;
    cbn [prepare_jobs].
  - apply Framed_ret.
  - apply Framed_bind; [apply Framed_prepare_job|].
    intros [[target' updated']|]; [apply IH | apply Framed_ret].
Qed.

Lemma Framed_validate_and_prepare_pipeline_component (spec_path : string)
    (suffix : option string) (target : string) :
  Framed spec_path
    (validate_and_prepare_pipeline_component cloud spec_path suffix target).
Proof.
  unfold validate_and_prepare_pipeline_component.
  apply Framed_bind; [apply Framed_read_file|].
  intros [[|[| | | |pipeline_dict]]|]; framed;
    try apply Framed_prepare_jobs.
Qed.

Lemma Framed_prepare_model_for_registration (asset : AssetConfig) (registry : string) :
  Framed (spec_with_path asset) (prepare_model_for_registration cloud asset registry).
Proof. unfold prepare_model_for_registration. framed. Qed.

Lemma Framed_update_asset_metadata (path : string) (asset : AssetConfig) :
  Framed path (update_asset_metadata cloud asset).
Proof. unfold update_asset_metadata. framed. Qed.

End FrameFacts.

Section FootprintFacts.

Variable cloud : Cloud.

Lemma frame_footprint (asset : AssetConfig) (st1 st2 st3 : State) :
  frame (spec_with_path asset) st1 st2 -> footprint asset st2 st3 ->
  footprint asset st1 st3.
Proof.
  intros (Hf1 & Hi1 & Hl1) (Hf2 & Hi2 & Hl2). repeat split.
  - intros p Hp. now rewrite Hf2, Hf1.
  - intros n Hn. now rewrite Hi2, Hi1.
  - now rewrite <- Hl1.
Qed.

Lemma Footprinted_bind {A B : Type} (asset : AssetConfig) (m : M A)
    (f : A -> M B) :
  Framed (spec_with_path asset) m -> (forall a, Footprinted asset (f a)) ->
  Footprinted asset (bind m f).
Proof.
  intros Hm Hf st. unfold bind. specialize (Hm st).
  destruct (m st) as [[a|] st1]; simpl in *.
  - exact (frame_footprint _ _ _ _ Hm (Hf a st1)).
  - destruct Hm as (Hf1 & Hi1 & Hl1). repeat split; auto.
    intros n _. now rewrite Hi1.
Qed.

Lemma Footprinted_Framed {A : Type} (asset : AssetConfig) (m : M A) :
  Framed (spec_with_path asset) m -> Footprinted asset m.
Proof.
  intros Hm st. destruct (Hm st) as (Hf & Hi & Hl). repeat split; auto.
  intros n _. now rewrite Hi.
Qed.

Lemma Footprinted_fail_asset (asset : AssetConfig) :
  Footprinted asset (fail_asset asset).
Proof. intros st. repeat split. now right. Qed.

Lemma Footprinted_create_asset (args : Args) (asset : AssetConfig) (v : string) :
  Footprinted asset (create_asset cloud args asset v).
Proof.
  intros st. unfold create_asset, bind, history, emit, ret.
  cbn [effects]. destruct (Z.eqb _ 0); simpl.
  - repeat split. now left.
  - repeat split. now right.
Qed.

Lemma Footprinted_record (asset : AssetConfig) (v : string) (m : M unit) :
  Footprinted asset m ->
  Footprinted asset (bind (record_asset_id (name asset) v) (fun _ => m)).
Proof.
  intros Hm st. unfold bind, record_asset_id.
  destruct (Hm (mkState (fs st) (effects st) (log st) (failure_list st)
                  (dict_set (name asset) v (asset_ids st))))
    as (Hf & Hi & Hl).
  repeat split; auto.
  intros n Hn. rewrite (Hi n Hn). simpl. now apply dict_get_set_other.
Qed.

Lemma Footprinted_publish_asset (args : Args) (asset : AssetConfig) :
  Footprinted asset (publish_asset cloud args asset).
Proof.
  unfold publish_asset. cbv zeta.
  destruct (negb (selected args asset)).
  { apply Footprinted_Framed, Framed_ret. }
  apply Footprinted_record.
  apply Footprinted_bind; [apply Framed_get_asset_details|].
  intros [d|].
  { apply Footprinted_Framed.
    apply Framed_bind; [apply Framed_update_asset_metadata|].
    intros raised. apply Framed_when, Framed_logger. }
  destruct (type asset).
  - apply Footprinted_create_asset.
  - apply Footprinted_create_asset.
  - destruct (match component_type asset with
              | Some t => String.eqb t "pipeline"
              | None => false
              end).
    + apply Footprinted_bind;
        [apply Framed_validate_and_prepare_pipeline_component|].
      intros [|]; [apply Footprinted_create_asset | apply Footprinted_fail_asset].
    + destruct (match component_type asset with
                | Some t => str_in t ["command"; "parallel"]
                | None => true
                end).
      * apply Footprinted_bind; [apply Framed_validate_update_component|].
        intros [|]; [apply Footprinted_create_asset | apply Footprinted_fail_asset].
      * apply Footprinted_create_asset.
  - apply Footprinted_bind; [apply Framed_prepare_model_for_registration|].
    intros [[|]|]; try apply Footprinted_create_asset;
      (apply Footprinted_bind; [apply Framed_logger|]; intros _;
       apply Footprinted_fail_asset).
Qed.

End FootprintFacts.

Section PublishExtras.

(** X6: publishing one asset writes no file but the asset's own spec file,
    records no asset ID under another name, and changes the failure list at
    most by appending the asset itself; this holds whether the step returns
    or raises. *)
Theorem publish_asset_touches_only_its_asset
    (cloud : Cloud) (args : Args) (asset : AssetConfig) (st : State) :
  footprint asset st (snd (publish_asset cloud args asset st)).
Proof. apply Footprinted_publish_asset. Qed.

End PublishExtras.

Section KeepsIdsFacts.

Variable cloud : Cloud.

Lemma KeepsIds_Framed {A : Type} (path : string) (m : M A) :
  Framed path m -> KeepsIds m.
Proof. intros Hm st. now destruct (Hm st) as (_ & Hi & _). Qed.

Lemma KeepsIds_bind {A B : Type} (m : M A) (f : A -> M B) :
  KeepsIds m -> (forall a, KeepsIds (f a)) -> KeepsIds (bind m f).
Proof.
  intros Hm Hf st. unfold bind. specialize (Hm st).
  destruct (m st) as [[a|] st1]; simpl in *; [|exact Hm].
  now rewrite Hf.
Qed.

Lemma KeepsIds_fail_asset (asset : AssetConfig) : KeepsIds (fail_asset asset).
Proof. intros st. reflexivity. Qed.

Lemma KeepsIds_create_asset (args : Args) (asset : AssetConfig) (v : string) :
  KeepsIds (create_asset cloud args asset v).
Proof.
  intros st. unfold create_asset, bind, history, emit, ret.
  cbn [effects]. destruct (Z.eqb _ 0); reflexivity.
Qed.

Lemma KeepsIds_record (k v : string) (m : M unit) (st : State) :
  KeepsIds m ->
  asset_ids (snd (bind (record_asset_id k v) (fun _ => m) st))
  = dict_set k v (asset_ids st).
Proof. intros Hm. unfold bind, record_asset_id. now rewrite Hm. Qed.

(** After the asset ID is recorded, nothing in the step changes it. *)
Lemma publish_asset_ids (args : Args) (asset : AssetConfig) (st : State) :
  selected args asset = true ->
  asset_ids (snd (publish_asset cloud args asset st))
  = dict_set (name asset)
      (ASSET_ID_TEMPLATE (registry_name args)
         (pluralize_asset_type (asset_type_value (type asset)))
         (name asset)
         (suffixed_version (version asset) (version_suffix args)))
      (asset_ids st).
Proof.
  intros Hsel. unfold publish_asset. cbv zeta. rewrite Hsel. cbn [negb].
  apply KeepsIds_record.
  apply KeepsIds_bind;
    [apply (KeepsIds_Framed ""), Framed_get_asset_details|].
  intros [d|].
  { apply (KeepsIds_Framed "").
    apply Framed_bind; [apply Framed_update_asset_metadata|].
    intros raised. apply Framed_when, Framed_logger. }
  destruct (type asset).
  - apply KeepsIds_create_asset.
  - apply KeepsIds_create_asset.
  - destruct (match component_type asset with
              | Some t => String.eqb t "pipeline"
              | None => false
              end).
    + apply KeepsIds_bind;
        [eapply KeepsIds_Framed,
           Framed_validate_and_prepare_pipeline_component|].
      intros [|]; [apply KeepsIds_create_asset | apply KeepsIds_fail_asset].
    + destruct (match component_type asset with
                | Some t => str_in t ["command"; "parallel"]
                | None => true
                end).
      * apply KeepsIds_bind;
          [eapply KeepsIds_Framed, Framed_validate_update_component|].
        intros [|]; [apply KeepsIds_create_asset | apply KeepsIds_fail_asset].
      * apply KeepsIds_create_asset.
  - apply KeepsIds_bind;
      [eapply KeepsIds_Framed, Framed_prepare_model_for_registration|].
    intros [[|]|]; try apply KeepsIds_create_asset;
      (apply KeepsIds_bind;
         [apply (KeepsIds_Framed ""), Framed_logger|]; intros _;
       apply KeepsIds_fail_asset).
Qed.

End KeepsIdsFacts.

Section PublishMoreExtras.

(** X7: for every asset selected by the create list the asset ID built from
    the suffixed version is recorded under the asset's name, whatever happens
    next: the asset may already exist, its preparation may fail or raise. *)
Theorem selected_asset_id_is_recorded
    (cloud : Cloud) (args : Args) (asset : AssetConfig) (st : State) :
  selected args asset = true ->
  dict_get (name asset) (asset_ids (snd (publish_asset cloud args asset st)))
  = Some (ASSET_ID_TEMPLATE (registry_name args)
            (pluralize_asset_type (asset_type_value (type asset)))
            (name asset)
            (suffixed_version (version asset) (version_suffix args))).
Proof.
  intros Hsel. rewrite publish_asset_ids by exact Hsel.
  apply dict_get_set_same.
Qed.

Lemma selected_asset_id_is_recorded_witness :
  dict_get "pipe"
    (asset_ids (snd (publish_asset empty_registry (release (Some "rc1"))
                       pipeline_component
                       (on_disk "pipe/spec.yaml" label_then_missing_pipeline_spec))))
  = Some "azureml://registries/target/components/pipe/versions/1.0-rc1".
Proof.
  exact (selected_asset_id_is_recorded empty_registry (release (Some "rc1"))
           pipeline_component
           (on_disk "pipe/spec.yaml" label_then_missing_pipeline_spec) eq_refl).
Defined.

(** X8: assets that the create list does not select are skipped: a run over
    such assets issues no lookup, writes nothing and leaves the whole state
    as it was. *)
Theorem unselected_assets_are_skipped
    (cloud : Cloud) (args : Args) (assets : list AssetConfig) (st : State) :
  Forall (fun asset => selected args asset = false) assets ->
  publish_assets cloud args assets st = (Return tt, st).
Proof.
  intros H. induction H as [|asset rest Hsel _ IH]; [reflexivity|].
  cbn [publish_assets]. rewrite bind_run.
  unfold publish_asset. rewrite Hsel. exact IH.
Qed.

Lemma unselected_assets_are_skipped_witness :
  publish_assets empty_registry
    (mkArgs "target" None None None [("model", ["bert"])] false "az")
    [labelled_component; pipeline_component; existing_environment]
    (on_disk "train/spec.yaml" labelled_component_spec)
  = (Return tt, on_disk "train/spec.yaml" labelled_component_spec).
Proof.
  apply unselected_assets_are_skipped.
  repeat constructor.
Defined.

End PublishMoreExtras.

(** ** The environment path *)

Section EnvironmentFacts.

Variable cloud : Cloud.


(** When the asset is absent, every candidate is looked up, in order, and
    nothing is found. *)
Lemma try_versions_absent (t n : string) (versions : list string) (r : string)
    (st : State) :
  absent cloud t n r ->
  try_versions cloud t n versions r st
  = (Return None,
     mkState (fs st) (effects st ++ shows t n r versions) (log st)
             (failure_list st) (asset_ids st)).
Proof.
  intros Habs. revert st. induction versions as [|v rest IH]; intros st.
  - cbn. rewrite app_nil_r. now destruct st.
  - cbn [try_versions]. rewrite bind_run, get_asset_details_run, Habs, IH.
    cbn. now rewrite <- app_assoc.
Qed.



End EnvironmentFacts.

Section EnvironmentExtras.


End EnvironmentExtras.

Section EnvironmentRuns.

Variable cloud : Cloud.

(** Listing the versions adds one [az ml list] to the trace; a failed call
    is logged and gives the empty list. *)
Lemma get_asset_versions_run (t n r : string) (st : State) :
  get_asset_versions cloud t n r st
  = (Return match az_list cloud (effects st) t n r with
            | Some versions => versions
            | None => []
            end,
     mkState (fs st) (effects st ++ [AzList t n r])
       (match az_list cloud (effects st) t n r with
        | Some _ => log st
        | None => log st ++ [ErrListFailed]
        end)
       (failure_list st) (asset_ids st)).
Proof.
  unfold get_asset_versions, bind, history, emit, logger, ret.
  cbn [effects]. destruct (az_list cloud (effects st) t n r); reflexivity.
Qed.

(** The environment path on a reference that carries a version. *)
Lemma env_version_form_run (uri : string) (p : ParsedUri) (v : string)
    (suffix : option string) (target : string) (st : State) :
  get_parsed_details_from_asset_uri ENVIRONMENT uri = Some p ->
  asset_label p = None -> asset_version p = Some v ->
  get_environment_asset_id cloud (YStr uri) suffix target st
  = match try_versions cloud "environment" (asset_name p) (candidates v suffix)
            (registry_or (asset_registry_name p) target)
            (logged (foreign_registry (asset_registry_name p) target)
               (WarnForeignRegistry target (asset_name p)
                  (registry_or (asset_registry_name p) target)) st) with
    | (Return (Some env), st2) => (Return (EnvStr (id env)), st2)
    | (Return None, st2) =>
        (Return EnvNone,
         mkState (fs st2) (effects st2)
           (log st2 ++ [ErrEnvNotFound (asset_name p)
                          (registry_or (asset_registry_name p) target)
                          (candidates v suffix)])
           (failure_list st2) (asset_ids st2))
    | (Raised, st2) => (Raised, st2)
    end.
Proof.
  intros Hparse Hlabel Hversion.
  unfold get_environment_asset_id. cbv zeta.
  rewrite Hparse, Hlabel, Hversion, when_logger_run. cbn [str_truthy].
  rewrite bind_run. unfold candidates.
  change (asset_type_value ENVIRONMENT) with "environment".
  destruct (try_versions _ _ _ _ _ _) as [[[env|]|] st2]; reflexivity.
Qed.

(** The command-component path up to the call of the environment path. *)
Lemma validate_update_component_top_level (spec_path : string)
    (d : list (string * yaml)) (n current : yaml) (suffix : option string)
    (target : string) (st : State) :
  dict_get spec_path (fs st) = Some (Yaml (YMap d)) ->
  dict_get "name" d = Some n ->
  dict_get "environment" d = Some current ->
  validate_update_component cloud spec_path suffix target st
  = match get_environment_asset_id cloud current suffix target st with
    | (Return EnvNone, st1) => (Return false, st1)
    | (Return new_env_id, st1) =>
        let d' := if env_differs current new_env_id
                  then dict_set "environment" (env_value new_env_id) d
                  else d in
        (Return true,
         mkState (dict_set spec_path (Yaml (YMap d')) (fs st1))
           (effects st1 ++ [DumpYaml spec_path (YMap d')]) (log st1)
           (failure_list st1) (asset_ids st1))
    | (Raised, st1) => (Raised, st1)
    end.
Proof.
  intros Hfile Hname Henv.
  unfold validate_update_component. cbv zeta.
  rewrite bind_run. unfold read_file. rewrite Hfile, Hname.
  unfold locate_environment, dict_has. rewrite Henv. cbv iota beta.
  rewrite Henv, bind_run.
  destruct (get_environment_asset_id cloud current suffix target st)
    as [[[i| |]|] st1]; reflexivity.
Qed.

Lemma dict_set_same {V : Type} (k : string) (v : V) (d : list (string * V)) :
  dict_get k d = Some v -> dict_set k v d = d.
Proof.
  induction d as [|[k0 v0] d IH]; simpl; [discriminate|].
  destruct (String.eqb k0 k) eqn:E.
  - intros [= ->]. apply String.eqb_eq in E. now subst.
  - intros H. now rewrite IH.
Qed.

Lemma dict_set_keys {V : Type} (k : string) (v : V) (d : list (string * V)) :
  dict_get k d <> None -> map fst (dict_set k v d) = map fst d.
Proof.
  induction d as [|[k0 v0] d IH]; simpl; [easy|].
  destruct (String.eqb k0 k) eqn:E; simpl.
  - intros _. apply String.eqb_eq in E. now subst.
  - intros H. now rewrite IH.
Qed.

Lemma dict_set_fresh_keys {V : Type} (k : string) (v : V) (d : list (string * V)) :
  ~ In k (map fst d) -> map fst (dict_set k v d) = (map fst d ++ [k])%list.
Proof.
  induction d as [|[k0 v0] d IH]; simpl; [reflexivity|].
  intros H. destruct (String.eqb k0 k) eqn:E.
  - apply String.eqb_eq in E. exfalso. apply H. now left.
  - simpl. rewrite IH; [reflexivity|]. intros Hin. apply H. now right.
Qed.

End EnvironmentRuns.

Section EnvironmentMoreExtras.

(** X10: for an environment reference with the label [latest], the versions
    of the environment are listed and the first one listed is the version
    looked up; when the registry has it, its ID is the result. *)
Theorem latest_label_takes_first_listed_version
    (cloud : Cloud) (uri : string) (p : ParsedUri) (suffix : option string)
    (target : string) (st : State) (latest : string) (more : list string)
    (d : Details) :
  get_parsed_details_from_asset_uri ENVIRONMENT uri = Some p ->
  asset_label p = Some "latest" ->
  az_list cloud (effects st) "environment" (asset_name p)
          (registry_or (asset_registry_name p) target) = Some (latest :: more) ->
  az_show cloud
    (effects st ++ [AzList "environment" (asset_name p)
                      (registry_or (asset_registry_name p) target)])
    "environment" (asset_name p) latest
    (registry_or (asset_registry_name p) target) = Some d ->
  exists st',
    get_environment_asset_id cloud (YStr uri) suffix target st
    = (Return (EnvStr (id d)), st') /\
    fs st' = fs st /\
    effects st'
    = (effects st
         ++ [AzList "environment" (asset_name p)
               (registry_or (asset_registry_name p) target);
             AzShow "environment" (asset_name p) latest
               (registry_or (asset_registry_name p) target)])%list.
Proof.
  intros Hparse Hlabel Hlist Hshow.
  unfold get_environment_asset_id. cbv zeta.
  rewrite Hparse, Hlabel, when_logger_run.
  change (str_truthy (Some "latest")) with true.
  change (String.eqb "latest" LATEST_LABEL) with true. cbv iota.
  change (asset_type_value ENVIRONMENT) with "environment".
  rewrite bind_run, get_asset_versions_run, logged_effects, Hlist.
  cbv iota beta. rewrite bind_run. cbn [try_versions].
  rewrite bind_run, get_asset_details_run.
  cbn [effects]. rewrite ?logged_effects, Hshow.
  eexists. split; [reflexivity|]. cbn [fs effects].
  rewrite logged_fs, <- app_assoc. split; reflexivity.
Qed.

Lemma latest_label_takes_first_listed_version_witness :
  exists st',
    get_environment_asset_id listing_registry
      (YStr "azureml:sklearn@latest") (Some "rc1") "target" (on_disk "" YNull)
    = (Return (EnvStr "id-7"), st') /\
    fs st' = [("", Yaml YNull)] /\
    effects st' = [AzList "environment" "sklearn" "target";
                   AzShow "environment" "sklearn" "7" "target"].
Proof.
  exact (latest_label_takes_first_listed_version listing_registry
           "azureml:sklearn@latest"
           (mkParsed "sklearn" None (Some "latest") None) (Some "rc1") "target"
           (on_disk "" YNull) "7" ["6"; "5"] (mkDetails "id-7")
           eq_refl eq_refl eq_refl eq_refl).
Defined.

(** X11: without a version suffix ([None] or the empty string) the
    environment path looks up the bare version and nothing else; the result
    is the ID found, or [None] when the registry does not have it. *)
Theorem no_suffix_single_lookup
    (cloud : Cloud) (uri : string) (p : ParsedUri) (v : string)
    (suffix : option string) (target : string) (st : State) :
  str_truthy suffix = false ->
  get_parsed_details_from_asset_uri ENVIRONMENT uri = Some p ->
  asset_label p = None -> asset_version p = Some v ->
  fst (get_environment_asset_id cloud (YStr uri) suffix target st)
  = Return match az_show cloud (effects st) "environment" (asset_name p) v
                   (registry_or (asset_registry_name p) target) with
           | Some d => EnvStr (id d)
           | None => EnvNone
           end /\
  effects (snd (get_environment_asset_id cloud (YStr uri) suffix target st))
  = (effects st
       ++ [AzShow "environment" (asset_name p) v
             (registry_or (asset_registry_name p) target)])%list.
Proof.
  intros Hsfx Hparse Hlabel Hversion.
  rewrite (env_version_form_run cloud uri p v suffix target st Hparse Hlabel Hversion).
  unfold candidates. rewrite Hsfx. cbn [try_versions].
  rewrite bind_run, get_asset_details_run, logged_effects.
  destruct (az_show cloud (effects st) "environment" (asset_name p) v _) as [d|];
    cbn; rewrite ?logged_effects; split; reflexivity.
Qed.

Lemma no_suffix_single_lookup_witness :
  fst (get_environment_asset_id both_versions (YStr "azureml:sklearn:1") (Some "")
         "target" (on_disk "" YNull))
  = Return (EnvStr "azureml://registries/target/environments/sklearn/versions/1") /\
  effects (snd (get_environment_asset_id both_versions (YStr "azureml:sklearn:1")
                  (Some "") "target" (on_disk "" YNull)))
  = [AzShow "environment" "sklearn" "1" "target"].
Proof.
  exact (no_suffix_single_lookup both_versions "azureml:sklearn:1"
           (mkParsed "sklearn" (Some "1") None None) "1" (Some "") "target"
           (on_disk "" YNull) eq_refl eq_refl eq_refl eq_refl).
Defined.

(** X12: a command or parallel component whose environment reference names
    a version, when the registry has that environment at no version: every
    candidate version is looked up, the component is appended to the failure
    list, its spec file is left as it was and no creation command is issued. *)
Theorem component_with_missing_environment_fails
    (cloud : Cloud) (args : Args) (asset : AssetConfig) (st : State)
    (d : list (string * yaml)) (n : yaml) (uri : string) (p : ParsedUri)
    (v : string) :
  type asset = COMPONENT ->
  In (component_type asset) [None; Some "command"; Some "parallel"] ->
  selected args asset = true ->
  az_show cloud (effects st) "component" (name asset) (version asset)
          (registry_name args) = None ->
  dict_get (spec_with_path asset) (fs st) = Some (Yaml (YMap d)) ->
  dict_get "name" d = Some n ->
  dict_get "environment" d = Some (YStr uri) ->
  get_parsed_details_from_asset_uri ENVIRONMENT uri = Some p ->
  asset_label p = None -> asset_version p = Some v ->
  absent cloud "environment" (asset_name p)
         (registry_or (asset_registry_name p) (registry_name args)) ->
  exists st',
    publish_asset cloud args asset st = (Return tt, st') /\
    fs st' = fs st /\
    failure_list st' = (failure_list st ++ [asset])%list /\
    effects st'
    = (effects st
         ++ AzShow "component" (name asset) (version asset) (registry_name args)
         :: shows "environment" (asset_name p)
              (registry_or (asset_registry_name p) (registry_name args))
              (candidates v (version_suffix args)))%list.
Proof.
  intros Htype Hplain Hsel Hshow Hfile Hname Henv Hparse Hlabel Hversion Habs.
  unfold publish_asset. rewrite Hsel, Htype. cbn [negb asset_type_value].
  unfold bind at 1. unfold record_asset_id.
  unfold bind at 1. rewrite get_asset_details_run.
  cbn [effects fs log failure_list asset_ids]. rewrite Hshow.
  assert (Hbranch :
    (match component_type asset with
     | Some t => String.eqb t "pipeline"
     | None => false
     end) = false /\
    (match component_type asset with
     | Some t => str_in t ["command"; "parallel"]
     | None => true
     end) = true).
  { destruct Hplain as [<-|[<-|[<-|[]]]]; split; reflexivity. }
  destruct Hbranch as [-> ->].
  rewrite bind_run.
  rewrite (validate_update_component_top_level cloud _ d n (YStr uri))
    by assumption.
  rewrite (env_version_form_run cloud uri p v _ _ _ Hparse Hlabel Hversion).
  rewrite (try_versions_absent cloud _ _ _ _ _ Habs).
  cbn. eexists. split; [reflexivity|].
  unfold logged. destruct (foreign_registry _ _);
    cbn [fs effects failure_list]; rewrite <- app_assoc; repeat split.
Qed.

Lemma component_with_missing_environment_fails_witness :
  exists st',
    publish_asset empty_registry (release (Some "rc1")) labelled_component
      (on_disk "train/spec.yaml"
         (YMap [("name", YStr "train"); ("environment", YStr "azureml:sklearn:1")]))
    = (Return tt, st') /\
    fs st' = [("train/spec.yaml",
               Yaml (YMap [("name", YStr "train");
                           ("environment", YStr "azureml:sklearn:1")]))] /\
    failure_list st' = [labelled_component] /\
    effects st' = [AzShow "component" "train" "1.0" "target";
                   AzShow "environment" "sklearn" "1" "target";
                   AzShow "environment" "sklearn" "1-rc1" "target"].
Proof.
  refine (component_with_missing_environment_fails empty_registry
            (release (Some "rc1")) labelled_component
            (on_disk "train/spec.yaml"
               (YMap [("name", YStr "train");
                      ("environment", YStr "azureml:sklearn:1")]))
            [("name", YStr "train"); ("environment", YStr "azureml:sklearn:1")]
            (YStr "train") "azureml:sklearn:1"
            (mkParsed "sklearn" (Some "1") None None) "1"
            eq_refl _ eq_refl eq_refl eq_refl eq_refl eq_refl eq_refl eq_refl
            eq_refl _).
  - left. reflexivity.
  - intros h ver. reflexivity.
Defined.

(** X13: a command component whose environment reference names a version
    that the registry has: the reference is replaced by the ID the registry
    gave, the spec file is dumped once, and the rewritten mapping has the
    same keys in the same order and the same value under every key other than
    [environment]. *)
Theorem resolved_environment_is_written_back
    (cloud : Cloud) (spec_path : string) (d : list (string * yaml)) (n : yaml)
    (uri : string) (p : ParsedUri) (v : string) (suffix : option string)
    (target : string) (st : State) (det : Details) :
  dict_get spec_path (fs st) = Some (Yaml (YMap d)) ->
  dict_get "name" d = Some n ->
  dict_get "environment" d = Some (YStr uri) ->
  get_parsed_details_from_asset_uri ENVIRONMENT uri = Some p ->
  asset_label p = None -> asset_version p = Some v ->
  az_show cloud (effects st) "environment" (asset_name p) v
          (registry_or (asset_registry_name p) target) = Some det ->
  let d' := dict_set "environment" (YStr (id det)) d in
  exists st',
    validate_update_component cloud spec_path suffix target st = (Return true, st') /\
    dict_get spec_path (fs st') = Some (Yaml (YMap d')) /\
    effects st'
    = (effects st
         ++ [AzShow "environment" (asset_name p) v
               (registry_or (asset_registry_name p) target);
             DumpYaml spec_path (YMap d')])%list /\
    map fst d' = map fst d /\
    (forall k, k <> "environment" -> dict_get k d' = dict_get k d).
Proof.
  intros Hfile Hname Henv Hparse Hlabel Hversion Hshow d'.
  rewrite (validate_update_component_top_level cloud _ d n (YStr uri))
    by assumption.
  rewrite (env_version_form_run cloud uri p v _ _ _ Hparse Hlabel Hversion).
  unfold candidates. cbn [try_versions].
  rewrite bind_run, get_asset_details_run, logged_effects, Hshow.
  cbn [ret].
  assert (Hd' : (if env_differs (YStr uri) (EnvStr (id det))
                 then dict_set "environment" (env_value (EnvStr (id det))) d
                 else d) = d').
  { unfold d'. cbn [env_differs env_value].
    destruct (String.eqb uri (id det)) eqn:E; cbn [negb]; [|reflexivity].
    apply String.eqb_eq in E. rewrite <- E.
    symmetry. now apply dict_set_same. }
  cbv zeta. rewrite Hd'.
  eexists. split; [reflexivity|]. cbn [fs effects].
  split; [apply dict_get_set_same|].
  split; [now rewrite <- app_assoc|].
  split.
  - apply dict_set_keys. rewrite Henv. discriminate.
  - intros k Hk. now apply dict_get_set_other.
Qed.

Lemma resolved_environment_is_written_back_witness :
  exists st',
    validate_update_component both_versions "train/spec.yaml" (Some "rc1") "target"
      (on_disk "train/spec.yaml"
         (YMap [("name", YStr "train"); ("environment", YStr "azureml:sklearn:1");
                ("command", YStr "python train.py")]))
    = (Return true, st') /\
    dict_get "train/spec.yaml" (fs st')
    = Some (Yaml (YMap [("name", YStr "train");
                        ("environment",
                         YStr "azureml://registries/target/environments/sklearn/versions/1");
                        ("command", YStr "python train.py")])).
Proof.
  destruct (resolved_environment_is_written_back both_versions "train/spec.yaml"
              [("name", YStr "train"); ("environment", YStr "azureml:sklearn:1");
               ("command", YStr "python train.py")]
              (YStr "train") "azureml:sklearn:1"
              (mkParsed "sklearn" (Some "1") None None) "1" (Some "rc1") "target"
              (on_disk "train/spec.yaml"
                 (YMap [("name", YStr "train");
                        ("environment", YStr "azureml:sklearn:1");
                        ("command", YStr "python train.py")]))
              (mkDetails "azureml://registries/target/environments/sklearn/versions/1")
              eq_refl eq_refl eq_refl eq_refl eq_refl eq_refl eq_refl)
    as (st' & Hrun & Hfile & _).
  exists st'. split; [exact Hrun | exact Hfile].
Defined.

End EnvironmentMoreExtras.

(** ** The pipeline path *)

Section PipelineFacts.

Variable cloud : Cloud.

(** A job that resolves is stored under its own name. *)
Lemma prepare_job_stores (suffix : option string) (target : string)
    (updated : list (string * yaml)) (job_name : string) (job_details : yaml)
    (st st' : State) (target' : string) (updated' : list (string * yaml)) :
  prepare_job cloud suffix target updated job_name job_details st
  = (Return (Some (target', updated')), st') ->
  exists job', updated' = dict_set job_name job' updated.
Proof.
  unfold prepare_job. cbv zeta.
  destruct job_details as [| | | |details]; try discriminate.
  destruct (negb (truthy _)).
  { intros [= <- <- <-]. now eexists. }
  destruct (match _ with YStr uri => _ | _ => None end) as [p|];
    [|discriminate].
  rewrite when_logger_run.
  destruct (asset_version p) as [v|]; [|discriminate].
  rewrite bind_run.
  destruct (try_versions _ _ _ _ _ _) as [[[d|]|] st1]; try discriminate.
  intros [= <- <- <-]. now eexists.
Qed.

(** On success the rewritten jobs carry the names of the jobs, in order. *)
Lemma prepare_jobs_names (suffix : option string) (jobs : list (string * yaml)) :
  forall (target : string) (updated updated' : list (string * yaml))
         (st st' : State),
    NoDup (map fst updated ++ map fst jobs) ->
    prepare_jobs cloud suffix target updated jobs st = (Return (Some updated'), st') ->
    map fst updated' = (map fst updated ++ map fst jobs)%list.
Proof.
  induction jobs as [|[job_name job_details] rest IH];
    intros target updated updated' st st' Hnd; cbn [prepare_jobs].
  - intros [= <- <-]. cbn. now rewrite app_nil_r.
  - rewrite bind_run.
    destruct (prepare_job _ _ _ _ _ _ _) as [[[[target1 updated1]|]|] st1] eqn:Hjob;
      try discriminate.
    intros Hrest.
    apply prepare_job_stores in Hjob as [job' ->].
    cbn [map fst] in Hnd.
    assert (Hfresh : ~ In job_name (map fst updated)).
    { intros Hin. apply NoDup_remove_2 in Hnd. apply Hnd.
      apply in_or_app. now left. }
    apply IH in Hrest.
    + rewrite Hrest, dict_set_fresh_keys by exact Hfresh.
      now rewrite <- app_assoc.
    + rewrite dict_set_fresh_keys by exact Hfresh.
      rewrite <- app_assoc. exact Hnd.
Qed.

Lemma dict_set_fresh {V : Type} (k : string) (v : V) (d : list (string * V)) :
  ~ In k (map fst d) -> dict_set k v d = (d ++ [(k, v)])%list.
Proof.
  induction d as [|[k0 v0] d IH]; simpl; [reflexivity|].
  intros H. destruct (String.eqb k0 k) eqn:E.
  - apply String.eqb_eq in E. exfalso. apply H. now left.
  - rewrite IH; [reflexivity|]. intros Hin. apply H. now right.
Qed.

(** Jobs without a component reference are copied, without any lookup. *)
Lemma prepare_jobs_pass_through (suffix : option string)
    (jobs : list (string * yaml)) :
  forall (target : string) (updated : list (string * yaml)) (st : State),
    Forall (fun job => passes_through (snd job) = true) jobs ->
    NoDup (map fst updated ++ map fst jobs) ->
    prepare_jobs cloud suffix target updated jobs st
    = (Return (Some (updated ++ jobs)%list), st).
Proof.
  induction jobs as [|[job_name job_details] rest IH];
    intros target updated st Hpass Hnd; cbn [prepare_jobs].
  - now rewrite app_nil_r.
  - inversion Hpass as [|? ? Hjob Hrest]; subst. cbn [snd] in Hjob.
    rewrite bind_run. unfold prepare_job.
    destruct job_details as [| | | |details]; try discriminate.
    cbn [passes_through] in Hjob. cbv zeta. rewrite Hjob.
    cbn [ret]. cbn [map fst] in Hnd.
    assert (Hfresh : ~ In job_name (map fst updated)).
    { intros Hin. apply NoDup_remove_2 in Hnd. apply Hnd.
      apply in_or_app. now left. }
    rewrite dict_set_fresh by exact Hfresh.
    rewrite IH; [now rewrite <- app_assoc | exact Hrest |].
    rewrite map_app, <- app_assoc. exact Hnd.
Qed.

End PipelineFacts.

Section PipelineExtras.

(** X14: the pipeline spec is rewritten all or nothing. Either the
    preparation returns [True], and then the file holds the loaded mapping
    with only its [jobs] replaced, the rewritten jobs carrying the same names
    in the same order; or it returns [False] or raises, and then every file
    is as it was. *)
Theorem pipeline_rewrite_is_all_or_nothing
    (cloud : Cloud) (spec_path : string) (suffix : option string)
    (target : string) (st st' : State) (r : Result bool) :
  validate_and_prepare_pipeline_component cloud spec_path suffix target st = (r, st') ->
  (r = Return true /\
   exists pipeline_dict jobs updated_jobs,
     dict_get spec_path (fs st) = Some (Yaml (YMap pipeline_dict)) /\
     dict_get "jobs" pipeline_dict = Some (YMap jobs) /\
     fs st'
     = dict_set spec_path
         (Yaml (YMap (dict_set "jobs" (YMap updated_jobs) pipeline_dict))) (fs st) /\
     (NoDup (map fst jobs) -> map fst updated_jobs = map fst jobs)) \/
  (r <> Return true /\ fs st' = fs st).
Proof.
  intros Hrun.
  destruct r as [[|]|].
  2,3: right; split; [discriminate|];
       exact (pipeline_spec_written_only_on_success cloud _ _ _ _ _ _ Hrun
                ltac:(discriminate)).
  left. split; [reflexivity|].
  unfold validate_and_prepare_pipeline_component in Hrun.
  rewrite bind_run in Hrun. unfold read_file in Hrun.
  destruct (dict_get spec_path (fs st)) as [[|[| | | |pipeline_dict]]|];
    try discriminate.
  destruct (dict_get "jobs" pipeline_dict) as [[| | | |jobs]|] eqn:Hjobs;
    try discriminate.
  destruct (dict_get "name" pipeline_dict); [|discriminate].
  rewrite bind_run in Hrun.
  pose proof (prepare_jobs_fs cloud suffix jobs target [] st) as Hfs.
  destruct (prepare_jobs _ _ _ _ _ _) as [[[updated_jobs|]|] st1] eqn:Hprep;
    try discriminate.
  simpl in Hfs. injection Hrun as <-.
  exists pipeline_dict, jobs, updated_jobs.
  split; [reflexivity|]. split; [exact Hjobs|]. split.
  - cbn [fs]. now rewrite Hfs.
  - intros Hnd. now apply (prepare_jobs_names cloud suffix jobs target []
                             updated_jobs st st1).
Qed.

Lemma pipeline_rewrite_is_all_or_nothing_witness :
  (Return false = Return true /\
   exists pipeline_dict jobs updated_jobs,
     dict_get "pipe/spec.yaml" (fs (on_disk "pipe/spec.yaml" two_registry_pipeline_spec))
     = Some (Yaml (YMap pipeline_dict)) /\
     dict_get "jobs" pipeline_dict = Some (YMap jobs) /\
     fs (snd (validate_and_prepare_pipeline_component two_registries
                "pipe/spec.yaml" (Some "rc1") "target"
                (on_disk "pipe/spec.yaml" two_registry_pipeline_spec)))
     = dict_set "pipe/spec.yaml"
         (Yaml (YMap (dict_set "jobs" (YMap updated_jobs) pipeline_dict)))
         (fs (on_disk "pipe/spec.yaml" two_registry_pipeline_spec)) /\
     (NoDup (map fst jobs) -> map fst updated_jobs = map fst jobs)) \/
  (Return false <> Return true /\
   fs (snd (validate_and_prepare_pipeline_component two_registries
              "pipe/spec.yaml" (Some "rc1") "target"
              (on_disk "pipe/spec.yaml" two_registry_pipeline_spec)))
   = fs (on_disk "pipe/spec.yaml" two_registry_pipeline_spec)).
Proof.
  exact (pipeline_rewrite_is_all_or_nothing two_registries "pipe/spec.yaml"
           (Some "rc1") "target"
           (on_disk "pipe/spec.yaml" two_registry_pipeline_spec) _ _ eq_refl).
Defined.

(** X15: a pipeline all of whose jobs lack a component reference (inline
    or control-flow jobs), with distinct job names: the preparation returns
    [True] without any registry lookup and dumps the document it loaded,
    unchanged. *)
Theorem pipeline_without_references_is_dumped_unchanged
    (cloud : Cloud) (spec_path : string) (suffix : option string)
    (target : string) (st : State) (pipeline_dict jobs : list (string * yaml))
    (n : yaml) :
  dict_get spec_path (fs st) = Some (Yaml (YMap pipeline_dict)) ->
  dict_get "jobs" pipeline_dict = Some (YMap jobs) ->
  dict_get "name" pipeline_dict = Some n ->
  Forall (fun job => passes_through (snd job) = true) jobs ->
  NoDup (map fst jobs) ->
  validate_and_prepare_pipeline_component cloud spec_path suffix target st
  = (Return true,
     mkState (dict_set spec_path (Yaml (YMap pipeline_dict)) (fs st))
       (effects st ++ [DumpYaml spec_path (YMap pipeline_dict)])
       (log st) (failure_list st) (asset_ids st)).
Proof.
  intros Hfile Hjobs Hname Hpass Hnd.
  unfold validate_and_prepare_pipeline_component.
  rewrite bind_run. unfold read_file. rewrite Hfile, Hjobs, Hname.
  rewrite bind_run, (prepare_jobs_pass_through cloud suffix jobs target [] st)
    by assumption.
  cbn [app]. rewrite (dict_set_same "jobs" (YMap jobs) pipeline_dict Hjobs).
  reflexivity.
Qed.

Lemma pipeline_without_references_is_dumped_unchanged_witness :
  validate_and_prepare_pipeline_component empty_registry "pipe/spec.yaml"
    (Some "rc1") "target"
    (on_disk "pipe/spec.yaml"
       (YMap [("name", YStr "pipe");
              ("jobs", YMap [("branch", YMap [("type", YStr "if_else")])])]))
  = (Return true,
     mkState
       [("pipe/spec.yaml",
         Yaml (YMap [("name", YStr "pipe");
                     ("jobs", YMap [("branch", YMap [("type", YStr "if_else")])])]))]
       [DumpYaml "pipe/spec.yaml"
          (YMap [("name", YStr "pipe");
                 ("jobs", YMap [("branch", YMap [("type", YStr "if_else")])])])]
       [] [] []).
Proof.
  refine (pipeline_without_references_is_dumped_unchanged empty_registry
            "pipe/spec.yaml" (Some "rc1") "target"
            (on_disk "pipe/spec.yaml"
               (YMap [("name", YStr "pipe");
                      ("jobs", YMap [("branch", YMap [("type", YStr "if_else")])])]))
            [("name", YStr "pipe");
             ("jobs", YMap [("branch", YMap [("type", YStr "if_else")])])]
            [("branch", YMap [("type", YStr "if_else")])]
            (YStr "pipe") eq_refl eq_refl eq_refl _ _).
  - repeat constructor.
  - repeat constructor. intros [].
Defined.

End PipelineExtras.

(** ** The failure manifest and the publishing order *)

Section ManifestFacts.

Lemma failed_assets_fold (k : string) (failures : list AssetConfig) :
  forall acc : list (string * list string),
    dict_get k
      (fold_left
         (fun acc asset =>
            let k := asset_type_value (type asset) in
            dict_set k
              ((match dict_get k acc with Some names => names | None => [] end)
                 ++ [name asset])%list
              acc)
         failures acc)
    = match failed_names k failures with
      | [] => dict_get k acc
      | names =>
          Some ((match dict_get k acc with Some l => l | None => [] end)
                  ++ names)%list
      end.
Proof.
  induction failures as [|a rest IH]; intros acc; [reflexivity|].
  cbn [fold_left]. rewrite IH. unfold failed_names. cbn [filter].
  destruct (String.eqb (asset_type_value (type a)) k) eqn:E.
  - apply String.eqb_eq in E. subst k. cbn [map].
    rewrite dict_get_set_same.
    destruct (map name (filter _ rest)) as [|n names].
    + reflexivity.
    + now rewrite <- app_assoc.
  - apply String.eqb_neq in E.
    rewrite dict_get_set_other by (intros H; apply E; now symmetry).
    reflexivity.
Qed.

Lemma filter_partition {A : Type} (f : A -> bool) (l : list A) :
  Permutation (filter (fun a => negb (f a)) l ++ filter f l) l.
Proof.
  induction l as [|a l IH]; [constructor|].
  cbn [filter]. destruct (f a); cbn [negb].
  - apply Permutation_sym, Permutation_cons_app, Permutation_sym, IH.
  - cbn. now constructor.
Qed.

End ManifestFacts.

Section ManifestExtras.

(** X16: the failure manifest groups the failed assets by type. Under the
    value of a type it lists the names of the failed assets of that type, in
    the order in which they failed and as often as they failed; a type
    without a failed asset has no entry. *)
Theorem failure_manifest_groups_by_type (k : string) (failures : list AssetConfig) :
  dict_get k (failed_assets failures)
  = match failed_names k failures with
    | [] => None
    | names => Some names
    end.
Proof.
  unfold failed_assets. rewrite failed_assets_fold. reflexivity.
Qed.

(** X17: the publishing order of a type holds exactly the assets of that
    type, none lost and none repeated, and among the components every
    component that follows a pipeline component is a pipeline component
    itself. *)
Theorem pipeline_components_are_published_last
    (t : AssetType) (all_assets : list AssetConfig) :
  Permutation (assets_of_type t all_assets)
    (filter (fun a => String.eqb (asset_type_value (type a)) (asset_type_value t))
            all_assets) /\
  forall before a after,
    assets_of_type COMPONENT all_assets = (before ++ a :: after)%list ->
    is_pipeline a = true ->
    Forall (fun b => is_pipeline b = true) after.
Proof.
  split.
  - unfold assets_of_type. destruct t; try apply Permutation_refl.
    apply filter_partition.
  - unfold assets_of_type.
    set (found := filter _ all_assets).
    intros before a after Heq Ha.
    assert (Hplain : Forall (fun b => is_pipeline b = false)
                       (filter (fun a => negb (is_pipeline a)) found)).
    { apply Forall_forall. intros b Hb. apply filter_In in Hb as [_ Hb].
      now apply negb_true_iff in Hb. }
    assert (Hpipe : Forall (fun b => is_pipeline b = true)
                      (filter is_pipeline found)).
    { apply Forall_forall. intros b Hb. now apply filter_In in Hb as [_ Hb]. }
    symmetry in Heq. apply app_eq_app in Heq as [l' [[_ Heq]|[Hplain' Heq]]].
    + rewrite Heq in Hpipe. apply Forall_app in Hpipe as [_ Hpipe].
      now inversion Hpipe.
    + destruct l' as [|c l'].
      * cbn in Heq. rewrite <- Heq in Hpipe. now inversion Hpipe.
      * cbn in Heq. injection Heq as <- _.
        rewrite Hplain' in Hplain.
        apply Forall_app in Hplain as [_ Hplain].
        inversion Hplain as [|? ? Hc _]. congruence.
Qed.

End ManifestExtras.

(** ** Creation without a dependency check *)

Section CreationExtras.

(** X18: a selected asset that is not in the registry and whose dependencies
    are not looked at (data, an environment, a component of another type than
    pipeline, command or parallel) is created straight away with [--version]
    set to the suffixed version; no file is touched, and the asset joins the
    failure list exactly when the command returns a non-zero code. *)
Theorem unchecked_asset_is_created_at_suffixed_version
    (cloud : Cloud) (args : Args) (asset : AssetConfig) (st : State) :
  created_unchecked asset = true ->
  selected args asset = true ->
  az_show cloud (effects st) (asset_type_value (type asset)) (name asset)
          (version asset) (registry_name args) = None ->
  exists st' cmd,
    publish_asset cloud args asset st = (Return tt, st') /\
    cmd = asset_create_command (az_path args) (asset_type_value (type asset))
            (spec_with_path asset) (registry_name args)
            (suffixed_version (version asset) (version_suffix args))
            (resource_group args) (workspace args) (debug args) /\
    nth_error cmd 9 = Some (suffixed_version (version asset) (version_suffix args)) /\
    effects st'
    = (effects st
         ++ [AzShow (asset_type_value (type asset)) (name asset) (version asset)
                    (registry_name args);
             AzCreate cmd])%list /\
    fs st' = fs st /\
    failure_list st'
    = (failure_list st
         ++ (if Z.eqb (az_create cloud
                         (effects st
                            ++ [AzShow (asset_type_value (type asset)) (name asset)
                                       (version asset) (registry_name args)])
                         cmd) 0
             then []
             else [asset]))%list.
Proof.
  intros Hun Hsel Hshow.
  unfold publish_asset. rewrite Hsel. cbn [negb]. cbv zeta.
  unfold bind at 1. unfold record_asset_id.
  unfold bind at 1. rewrite get_asset_details_run.
  cbn [effects fs log failure_list asset_ids]. rewrite Hshow.
  assert (Hcreate : forall st0 v,
             exists st',
               create_asset cloud args asset v st0 = (Return tt, st') /\
               effects st'
               = (effects st0
                    ++ [AzCreate
                          (asset_create_command (az_path args)
                             (asset_type_value (type asset)) (spec_with_path asset)
                             (registry_name args) v (resource_group args)
                             (workspace args) (debug args))])%list /\
               fs st' = fs st0 /\
               failure_list st'
               = (failure_list st0
                    ++ (if Z.eqb (az_create cloud (effects st0)
                                    (asset_create_command (az_path args)
                                       (asset_type_value (type asset))
                                       (spec_with_path asset) (registry_name args) v
                                       (resource_group args) (workspace args)
                                       (debug args))) 0
                        then []
                        else [asset]))%list).
  { intros st0 v.
    unfold create_asset, bind, history, emit, ret, logger, fail_asset.
    cbn [effects fs log failure_list asset_ids].
    destruct (Z.eqb _ 0); eexists; (split; [reflexivity|]);
      cbn [effects fs log failure_list asset_ids];
      rewrite ?app_nil_r; repeat split. }
  match goal with
  | |- exists st' cmd, ?run = _ /\ _ =>
      assert (Hrun : run
                     = create_asset cloud args asset
                         (suffixed_version (version asset) (version_suffix args))
                         (mkState (fs st)
                            (effects st
                               ++ [AzShow (asset_type_value (type asset)) (name asset)
                                          (version asset) (registry_name args)])
                            (log st) (failure_list st)
                            (dict_set (name asset)
                               (ASSET_ID_TEMPLATE (registry_name args)
                                  (pluralize_asset_type
                                     (asset_type_value (type asset)))
                                  (name asset)
                                  (suffixed_version (version asset)
                                     (version_suffix args)))
                               (asset_ids st))))
  end.
  { unfold created_unchecked in Hun.
    destruct (type asset); try reflexivity; try discriminate.
    destruct (component_type asset) as [t|]; [|discriminate].
    apply andb_true_iff in Hun as [Hp Hc].
    apply negb_true_iff in Hp. apply negb_true_iff in Hc.
    now rewrite Hp, Hc. }
  rewrite Hrun.
  destruct (Hcreate
              (mkState (fs st)
                 (effects st
                    ++ [AzShow (asset_type_value (type asset)) (name asset)
                               (version asset) (registry_name args)])
                 (log st) (failure_list st)
                 (dict_set (name asset)
                    (ASSET_ID_TEMPLATE (registry_name args)
                       (pluralize_asset_type (asset_type_value (type asset)))
                       (name asset)
                       (suffixed_version (version asset) (version_suffix args)))
                    (asset_ids st)))
              (suffixed_version (version asset) (version_suffix args)))
    as [st' [Hst' [Heff [Hfs Hfail]]]].
  exists st'. eexists. split; [exact Hst'|]. split; [reflexivity|].
  split; [reflexivity|].
  cbn [effects fs failure_list] in Heff, Hfs, Hfail.
  split; [now rewrite Heff, <- app_assoc|].
  split; [exact Hfs | exact Hfail].
Qed.

Lemma unchecked_asset_is_created_at_suffixed_version_witness :
  exists st' cmd,
    publish_asset empty_registry (release (Some "rc1")) existing_environment
      (on_disk "sklearn/spec.yaml" YNull)
    = (Return tt, st') /\
    cmd = ["az"; "ml"; "environment"; "create"; "--file"; "sklearn/spec.yaml";
           "--registry-name"; "target"; "--version"; "1-rc1"] /\
    nth_error cmd 9 = Some "1-rc1" /\
    effects st' = [AzShow "environment" "sklearn" "1" "target"; AzCreate cmd] /\
    fs st' = [("sklearn/spec.yaml", Yaml YNull)] /\
    failure_list st' = [].
Proof.
  exact (unchecked_asset_is_created_at_suffixed_version empty_registry
           (release (Some "rc1")) existing_environment
           (on_disk "sklearn/spec.yaml" YNull) eq_refl eq_refl eq_refl).
Defined.

End CreationExtras.

Section OrderWitness.

Lemma pipeline_components_are_published_last_witness :
  assets_of_type COMPONENT [pipeline_component; labelled_component; pipeline_component]
  = [labelled_component; pipeline_component; pipeline_component] /\
  Forall (fun b => is_pipeline b = true) [pipeline_component].
Proof.
  split; [reflexivity|].
  exact (proj2 (pipeline_components_are_published_last COMPONENT
                  [pipeline_component; labelled_component; pipeline_component])
           [labelled_component] pipeline_component [pipeline_component]
           eq_refl eq_refl).
Defined.

End OrderWitness.

(** ** Test files *)

Section TestFileFacts.

Lemma preprocess_job_component (ids : list (string * string)) (job job' : yaml)
    (c : string) :
  preprocess_job ids job = Return job' ->
  component_of job = Some c ->
  component_of job' = Some (rewritten_component ids c).
Proof.
  unfold preprocess_job, rewritten_component.
  destruct job as [| | | |j]; try discriminate.
  cbn [component_of].
  destruct (dict_get "component" j) as [[| |asset_name| |]|] eqn:Hj;
    try discriminate.
  intros Hrun [= <-].
  destruct (dict_get asset_name ids) as [asset_id|]; injection Hrun as <-;
    cbn [component_of].
  - now rewrite dict_get_set_same.
  - now rewrite Hj.
Qed.

Lemma preprocess_jobs_spec (ids : list (string * string)) :
  forall jobs jobs' : list (string * yaml),
    preprocess_jobs ids jobs = Return jobs' ->
    map fst jobs' = map fst jobs /\
    Forall2 (fun job job' =>
               forall c, component_of (snd job) = Some c ->
                         component_of (snd job')
                         = Some (rewritten_component ids c))
            jobs jobs'.
Proof.
  induction jobs as [|[job_name job] rest IH]; intros jobs'; cbn [preprocess_jobs].
  - intros [= <-]. split; constructor.
  - destruct (preprocess_job ids job) as [job'|] eqn:Hjob; [|discriminate].
    destruct (preprocess_jobs ids rest) as [rest'|]; [|discriminate].
    intros [= <-]. destruct (IH rest' eq_refl) as [Hnames Hrest].
    split; [cbn; now rewrite Hnames|].
    constructor; [|exact Hrest].
    intros c Hc. exact (preprocess_job_component ids job job' c Hjob Hc).
Qed.

Lemma preprocess_test_files_app (before after : list string) (st : State) :
  preprocess_test_files (before ++ after) st
  = match preprocess_test_files before st with
    | (Return _, st1) => preprocess_test_files after st1
    | (Raised, st1) => (Raised, st1)
    end.
Proof.
  revert st. induction before as [|f before IH]; intros st; [reflexivity|].
  cbn [app preprocess_test_files]. rewrite !bind_run.
  destruct (preprocess_test_file f st) as [[[]|] st1]; [apply IH | reflexivity].
Qed.

End TestFileFacts.

Section TestFileExtras.

(** X19: a test file that is processed to the end is rewritten in one dump:
    the document it held with only its [jobs] replaced, the jobs keeping
    their names and their order, and every job that names a component by a
    string now naming the asset ID recorded for that string, or the same
    string when none is recorded. The recorded IDs and the failure list are
    as before. *)
Theorem test_file_names_recorded_ids
    (test_job : string) (st st' : State) :
  preprocess_test_file test_job st = (Return tt, st') ->
  exists data jobs jobs',
    dict_get test_job (fs st) = Some (Yaml (YMap data)) /\
    dict_get "jobs" data = Some (YMap jobs) /\
    fs st'
    = dict_set test_job (Yaml (YMap (dict_set "jobs" (YMap jobs') data))) (fs st) /\
    map fst jobs' = map fst jobs /\
    Forall2 (fun job job' =>
               forall c, component_of (snd job) = Some c ->
                         component_of (snd job')
                         = Some (rewritten_component (asset_ids st) c))
            jobs jobs' /\
    asset_ids st' = asset_ids st /\
    failure_list st' = failure_list st.
Proof.
  unfold preprocess_test_file. rewrite bind_run. unfold read_file.
  destruct (dict_get test_job (fs st)) as [[|[| | | |data]]|]; try discriminate.
  destruct (dict_get "jobs" data) as [[| | | |jobs]|] eqn:Hjobs; try discriminate.
  destruct (preprocess_jobs (asset_ids st) jobs) as [jobs'|] eqn:Hrun;
    [|discriminate].
  intros [= <-].
  destruct (preprocess_jobs_spec (asset_ids st) jobs jobs' Hrun) as [Hnames Hcomp].
  exists data, jobs, jobs'.
  split; [reflexivity|]. split; [exact Hjobs|]. split; [reflexivity|].
  split; [exact Hnames|]. split; [exact Hcomp|]. split; reflexivity.
Qed.

Lemma test_file_names_recorded_ids_witness :
  exists data jobs jobs',
    dict_get "tests/job.yaml"
      (fs (mkState
             [("tests/job.yaml",
               Yaml (YMap [("jobs", YMap [("run", YMap [("component", YStr "train")])])]))]
             [] [] []
             [("train", "azureml://registries/target/components/train/versions/1-rc1")]))
    = Some (Yaml (YMap data)) /\
    dict_get "jobs" data = Some (YMap jobs) /\
    [("tests/job.yaml",
      Yaml (YMap [("jobs",
                   YMap [("run",
                          YMap [("component",
                                 YStr "azureml://registries/target/components/train/versions/1-rc1")])])]))]
    = dict_set "tests/job.yaml" (Yaml (YMap (dict_set "jobs" (YMap jobs') data)))
        [("tests/job.yaml",
          Yaml (YMap [("jobs", YMap [("run", YMap [("component", YStr "train")])])]))] /\
    map fst jobs' = map fst jobs /\
    Forall2 (fun job job' =>
               forall c, component_of (snd job) = Some c ->
                         component_of (snd job')
                         = Some (rewritten_component
                                   [("train",
                                     "azureml://registries/target/components/train/versions/1-rc1")]
                                   c))
            jobs jobs' /\
    [("train", "azureml://registries/target/components/train/versions/1-rc1")]
    = [("train", "azureml://registries/target/components/train/versions/1-rc1")] /\
    @nil AssetConfig = [].
Proof.
  exact (test_file_names_recorded_ids "tests/job.yaml"
           (mkState
              [("tests/job.yaml",
                Yaml (YMap [("jobs", YMap [("run", YMap [("component", YStr "train")])])]))]
              [] [] []
              [("train", "azureml://registries/target/components/train/versions/1-rc1")])
           _ eq_refl).
Defined.



(** X21: the test files are processed in order and nothing is caught: when
    a file cannot be processed (it is missing or garbled, has no [jobs], or
    one of its jobs has no [component]) the run raises there; the files
    before it have been rewritten, the file itself and the files after it
    are as they were. *)
Theorem test_files_stop_at_first_bad_file
    (before after : list string) (bad : string) (st st1 st2 : State) :
  preprocess_test_files before st = (Return tt, st1) ->
  preprocess_test_file bad st1 = (Raised, st2) ->
  preprocess_test_files (before ++ bad :: after) st = (Raised, st1).
Proof.
  intros Hbefore Hbad.
  rewrite preprocess_test_files_app, Hbefore.
  cbn [preprocess_test_files]. rewrite bind_run.
  assert (Hsame : st2 = st1).
  { revert Hbad. unfold preprocess_test_file. rewrite bind_run. unfold read_file.
    destruct (dict_get bad (fs st1)) as [[|[| | | |data]]|];
      try (intros [= <-]; reflexivity).
    destruct (dict_get "jobs" data) as [[| | | |jobs]|];
      try (intros [= <-]; reflexivity).
    destruct (preprocess_jobs (asset_ids st1) jobs);
      [discriminate | intros [= <-]; reflexivity]. }
  now rewrite Hbad, Hsame.
Qed.

Lemma test_files_stop_at_first_bad_file_witness :
  preprocess_test_files ["tests/a.yaml"; "tests/b.yaml"; "tests/c.yaml"]
    three_test_files
  = (Raised,
     mkState
       [("tests/a.yaml",
         Yaml (YMap [("jobs", YMap [("run", YMap [("component", YStr "id-of-train")])])]));
        ("tests/b.yaml", Yaml (YMap [("jobs", YMap [("run", YMap [])])]));
        ("tests/c.yaml",
         Yaml (YMap [("jobs", YMap [("run", YMap [("component", YStr "train")])])]))]
       [DumpYaml "tests/a.yaml"
          (YMap [("jobs", YMap [("run", YMap [("component", YStr "id-of-train")])])])]
       [] [] [("train", "id-of-train")]).
Proof.
  exact (test_files_stop_at_first_bad_file ["tests/a.yaml"] ["tests/c.yaml"]
           "tests/b.yaml" three_test_files _ _ eq_refl eq_refl).
Defined.

End TestFileExtras.

(** ** Redaction of bearer tokens *)

Section SanitizeFacts.

Local Abbreviation bearer := (list_ascii_of_string "Bearer").

Lemma drop_line_length (s : text) : length (drop_line s) <= length s.
Proof.
  induction s as [|c s IH]; simpl; [lia|].
  destruct (is_newline c); simpl; lia.
Qed.

Lemma drop_line_head (s : text) :
  match drop_line s with
  | [] => True
  | c :: _ => is_newline c = true
  end.
Proof.
  induction s as [|c s IH]; simpl; [exact I|].
  destruct (is_newline c) eqn:E; [exact E | exact IH].
Qed.

Lemma drop_line_newlines (s : text) :
  count_char is_newline (drop_line s) = count_char is_newline s.
Proof.
  unfold count_char. induction s as [|c s IH]; simpl; [reflexivity|].
  destruct (is_newline c) eqn:E; simpl; now rewrite ?E.
Qed.

(** The greedy [.+] with nothing after it runs to the end of the line. *)
Lemma dot_plus_drop (s : text) :
  dot_plus s (fun s' => Some s')
  = match s with
    | [] => None
    | c :: _ => if is_newline c then None else Some (drop_line s)
    end.
Proof.
  induction s as [|c s IH]; [reflexivity|].
  cbn [dot_plus drop_line]. destruct (is_newline c); [reflexivity|].
  rewrite IH. destruct s as [|d s]; [reflexivity|].
  cbn [drop_line]. now destruct (is_newline d).
Qed.

(** [Bearer.*] matches where the text starts with [Bearer], up to the end of
    the line. *)
Lemma match_end_BEARER (s : text) :
  match_end BEARER s
  = match strip_prefix bearer s with
    | Some rest => Some (drop_line rest)
    | None => None
    end.
Proof.
  unfold match_end, BEARER. cbn [run].
  destruct (strip_prefix _ s) as [rest|]; [|reflexivity].
  rewrite dot_plus_drop. destruct rest as [|c rest]; [reflexivity|].
  cbn [drop_line]. now destruct (is_newline c).
Qed.

Lemma sub_bearer_nil (n : nat) : sub_bearer n [] = [].
Proof. now destruct n. Qed.

(** After a dropped match the output starts with a newline, if it starts. *)
Lemma sub_bearer_after_match (n : nat) (rest : text) :
  match sub_bearer n (drop_line rest) with
  | [] => True
  | c :: _ => is_newline c = true
  end.
Proof.
  pose proof (drop_line_head rest) as Hhead.
  destruct (drop_line rest) as [|c r]; [now rewrite sub_bearer_nil|].
  destruct n as [|n]; [exact I|].
  cbn [sub_bearer]. rewrite match_end_BEARER.
  assert (Hc : strip_prefix bearer (c :: r) = None).
  { change bearer with ("B"%char :: list_ascii_of_string "earer").
    cbn [strip_prefix].
    destruct (Ascii.eqb_spec "B"%char c) as [<-|]; [discriminate|reflexivity]. }
  rewrite Hc. exact Hhead.
Qed.

(** A newline-free text at the head of the output was at the head of the
    input. *)
Lemma sub_bearer_head (p : text) :
  forall (n : nat) (s : text),
    no_newline p = true ->
    starts_with p (sub_bearer n s) = true ->
    starts_with p s = true.
Proof.
  induction p as [|a p IH]; intros n s Hp; [reflexivity|].
  cbn [no_newline forallb] in Hp. apply andb_prop in Hp as [Ha Hp].
  apply negb_true_iff in Ha.
  destruct n as [|n]; [discriminate|].
  destruct s as [|c s]; [discriminate|].
  cbn [sub_bearer]. rewrite match_end_BEARER.
  destruct (strip_prefix bearer (c :: s)) as [rest|].
  - pose proof (sub_bearer_after_match n rest) as Hhead.
    destruct (sub_bearer n (drop_line rest)) as [|d out]; [discriminate|].
    unfold starts_with. cbn [strip_prefix].
    destruct (Ascii.eqb_spec a d) as [<-|]; [congruence | discriminate].
  - unfold starts_with. cbn [strip_prefix].
    destruct (Ascii.eqb a c); [|discriminate].
    exact (IH n s Hp).
Qed.

Lemma sub_bearer_clean (n : nat) :
  forall s : text, contains bearer (sub_bearer n s) = false.
Proof.
  induction n as [|n IH]; intros s; [reflexivity|].
  destruct s as [|c s]; [reflexivity|].
  destruct (match_end BEARER (c :: s)) as [rest|] eqn:E.
  - cbn [sub_bearer]. rewrite E. apply IH.
  - pose proof (sub_bearer_head bearer (S n) (c :: s) eq_refl) as Hhead.
    cbn [sub_bearer] in Hhead |- *. rewrite E in Hhead |- *.
    cbn [contains]. rewrite IH, orb_false_r.
    destruct (starts_with bearer (c :: sub_bearer n s)) eqn:Hs; [|reflexivity].
    specialize (Hhead eq_refl). unfold starts_with in Hhead.
    rewrite match_end_BEARER in E.
    destruct (strip_prefix bearer (c :: s)); discriminate.
Qed.

Lemma sub_bearer_identity (n : nat) :
  forall s : text,
    length s <= n -> contains bearer s = false -> sub_bearer n s = s.
Proof.
  induction n as [|n IH]; intros s Hlen Hs.
  - destruct s; [reflexivity | simpl in Hlen; lia].
  - destruct s as [|c s]; [reflexivity|].
    cbn [contains] in Hs. apply orb_false_iff in Hs as [Hhead Hs].
    cbn [sub_bearer]. rewrite match_end_BEARER.
    unfold starts_with in Hhead.
    destruct (strip_prefix bearer (c :: s)); [discriminate|].
    rewrite IH; [reflexivity | simpl in Hlen; lia | exact Hs].
Qed.

Lemma sub_bearer_newlines (n : nat) :
  forall s : text,
    length s <= n ->
    count_char is_newline (sub_bearer n s) = count_char is_newline s.
Proof.
  induction n as [|n IH]; intros s Hlen.
  - destruct s; [reflexivity | simpl in Hlen; lia].
  - destruct s as [|c s]; [reflexivity|].
    cbn [sub_bearer]. rewrite match_end_BEARER.
    destruct (strip_prefix bearer (c :: s)) as [rest|] eqn:E.
    + apply strip_prefix_inv in E. rewrite E, count_char_app.
      rewrite E, length_app in Hlen. cbn [length] in Hlen.
      pose proof (drop_line_length rest).
      rewrite IH by (cbn in Hlen; lia).
      now rewrite drop_line_newlines.
    + unfold count_char in *. cbn [filter].
      specialize (IH s ltac:(simpl in Hlen; lia)).
      destruct (is_newline c); cbn [length]; now rewrite IH.
Qed.

Lemma length_text (s : string) :
  length (list_ascii_of_string s) = String.length s.
Proof. induction s as [|c s IH]; simpl; [reflexivity | now rewrite IH]. Qed.

End SanitizeFacts.

Section SanitizeExtras.

(** X22: whatever the input, the sanitized output does not contain the
    word [Bearer]. *)
Theorem sanitized_output_has_no_bearer (input : string) :
  mentions_bearer (sanitize_output input) = false.
Proof.
  unfold mentions_bearer, sanitize_output.
  rewrite list_ascii_of_string_of_list_ascii. apply sub_bearer_clean.
Qed.

(** X23: an input that does not contain the word [Bearer] is returned as it
    is. *)
Theorem output_without_bearer_is_unchanged (input : string) :
  mentions_bearer input = false ->
  sanitize_output input = input.
Proof.
  unfold mentions_bearer, sanitize_output. intros H.
  rewrite sub_bearer_identity;
    [apply string_of_list_ascii_of_string | rewrite length_text; lia | exact H].
Qed.

Lemma output_without_bearer_is_unchanged_witness :
  sanitize_output "ERROR: asset not found" = "ERROR: asset not found".
Proof.
  exact (output_without_bearer_is_unchanged "ERROR: asset not found" eq_refl).
Defined.

(** X24: sanitizing removes text within lines only: the output has as many
    newlines as the input. *)
Theorem sanitized_output_keeps_lines (input : string) :
  newlines (sanitize_output input) = newlines input.
Proof.
  unfold newlines, sanitize_output.
  rewrite list_ascii_of_string_of_list_ascii.
  apply sub_bearer_newlines. rewrite length_text. lia.
Qed.

End SanitizeExtras.

(** ** Post-processing of proper inputs *)

Section DetectionMoreFacts.

Variable CLASSES : list string.
Variable mask : Type.
Variable bitmap_to_polygon : mask -> list contour.

Lemma fdiv_proper (v : Q) (d : Z) : d <> 0%Z -> fdiv v d = Some (fraction v d).
Proof.
  intros Hd. unfold fdiv, fraction.
  destruct (Z.eqb_spec d 0); [contradiction | reflexivity].
Qed.


Lemma normalize_points_proper (points : contour) (image_size : Z * Z) :
  proper_size image_size ->
  normalize_points points image_size = Some (fractions_of_points points image_size).
Proof.
  intros [Hw Hh]. induction points as [|[x y] rest IH]; [reflexivity|].
  cbn [normalize_points].
  now rewrite (fdiv_proper _ _ Hw), (fdiv_proper _ _ Hh), IH.
Qed.

Lemma _normalize_polygon_proper (polygon : list contour) (image_size : Z * Z) :
  proper_size image_size ->
  _normalize_polygon polygon image_size
  = Some (map (fun c => fractions_of_points c image_size) polygon).
Proof.
  intros Hsize. induction polygon as [|points rest IH]; [reflexivity|].
  cbn [_normalize_polygon]. now rewrite normalize_points_proper, IH.
Qed.

Lemma fractions_of_points_length (points : contour) (image_size : Z * Z) :
  length (fractions_of_points points image_size) = coordinates points.
Proof.
  unfold coordinates, fractions_of_points.
  induction points as [|xy rest IH]; [reflexivity|].
  cbn [flat_map length app]. rewrite IH. lia.
Qed.

Lemma combine_repeat {A : Type} (i : nat) (l : list A) :
  combine l (repeat i (length l)) = map (fun b => (b, i)) l.
Proof. induction l as [|a l IH]; [reflexivity|]. cbn. now rewrite IH. Qed.

Lemma combine_app {A B : Type} (l1 l2 : list A) (m1 m2 : list B) :
  length l1 = length m1 ->
  combine (l1 ++ l2) (m1 ++ m2) = (combine l1 m1 ++ combine l2 m2)%list.
Proof.
  revert m1. induction l1 as [|a l1 IH]; intros [|b m1] H; try discriminate.
  - reflexivity.
  - cbn. rewrite IH; [reflexivity | now injection H].
Qed.

(** Zipping the stacked rows with the stacked labels reads the result class
    by class. *)
Lemma combine_class_labels {A : Type} (result : list (list A)) :
  forall i, combine (concat result) (concat (class_labels i result))
            = per_class i result.
Proof.
  induction result as [|bbox rest IH]; intros i; [reflexivity|].
  cbn [concat class_labels per_class].
  rewrite combine_app by now rewrite repeat_length.
  now rewrite combine_repeat, IH.
Qed.


Lemma per_class_nonempty {A : Type} (result : list (list A)) (i : nat) :
  concat result <> [] -> per_class i result <> [].
Proof.
  rewrite <- (combine_class_labels result i).
  revert i. induction result as [|bbox rest IH]; intros i; [easy|].
  cbn [concat class_labels]. destruct bbox as [|b bbox]; cbn.
  - apply IH.
  - discriminate.
Qed.





End DetectionMoreFacts.

Section DetectionExtras.





(** X27: on an image with a width and a height other than zero the polygon
    normalisation returns, with as many segments as it was given and in each
    twice as many coordinates as the contour has points. *)
Theorem normalized_polygon_has_two_coordinates_per_point
    (polygon : list contour) (image_size : Z * Z) :
  proper_size image_size ->
  exists normalized,
    _normalize_polygon polygon image_size = Some normalized /\
    map (@length Q) normalized = map coordinates polygon.
Proof.
  intros Hsize. eexists. split; [now apply _normalize_polygon_proper|].
  rewrite map_map. apply map_ext. intros c. apply fractions_of_points_length.
Qed.

Lemma normalized_polygon_has_two_coordinates_per_point_witness :
  exists normalized,
    _normalize_polygon [square] (4, 4)%Z = Some normalized /\
    map (@length Q) normalized = [8].
Proof.
  refine (normalized_polygon_has_two_coordinates_per_point [square] (4, 4)%Z _).
  split; discriminate.
Defined.

(** X28: an image whose width or height is zero makes the object-detection
    post-processing raise as soon as its result has one row. *)
Theorem degenerate_image_raises
    (CLASSES : list string) (result : list (list BBox)) (results : list (list (list BBox)))
    (image_size : Z * Z) (image_sizes : list (Z * Z)) :
  fst image_size = 0%Z \/ snd image_size = 0%Z ->
  concat result <> [] ->
  _process_object_detection_results CLASSES (result :: results)
    (image_size :: image_sizes) = None.
Proof.
  intros Hzero Hrows. cbn [_process_object_detection_results].
  destruct (vstack result) as [bboxes|] eqn:Hb; [|reflexivity].
  destruct (vstack (class_labels 0 result)) as [labels|] eqn:Hl; [|reflexivity].
  assert (Hbv : bboxes = concat result).
  { destruct result; [discriminate | now injection Hb]. }
  assert (Hlv : labels = concat (class_labels 0 result)).
  { destruct result; [discriminate | now injection Hl]. }
  subst bboxes labels. rewrite combine_class_labels.
  pose proof (per_class_nonempty result 0 Hrows) as Hne.
  destruct (per_class 0 result) as [|[bbox l] rest]; [contradiction|].
  cbn [detection_boxes].
  assert (Hbox : normalize_box bbox image_size = None).
  { unfold normalize_box, fdiv. destruct Hzero as [-> | ->]; cbn [Z.eqb].
    - reflexivity.
    - now destruct (Z.eqb (fst image_size) 0). }
  now rewrite Hbox.
Qed.

Lemma degenerate_image_raises_witness :
  _process_object_detection_results ["cat"]
    ([[mkBBox 1 1 2 2 1]] :: nil) ((0, 10)%Z :: nil) = None.
Proof.
  refine (degenerate_image_raises ["cat"] [[mkBBox 1 1 2 2 1]] nil (0, 10)%Z nil _ _).
  - left. reflexivity.
  - discriminate.
Defined.

End DetectionExtras.

(** ** Components whose environment is under [task], or nowhere *)

Section TaskEnvironmentExtras.

(** X29: a parallel component, whose environment reference lives under
    [task] and names a version that the registry has: the reference under
    [task] is replaced by the ID the registry gave and the spec file is
    dumped once; the top-level keys keep their order, and every top-level
    value other than [task] and every value under [task] other than
    [environment] is as it was. *)
Theorem task_environment_is_written_back
    (cloud : Cloud) (spec_path : string) (d task : list (string * yaml)) (n : yaml)
    (uri : string) (p : ParsedUri) (v : string) (suffix : option string)
    (target : string) (st : State) (det : Details) :
  dict_get spec_path (fs st) = Some (Yaml (YMap d)) ->
  dict_get "name" d = Some n ->
  dict_get "environment" d = None ->
  dict_get "task" d = Some (YMap task) ->
  dict_get "environment" task = Some (YStr uri) ->
  get_parsed_details_from_asset_uri ENVIRONMENT uri = Some p ->
  asset_label p = None -> asset_version p = Some v ->
  az_show cloud (effects st) "environment" (asset_name p) v
          (registry_or (asset_registry_name p) target) = Some det ->
  let task' := dict_set "environment" (YStr (id det)) task in
  let d' := dict_set "task" (YMap task') d in
  exists st',
    validate_update_component cloud spec_path suffix target st = (Return true, st') /\
    dict_get spec_path (fs st') = Some (Yaml (YMap d')) /\
    effects st'
    = (effects st
         ++ [AzShow "environment" (asset_name p) v
               (registry_or (asset_registry_name p) target);
             DumpYaml spec_path (YMap d')])%list /\
    map fst d' = map fst d /\
    (forall k, k <> "task" -> dict_get k d' = dict_get k d) /\
    map fst task' = map fst task /\
    (forall k, k <> "environment" -> dict_get k task' = dict_get k task).
Proof.
  intros Hfile Hname Hnone Htask Henv Hparse Hlabel Hversion Hshow task' d'.
  unfold validate_update_component. cbv zeta.
  rewrite bind_run. unfold read_file. rewrite Hfile, Hname.
  unfold locate_environment, dict_has. rewrite Hnone, Htask, Henv.
  cbv iota beta. rewrite Henv, bind_run.
  rewrite (env_version_form_run cloud uri p v _ _ _ Hparse Hlabel Hversion).
  unfold candidates. cbn [try_versions].
  rewrite bind_run, get_asset_details_run, logged_effects, Hshow.
  cbn [ret].
  assert (Htask' : (if env_differs (YStr uri) (EnvStr (id det))
                    then dict_set "environment" (env_value (EnvStr (id det))) task
                    else task) = task').
  { unfold task'. cbn [env_differs env_value].
    destruct (String.eqb uri (id det)) eqn:E; cbn [negb]; [|reflexivity].
    apply String.eqb_eq in E. rewrite <- E.
    symmetry. now apply dict_set_same. }
  rewrite Htask'. fold d'.
  eexists. split; [reflexivity|]. cbn [fs effects].
  split; [apply dict_get_set_same|].
  split; [now rewrite <- app_assoc|].
  split; [apply dict_set_keys; rewrite Htask; discriminate|].
  split; [intros k Hk; now apply dict_get_set_other|].
  split; [apply dict_set_keys; rewrite Henv; discriminate|].
  intros k Hk. now apply dict_get_set_other.
Qed.

Lemma task_environment_is_written_back_witness :
  exists st',
    validate_update_component both_versions "score/spec.yaml" (Some "rc1") "target"
      (on_disk "score/spec.yaml"
         (YMap [("name", YStr "score"); ("type", YStr "parallel");
                ("task", YMap [("type", YStr "run_function");
                               ("environment", YStr "azureml:sklearn:1")])]))
    = (Return true, st') /\
    dict_get "score/spec.yaml" (fs st')
    = Some (Yaml (YMap [("name", YStr "score"); ("type", YStr "parallel");
                        ("task",
                         YMap [("type", YStr "run_function");
                               ("environment",
                                YStr "azureml://registries/target/environments/sklearn/versions/1")])])).
Proof.
  destruct (task_environment_is_written_back both_versions "score/spec.yaml"
              [("name", YStr "score"); ("type", YStr "parallel");
               ("task", YMap [("type", YStr "run_function");
                              ("environment", YStr "azureml:sklearn:1")])]
              [("type", YStr "run_function");
               ("environment", YStr "azureml:sklearn:1")]
              (YStr "score") "azureml:sklearn:1"
              (mkParsed "sklearn" (Some "1") None None) "1" (Some "rc1") "target"
              (on_disk "score/spec.yaml"
                 (YMap [("name", YStr "score"); ("type", YStr "parallel");
                        ("task", YMap [("type", YStr "run_function");
                                       ("environment", YStr "azureml:sklearn:1")])]))
              (mkDetails "azureml://registries/target/environments/sklearn/versions/1")
              eq_refl eq_refl eq_refl eq_refl eq_refl eq_refl eq_refl eq_refl eq_refl)
    as (st' & Hrun & Hfile & _).
  exists st'. split; [exact Hrun | exact Hfile].
Defined.

(** X30: a selected command or parallel component that is not in the
    registry and whose spec has no environment, neither at the top level nor
    under a [task] mapping: after the one lookup of the component itself the
    error is logged, the component joins the failure list, no file is written
    and no creation command is issued. *)
Theorem component_without_environment_is_not_created
    (cloud : Cloud) (args : Args) (asset : AssetConfig) (st : State)
    (d : list (string * yaml)) (n : yaml) :
  type asset = COMPONENT ->
  In (component_type asset) [None; Some "command"; Some "parallel"] ->
  selected args asset = true ->
  az_show cloud (effects st) "component" (name asset) (version asset)
          (registry_name args) = None ->
  dict_get (spec_with_path asset) (fs st) = Some (Yaml (YMap d)) ->
  dict_get "name" d = Some n ->
  dict_get "environment" d = None ->
  (dict_get "task" d = None \/
   exists task, dict_get "task" d = Some (YMap task) /\
                dict_get "environment" task = None) ->
  exists st',
    publish_asset cloud args asset st = (Return tt, st') /\
    fs st' = fs st /\
    failure_list st' = (failure_list st ++ [asset])%list /\
    effects st'
    = (effects st
         ++ [AzShow "component" (name asset) (version asset) (registry_name args)])%list /\
    log st' = (log st ++ [ErrNoEnvironment n])%list.
Proof.
  intros Htype Hplain Hsel Hshow Hfile Hname Hnone Htask.
  unfold publish_asset. rewrite Hsel, Htype. cbn [negb asset_type_value].
  unfold bind at 1. unfold record_asset_id.
  unfold bind at 1. rewrite get_asset_details_run.
  cbn [effects fs log failure_list asset_ids]. rewrite Hshow.
  assert (Hbranch :
    (match component_type asset with
     | Some t => String.eqb t "pipeline"
     | None => false
     end) = false /\
    (match component_type asset with
     | Some t => str_in t ["command"; "parallel"]
     | None => true
     end) = true).
  { destruct Hplain as [<-|[<-|[<-|[]]]]; split; reflexivity. }
  destruct Hbranch as [-> ->].
  rewrite bind_run.
  unfold validate_update_component. cbv zeta.
  rewrite bind_run. unfold read_file. cbn [fs]. rewrite Hfile, Hname.
  unfold locate_environment, dict_has. rewrite Hnone.
  destruct Htask as [-> | [task [-> ->]]];
    (eexists; split; [reflexivity|]; repeat split).
Qed.

Lemma component_without_environment_is_not_created_witness :
  exists st',
    publish_asset empty_registry (release (Some "rc1")) labelled_component
      (on_disk "train/spec.yaml"
         (YMap [("name", YStr "train"); ("task", YMap [("type", YStr "run_function")])]))
    = (Return tt, st') /\
    fs st' = [("train/spec.yaml",
               Yaml (YMap [("name", YStr "train");
                           ("task", YMap [("type", YStr "run_function")])]))] /\
    failure_list st' = [labelled_component] /\
    effects st' = [AzShow "component" "train" "1.0" "target"] /\
    log st' = [ErrNoEnvironment (YStr "train")].
Proof.
  refine (component_without_environment_is_not_created empty_registry
            (release (Some "rc1")) labelled_component
            (on_disk "train/spec.yaml"
               (YMap [("name", YStr "train");
                      ("task", YMap [("type", YStr "run_function")])]))
            [("name", YStr "train"); ("task", YMap [("type", YStr "run_function")])]
            (YStr "train") eq_refl _ eq_refl eq_refl eq_refl eq_refl eq_refl _).
  - left. reflexivity.
  - right. exists [("type", YStr "run_function")]. split; reflexivity.
Defined.

End TaskEnvironmentExtras.
